(** * Detection ingestion and aggregation service

    A shallow embedding of the two deployment entry points of the object
    counting back end:

    - [src/unnamed/part_000], the function-per-request adapter
      ([exports.handler] and its [handle...] functions), in [Module Api];
    - [src/backend/server.js], the standalone Express server and its five
      routes, in [Module Server].

    [Module JS] has the JavaScript values and built-ins the handlers use
    (truthiness, property reads, the conversions to a number, a text and
    a property key, [+], [Set], [toFixed], a plain object as a dictionary,
    [Object.entries], [JSON.stringify]); numbers are IEEE binary64 values
    ([PrimFloat]), as JavaScript has them.  [Module Pg] has the relation
    [detections] and the five SQL statements the handlers send through
    [pool.query].  [Module Ingest] has the statements both ingest handlers
    share, on any parsed body, and [Module Aggregator] the same statements
    on a batch of typed records; [Module Router] has the five operations
    as either hosting serves them, [Module Spec] the specification's words,
    [Module Session] the store over a sequence of requests.  The lemmas
    follow. *)

From Stdlib Require Import ZArith QArith Qabs Qpower Qround Uint63 Floats Ascii String.
From Stdlib Require Import DecimalString DecimalN DecimalPos Lia.
From stdpp Require Import gmap strings list sorting.

Local Open Scope list_scope.
Local Open Scope string_scope.

#[local] Set Warnings "-register-all".

(* ===================================================================== *)
(** ** JavaScript values                                                  *)
(* ===================================================================== *)

Module JS.

(** What [JSON.parse] (or [express.json()]) can build. *)
Inductive JValue : Type :=
| JNull
| JBool (b : bool)
| JNum (x : float)
| JStr (s : string)
| JArr (items : list JValue)
| JObj (fields : list (string * JValue)).

(** A JavaScript number holding a count.  Exact below 2^53; array and
    string lengths stay below 2^32. *)
Definition number_of_nat (n : nat) : float :=
  PrimFloat.of_uint63 (Uint63.of_Z (Z.of_nat n)).

(** Own property [k] of a parsed object; a later duplicate key of the JSON
    text overwrites an earlier one. *)
Fixpoint own_field (fields : list (string * JValue)) (k : string) : option JValue :=
  match fields with
  | [] => None
  | (k', v) :: rest =>
      match own_field rest k with
      | Some w => Some w
      | None => if String.eqb k' k then Some v else None
      end
  end.

(** [v.k] for the keys the handlers read ([source], [objects], [class],
    [score]): none of them is an index, [length], or a member of a built-in
    prototype, so only a parsed object can have them.  [None] is
    [undefined]. *)
Definition get_field (v : JValue) (k : string) : option JValue :=
  match v with
  | JObj fields => own_field fields k
  | _ => None
  end.

(** ToBoolean. *)
Definition truthy (v : JValue) : bool :=
  match v with
  | JNull => false
  | JBool b => b
  | JNum x => negb (PrimFloat.eqb x 0 || PrimFloat.is_nan x)
  | JStr s => negb (String.eqb s "")
  | JArr _ | JObj _ => true
  end.

(** [!v] where [v] may be [undefined]. *)
Definition not_ (v : option JValue) : bool :=
  match v with
  | None => true
  | Some w => negb (truthy w)
  end.

(** [v === 0]. *)
Definition strict_eq_zero (v : option JValue) : bool :=
  match v with
  | Some (JNum x) => PrimFloat.eqb x 0
  | _ => false
  end.

(** [v.length === 0], read on a truthy value only.  An array or a string
    has its length, a parsed object its own [length] property if any, a
    number or a boolean has [undefined]. *)
Definition length_is_zero (v : JValue) : bool :=
  match v with
  | JArr items => Nat.eqb (List.length items) 0
  | JStr s => Nat.eqb (String.length s) 0
  | JObj fields => strict_eq_zero (own_field fields "length")
  | _ => false
  end.

Definition is_array (v : JValue) : bool :=
  match v with
  | JArr _ => true
  | _ => false
  end.

(** *** Number.prototype.toFixed *)

(** The characters a number is printed with.  Magnitudes from 10^21 on are
    printed by [Number::toString] in exponent notation; those characters are
    not reproduced. *)
Inductive NumberText : Type :=
| Text (s : string)
| ExponentText (x : float).

(** Decimal digits of a non-negative integer. *)
Definition digits (n : Z) : string :=
  NilZero.string_of_uint (N.to_uint (Z.to_N n)).

(** The integer [n] for which [n / 10^f - x] is as close to zero as
    possible, the larger one of two, for [x = m * 2^e]. *)
Definition nearest_scaled (f : Z) (m : positive) (e : Z) : Z :=
  if (0 <=? e)%Z then (Zpos m * 2 ^ e * 10 ^ f)%Z
  else ((2 * (Zpos m * 10 ^ f) + 2 ^ (- e)) / (2 * 2 ^ (- e)))%Z.

(** [10^21 <= m * 2^e]. *)
Definition at_least_1e21 (m : positive) (e : Z) : bool :=
  if (0 <=? e)%Z then (10 ^ 21 <=? Zpos m * 2 ^ e)%Z
  else (10 ^ 21 * 2 ^ (- e) <=? Zpos m)%Z.

Definition digit (d : Z) : ascii :=
  ascii_of_nat (48 + Z.to_nat d).

(** Steps 9 and 10 of toFixed for two fraction digits: the digits of [n],
    padded with zeros on the left up to three characters, with a point
    before the last two; that is the digits of [n / 100], the point, and
    the two digits of [n mod 100]. *)
Definition point2 (n : Z) : string :=
  digits (n / 100) ++ "." ++ String (digit (n / 10 mod 10)) (String (digit (n mod 10)) "").

(** [x.toFixed(2)]. *)
Definition toFixed2 (x : float) : NumberText :=
  match Prim2SF x with
  | S754_nan => Text "NaN"
  | S754_infinity false => Text "Infinity"
  | S754_infinity true => Text "-Infinity"
  | S754_zero _ => Text "0.00"
  | S754_finite s m e =>
      if at_least_1e21 m e then ExponentText x
      else Text ((if s then "-" else "") ++ point2 (nearest_scaled 2 m e))
  end.

(** *** A plain object used as a dictionary *)

(** The values [objectCounts] can hold. *)
Inductive Count : Type :=
| CNum (n : nat)
| CStr (s : string).

(** Own enumerable string-keyed properties, in creation order. *)
Definition JsObject : Type := list (string * Count).

(** What [{}] inherits from [Object.prototype]. *)
Inductive Inherited : Type :=
| ProtoFunction (name : string)
| ProtoAccessor.

Definition object_prototype (k : string) : option Inherited :=
  if String.eqb k "__proto__" then Some ProtoAccessor
  else if String.eqb k "constructor" then Some (ProtoFunction "Object")
  else if existsb (String.eqb k)
            ["__defineGetter__"; "__defineSetter__"; "hasOwnProperty";
             "__lookupGetter__"; "__lookupSetter__"; "isPrototypeOf";
             "propertyIsEnumerable"; "toString"; "valueOf"; "toLocaleString"]
       then Some (ProtoFunction k)
  else None.

Fixpoint get_own (o : JsObject) (k : string) : option Count :=
  match o with
  | [] => None
  | (k', v) :: rest => if String.eqb k' k then Some v else get_own rest k
  end.

Fixpoint set_own (o : JsObject) (k : string) (v : Count) : JsObject :=
  match o with
  | [] => [(k, v)]
  | (k', v') :: rest =>
      if String.eqb k' k then (k', v) :: rest else (k', v') :: set_own rest k v
  end.

(** [(o[k] || 0) + 1].  A number is bumped; a string (or an inherited
    function or object, converted to its source text) gets the character
    [1] appended. *)
Definition or_zero_plus_one (o : JsObject) (k : string) : Count :=
  match get_own o k with
  | Some (CNum n) => CNum (n + 1)
  | Some (CStr s) => if String.eqb s "" then CNum 1 else CStr (s ++ "1")
  | None =>
      match object_prototype k with
      | Some (ProtoFunction f) => CStr ("function " ++ f ++ "() { [native code] }1")
      | Some ProtoAccessor => CStr "[object Object]1"
      | None => CNum 1
      end
  end.

(** [o[k] = v] for a primitive [v].  The inherited [__proto__] setter
    ignores a primitive; every other key becomes (or stays) an own
    property. *)
Definition assign (o : JsObject) (k : string) (v : Count) : JsObject :=
  if String.eqb k "__proto__" then o else set_own o k v.

(** A canonical numeric string below 2^32 - 1 is an array index. *)
Definition array_index (k : string) : option N :=
  match NilEmpty.uint_of_string k with
  | Some d =>
      let n := N.of_uint d in
      if String.eqb (NilZero.string_of_uint (N.to_uint n)) k && (n <? 2 ^ 32 - 1)%N
      then Some n else None
  | None => None
  end.

Fixpoint insert_index (e : N * (string * Count)) (l : list (N * (string * Count)))
  : list (N * (string * Count)) :=
  match l with
  | [] => [e]
  | e' :: rest =>
      if (fst e <=? fst e')%N then e :: l else e' :: insert_index e rest
  end.

Definition index_entries (o : JsObject) : list (N * (string * Count)) :=
  foldr insert_index []
    (omap (fun kv => match array_index (fst kv) with
                     | Some i => Some (i, kv)
                     | None => None
                     end) o).

(** [Object.entries(o)]: array-index keys in ascending numeric order, then
    the other keys in creation order. *)
Definition entries (o : JsObject) : list (string * Count) :=
  map snd (index_entries o)
  ++ filter (fun kv => array_index (fst kv) = None) o.

(** [String(count)] inside a template literal. *)
Definition count_text (c : Count) : string :=
  match c with
  | CNum n => digits (Z.of_nat n)
  | CStr s => s
  end.

(** [items.join(sep)] on strings. *)
Definition join (sep : string) (items : list string) : string :=
  String.concat sep items.

(** *** Number::toString *)

Definition Qlt_bool (a b : Q) : bool := negb (Qle_bool b a).

(** [v] is a number that round-to-nearest, ties to even, takes to
    [m * 2^e], for a mantissa and an exponent as [Prim2SF] gives them. *)
Definition rounds_to (m : positive) (e : Z) (v : Q) : bool :=
  let x := (inject_Z (Zpos m) * Qpower 2 e)%Q in
  let below :=
    if Pos.eqb m (2 ^ 52) && (-1074 <? e)%Z then Qpower 2 (e - 2) else Qpower 2 (e - 1) in
  let above := Qpower 2 (e - 1) in
  if Z.even (Zpos m)
  then Qle_bool (x - below) v && Qle_bool v (x + above)
  else Qlt_bool (x - below) v && Qlt_bool v (x + above).

Fixpoint magnitude_up (fuel : nat) (x : Q) (n : Z) : Z :=
  match fuel with
  | O => n
  | S f => if Qlt_bool x (Qpower 10 n) then n else magnitude_up f x (n + 1)
  end.

Fixpoint magnitude_down (fuel : nat) (x : Q) (n : Z) : Z :=
  match fuel with
  | O => n
  | S f => if Qle_bool (Qpower 10 (n - 1)) x then n else magnitude_down f x (n - 1)
  end.

(** The [n] with [10^(n-1) <= m * 2^e < 10^n], from an estimate that is
    at most a few units off. *)
Definition magnitude (m : positive) (e : Z) : Z :=
  let x := (inject_Z (Zpos m) * Qpower 2 e)%Q in
  let estimate := ((Z.log2 (Zpos m) + e) * 30103 / 100000)%Z in
  magnitude_down 8 x (magnitude_up 8 x estimate).

(** The integer [s] of [k] digits, if any, for which [s * 10^(n-k)] is
    rounded to [x = m * 2^e]: the one closest to [x], the even one of two
    as close.  Where that is [10^k], it is written 1 with [n + 1]. *)
Definition shortest_at (m : positive) (e n k : Z) : option (Z * Z) :=
  let x := (inject_Z (Zpos m) * Qpower 2 e)%Q in
  let t := (x / Qpower 10 (n - k))%Q in
  let lo := Qfloor t in
  let hi := (lo + 1)%Z in
  let ok c := rounds_to m e (inject_Z c * Qpower 10 (n - k)) in
  let pick c := if (c =? 10 ^ k)%Z then (1, n + 1)%Z else (c, n) in
  match ok lo, ok hi with
  | true, true =>
      let dl := (t - inject_Z lo)%Q in
      let dh := (inject_Z hi - t)%Q in
      Some (pick (if Qlt_bool dl dh then lo
                  else if Qlt_bool dh dl then hi
                  else if Z.even lo then lo else hi))
  | true, false => Some (pick lo)
  | false, true => Some (pick hi)
  | false, false => None
  end.

(** The digits [s] with [k] as small as possible, from [k] on; 17 digits
    always do. *)
Fixpoint shortest (fuel : nat) (m : positive) (e n k : Z) : Z * Z :=
  match fuel with
  | O => (0, n)%Z
  | S f =>
      match shortest_at m e n k with
      | Some r => r
      | None => shortest f m e n (k + 1)
      end
  end.

Fixpoint zeros (n : nat) : string :=
  match n with
  | O => EmptyString
  | S n' => String "0" (zeros n')
  end.

(** The digits [s] and the exponent [n] as Number::toString prints them:
    plainly for [-6 < n <= 21], with an exponent otherwise. *)
Definition decimal_text (s n : Z) : string :=
  let D := digits s in
  let k := Z.of_nat (String.length D) in
  if ((k <=? n) && (n <=? 21))%Z then D ++ zeros (Z.to_nat (n - k))
  else if ((0 <? n) && (n <=? 21))%Z
       then substring 0 (Z.to_nat n) D ++ "." ++ substring (Z.to_nat n) (Z.to_nat (k - n)) D
  else if ((-6 <? n) && (n <=? 0))%Z then "0." ++ zeros (Z.to_nat (- n)) ++ D
  else
    let e := (n - 1)%Z in
    (if (k =? 1)%Z then D
     else substring 0 1 D ++ "." ++ substring 1 (Z.to_nat (k - 1)) D)
    ++ "e" ++ (if (e <? 0)%Z then "-" else "+") ++ digits (Z.abs e).

(** [String(x)] for a number [x]. *)
Definition number_text (x : float) : string :=
  match Prim2SF x with
  | S754_nan => "NaN"
  | S754_zero _ => "0"
  | S754_infinity s => (if s then "-" else "") ++ "Infinity"
  | S754_finite s m e =>
      let '(d, n) := shortest 17 m e (magnitude m e) 1 in
      (if s then "-" else "") ++ decimal_text d n
  end.

(** *** StringToNumber *)

(** The number that round-to-nearest, ties to even, takes [q >= 0] to. *)
Definition nearest_number (q : Q) : float :=
  if Qle_bool q 0 then 0%float
  else
    let l0 := (Z.log2 (Qnum q) - Z.log2 (Zpos (Qden q)))%Z in
    let l := if Qle_bool (Qpower 2 l0) q then l0 else (l0 - 1)%Z in
    let e := Z.max (-1074) (l - 52) in
    let t := (q / Qpower 2 e)%Q in
    let m := Qfloor t in
    let r := (t - inject_Z m)%Q in
    let m :=
      if Qlt_bool (1 # 2) r || (Qeq_bool r (1 # 2) && Z.odd m) then (m + 1)%Z else m in
    let '(m, e) := if (m =? 2 ^ 53)%Z then (2 ^ 52, e + 1)%Z else (m, e) in
    if (m =? 0)%Z then 0%float
    else if (971 <? e)%Z then infinity
    else SF2Prim (S754_finite false (Z.to_pos m) e).

(** A white space or line terminator of JavaScript at the head of [s]
    (U+0009 to U+000D, U+0020, U+00A0, U+1680, U+2000 to U+200A, U+2028,
    U+2029, U+202F, U+205F, U+3000, U+FEFF, in UTF-8), and what follows. *)
Definition white_space (s : string) : option string :=
  match s with
  | String c r =>
      let b := nat_of_ascii c in
      if ((9 <=? b) && (b <=? 13))%nat || (b =? 32)%nat then Some r
      else
        match b, r with
        | 194, String c1 r1 => if (nat_of_ascii c1 =? 160)%nat then Some r1 else None
        | 225, String c1 (String c2 r2) =>
            if ((nat_of_ascii c1 =? 154) && (nat_of_ascii c2 =? 128))%nat then Some r2
            else None
        | 226, String c1 (String c2 r2) =>
            let b1 := nat_of_ascii c1 in
            let b2 := nat_of_ascii c2 in
            if ((b1 =? 128)
                && (((128 <=? b2) && (b2 <=? 138)) || (b2 =? 168) || (b2 =? 169)
                    || (b2 =? 175)))%nat
               || ((b1 =? 129) && (b2 =? 159))%nat
            then Some r2 else None
        | 227, String c1 (String c2 r2) =>
            if ((nat_of_ascii c1 =? 128) && (nat_of_ascii c2 =? 128))%nat then Some r2
            else None
        | 239, String c1 (String c2 r2) =>
            if ((nat_of_ascii c1 =? 187) && (nat_of_ascii c2 =? 191))%nat then Some r2
            else None
        | _, _ => None
        end
  | EmptyString => None
  end.

Fixpoint skip_white (fuel : nat) (s : string) : string :=
  match fuel with
  | O => s
  | S f =>
      match white_space s with
      | Some r => skip_white f r
      | None => s
      end
  end.

Definition trim_left (s : string) : string := skip_white (String.length s) s.

Definition all_white (s : string) : bool :=
  match trim_left s with
  | EmptyString => true
  | _ => false
  end.

(** The value of a digit of a base up to 16. *)
Definition digit_value (c : ascii) : option Z :=
  let b := Z.of_nat (nat_of_ascii c) in
  if ((48 <=? b) && (b <=? 57))%Z then Some (b - 48)%Z
  else if ((97 <=? b) && (b <=? 102))%Z then Some (b - 87)%Z
  else if ((65 <=? b) && (b <=? 70))%Z then Some (b - 55)%Z
  else None.

(** The leading digits of [s] in base [base]: how many, their value after
    [value], and what follows them. *)
Fixpoint read_digits (base : Z) (s : string) (count : nat) (value : Z)
  : nat * Z * string :=
  match s with
  | String c r =>
      match digit_value c with
      | Some d =>
          if (d <? base)%Z then read_digits base r (S count) (value * base + d)%Z
          else (count, value, s)
      | None => (count, value, s)
      end
  | EmptyString => (count, value, s)
  end.

Definition read_sign (s : string) : bool * string :=
  match s with
  | String "-" r => (true, r)
  | String "+" r => (false, r)
  | _ => (false, s)
  end.

(** The exponent part at the head of [s], if there is a whole one. *)
Definition read_exponent (s : string) : Z * string :=
  match s with
  | String c r =>
      if Ascii.eqb c "e" || Ascii.eqb c "E" then
        let '(neg, r') := read_sign r in
        let '(n, v, rest) := read_digits 10 r' 0 0 in
        match n with
        | O => (0%Z, s)
        | _ => ((if neg then - v else v)%Z, rest)
        end
      else (0%Z, s)
  | EmptyString => (0%Z, s)
  end.

(** A literal with the prefix of base 16, 8 or 2; it takes no sign. *)
Definition non_decimal (s : string) : option float :=
  match s with
  | String "0" (String p r) =>
      let base :=
        if Ascii.eqb p "x" || Ascii.eqb p "X" then Some 16%Z
        else if Ascii.eqb p "o" || Ascii.eqb p "O" then Some 8%Z
        else if Ascii.eqb p "b" || Ascii.eqb p "B" then Some 2%Z
        else None in
      match base with
      | Some b =>
          let '(n, v, rest) := read_digits b r 0 0 in
          match n with
          | O => Some nan
          | _ => Some (if all_white rest then nearest_number (inject_Z v) else nan)
          end
      | None => None
      end
  | _ => None
  end.

Definition after_prefix (p s : string) : option string :=
  if String.prefix p s
  then Some (substring (String.length p) (String.length s - String.length p) s)
  else None.

(** [Number(s)] for a string [s]: white space around a decimal literal
    with an optional sign, fraction and exponent, [Infinity], or a literal
    of base 16, 8 or 2; the empty string is 0, any other text [NaN].  The
    decimal value is rounded to the nearest number. *)
Definition text_number (s : string) : float :=
  let s := trim_left s in
  match s with
  | EmptyString => 0%float
  | _ =>
      match non_decimal s with
      | Some x => x
      | None =>
          let '(neg, r) := read_sign s in
          let signed x := if neg then (- x)%float else x in
          match after_prefix "Infinity" r with
          | Some rest => if all_white rest then signed infinity else nan
          | None =>
              let '(ni, vi, r1) := read_digits 10 r 0 0 in
              let '(nf, vf, r2) :=
                match r1 with
                | String "." r' => read_digits 10 r' 0 vi
                | _ => (O, vi, r1)
                end in
              match (ni + nf)%nat with
              | O => nan
              | _ =>
                  let '(ex, rest) := read_exponent r2 in
                  if all_white rest
                  then signed (nearest_number (inject_Z vf * Qpower 10 (ex - Z.of_nat nf)))
                  else nan
              end
          end
      end
  end.

(** *** Conversions of a parsed value *)

(** [String(v)], where [v] may be [undefined]; [None] when it throws a
    TypeError.  An array is its elements joined by commas, [null] counting
    as the empty text.  A parsed object is ["[object Object]"], unless it
    has an own property [toString]: that one is no function, and the
    inherited [valueOf] returns the object, so that no primitive is
    found. *)
Fixpoint text_of_value (v : JValue) : option string :=
  match v with
  | JNull => Some "null"
  | JBool b => Some (if b then "true" else "false")
  | JNum x => Some (number_text x)
  | JStr s => Some s
  | JArr items =>
      (fix joined (l : list JValue) : option string :=
         match l with
         | [] => Some ""
         | i :: rest =>
             match (match i with JNull => Some "" | _ => text_of_value i end),
                   joined rest with
             | Some a, Some b =>
                 Some (match rest with [] => a | _ => a ++ "," ++ b end)
             | _, _ => None
             end
         end) items
  | JObj fields =>
      match own_field fields "toString" with
      | Some _ => None
      | None => Some "[object Object]"
      end
  end.

Definition text_of (v : option JValue) : option string :=
  match v with
  | None => Some "undefined"
  | Some w => text_of_value w
  end.

(** What [sum] holds while [reduce] runs: a number, or a string once a
    string was added. *)
Inductive Sum : Type :=
| SNum (x : float)
| SStr (s : string).

Definition sum_text (s : Sum) : string :=
  match s with
  | SNum x => number_text x
  | SStr t => t
  end.

(** [sum + v]: concatenation when either side is, or is converted to, a
    string; the addition of numbers otherwise, [undefined] counting as
    [NaN], [null] and [false] as 0, [true] as 1. *)
Definition plus (sum : Sum) (v : option JValue) : option Sum :=
  let concat (t : option string) :=
    match t with
    | Some t => Some (SStr (sum_text sum ++ t))
    | None => None
    end in
  let add (y : float) :=
    match sum with
    | SNum x => Some (SNum (x + y))
    | SStr t => concat (Some (number_text y))
    end in
  match v with
  | Some (JNum y) => add y
  | Some (JStr _) | Some (JArr _) | Some (JObj _) => concat (text_of v)
  | _ =>
      match sum with
      | SNum x =>
          Some (SNum (x + match v with
                          | None => nan
                          | Some (JBool true) => 1
                          | _ => 0
                          end))
      | SStr t => concat (text_of v)
      end
  end.

(** [Number(sum)]. *)
Definition sum_number (s : Sum) : float :=
  match s with
  | SNum x => x
  | SStr t => text_number t
  end.

(** SameValueZero, the equality of [Set]: primitives by value, [NaN]
    equal to itself and 0 to -0; every parsed array or object is an object
    of its own. *)
Definition same_value_zero (a b : option JValue) : bool :=
  match a, b with
  | None, None => true
  | Some JNull, Some JNull => true
  | Some (JBool x), Some (JBool y) => Bool.eqb x y
  | Some (JNum x), Some (JNum y) =>
      PrimFloat.eqb x y || (PrimFloat.is_nan x && PrimFloat.is_nan y)
  | Some (JStr x), Some (JStr y) => String.eqb x y
  | _, _ => false
  end.

(** [set.add(v)], on the members in insertion order. *)
Definition set_add (set : list (option JValue)) (v : option JValue)
  : list (option JValue) :=
  if existsb (same_value_zero v) set then set else set ++ [v].

(** *** JSON.stringify *)

(** The keys of a parsed object in the order of their creation, each
    once. *)
Fixpoint created_keys (seen : list string) (fields : list (string * JValue))
  : list string :=
  match fields with
  | [] => []
  | (k, _) :: rest =>
      if existsb (String.eqb k) seen then created_keys seen rest
      else k :: created_keys (k :: seen) rest
  end.

Fixpoint insert_key (e : N * string) (l : list (N * string)) : list (N * string) :=
  match l with
  | [] => [e]
  | e' :: rest => if (fst e <=? fst e')%N then e :: l else e' :: insert_key e rest
  end.

(** The own property keys of a parsed object as they are enumerated:
    array indices in ascending order, then the others as created. *)
Definition own_keys (fields : list (string * JValue)) : list string :=
  let keys := created_keys [] fields in
  map snd (fold_right insert_key []
             (flat_map (fun k => match array_index k with
                                 | Some i => [(i, k)]
                                 | None => []
                                 end) keys))
  ++ List.filter (fun k => match array_index k with
                           | Some _ => false
                           | None => true
                           end) keys.

Definition hex_digit (n : nat) : ascii :=
  ascii_of_nat (if (n <? 10)%nat then 48 + n else 87 + n).

(** QuoteJSONString on UTF-8: the quote, the backslash and the control
    characters are escaped. *)
Fixpoint escaped (s : string) : string :=
  match s with
  | EmptyString => EmptyString
  | String c r =>
      let b := nat_of_ascii c in
      (if (b =? 34)%nat then "\" ++ String c EmptyString
       else if (b =? 92)%nat then "\\"
       else if (b =? 8)%nat then "\b"
       else if (b =? 9)%nat then "\t"
       else if (b =? 10)%nat then "\n"
       else if (b =? 12)%nat then "\f"
       else if (b =? 13)%nat then "\r"
       else if (b <? 32)%nat
            then "\u00" ++ String (hex_digit (b / 16)) (String (hex_digit (b mod 16)) "")
       else String c EmptyString)
      ++ escaped r
  end.

Definition quoted (s : string) : string :=
  String (ascii_of_nat 34) (escaped s) ++ String (ascii_of_nat 34) EmptyString.

(** [JSON.stringify(v)]: a number that is not finite is printed as
    [null]. *)
Fixpoint json_text (v : JValue) : string :=
  match v with
  | JNull => "null"
  | JBool b => if b then "true" else "false"
  | JNum x =>
      match Prim2SF x with
      | S754_nan | S754_infinity _ => "null"
      | _ => number_text x
      end
  | JStr s => quoted s
  | JArr items => "[" ++ join "," (map json_text items) ++ "]"
  | JObj fields =>
      "{"
      ++ join ","
           ((fix members (l : list (string * JValue)) (keys : list string)
               : list string :=
               match keys with
               | [] => []
               | k :: rest =>
                   (quoted k ++ ":"
                    ++ (fix value (l : list (string * JValue)) (found : string)
                          : string :=
                          match l with
                          | [] => found
                          | (k', w) :: l' =>
                              value l' (if String.eqb k' k then json_text w else found)
                          end) l "null")
                   :: members l rest
               end) fields (own_keys fields))
      ++ "}"
  end.

End JS.

(* ===================================================================== *)
(** ** The relation [detections]                                          *)
(* ===================================================================== *)

(** PostgreSQL (from version 16 on, with UTF-8 as the encoding) as the five
    statements of the handlers see it through node-postgres, on a server
    that can be reached.  A failed statement leaves the rows of the
    relation as they were; the sequence is kept as it was too, and where
    an INSERT is refused for a value the lemmas speak of the rows only.
    A text is held as its UTF-8 bytes; it is well formed and has no NUL
    character. *)
Module Pg.

(** A [DECIMAL(5,2)] value, in hundredths. *)
Inductive Numeric : Type :=
| NaN
| Dec (hundredths : Z).

Record Row : Type := {
  id : Z;
  timestamp : Z;
  source : string;
  total_objects : Z;
  unique_objects : Z;
  avg_confidence : Numeric;
  detected_objects : string;
  objects_data : JS.JValue;
  created_at : Z
}.

(** The relation: the columns it was created with, its rows in the order
    they were written, and the next value of the [id] sequence. *)
Record Table : Type := {
  columns : list string;
  rows : list Row;
  serial : Z
}.

(** [None]: the relation does not exist. *)
Definition Db : Type := option Table.

Inductive Error : Type :=
| UndefinedTable
| UndefinedColumn (c : string)
| StringTooLong (n : nat)
| IntegerOutOfRange
| NumericOverflow
| InvalidNumber
| BigintOutOfRange
| NegativeLimit
| UniqueViolation.

(** A statement parameter as node-postgres receives it. *)
Inductive Param : Type :=
| PText (s : string)
| PNumber (n : Z).

Definition has_column (t : Table) (c : string) : bool :=
  existsb (String.eqb c) (columns t).

(** The first column of [cs] the relation lacks. *)
Definition missing_column (t : Table) (cs : list string) : option string :=
  List.find (fun c => negb (has_column t c)) cs.

(** [CREATE TABLE IF NOT EXISTS detections (...)]. *)
Definition create_table_if_not_exists (cols : list string) (db : Db) : Db :=
  match db with
  | Some t => Some t
  | None => Some {| columns := cols; rows := []; serial := 1 |}
  end.

(** *** Input conversions *)

Fixpoint all_spaces (s : string) : bool :=
  match s with
  | EmptyString => true
  | String c r => Ascii.eqb c " " && all_spaces r
  end.

(** A byte that continues a character of UTF-8. *)
Definition is_continuation (c : ascii) : bool :=
  ((128 <=? nat_of_ascii c) && (nat_of_ascii c <? 192))%nat.

(** The number of characters of a text. *)
Fixpoint characters (s : string) : nat :=
  match s with
  | EmptyString => 0
  | String c r => ((if is_continuation c then 0 else 1) + characters r)%nat
  end.

(** What follows the first [n] characters of a text. *)
Fixpoint excess (n : nat) (s : string) : string :=
  match s with
  | EmptyString => EmptyString
  | String c r =>
      if is_continuation c then excess n r
      else match n with
           | O => s
           | S n' => excess n' r
           end
  end.

(** Assignment to [VARCHAR(n)], which counts characters: those in excess
    are an error unless they are all spaces, which are cut. *)
Definition varchar (n : nat) (s : string) : Error + string :=
  if (characters s <=? n)%nat then inr s
  else if all_spaces (excess n s)
       then inr (substring 0 (String.length s - String.length (excess n s)) s)
  else inl (StringTooLong n).

(** *** Parameters as node-postgres sends them *)

(** An element of an array literal, between quotes. *)
Fixpoint escape_element (s : string) : string :=
  match s with
  | EmptyString => EmptyString
  | String c r =>
      (if (nat_of_ascii c =? 92)%nat || (nat_of_ascii c =? 34)%nat
       then String (ascii_of_nat 92) (String c EmptyString)
       else String c EmptyString)
      ++ escape_element r
  end.

(** [prepareValue(v)] for a value other than [null]: a string as it is, a
    number or a boolean by [toString], an array as an array literal, a
    parsed object by [JSON.stringify]. *)
Fixpoint prepare_value (v : JS.JValue) : string :=
  match v with
  | JS.JNull => "null"
  | JS.JBool b => if b then "true" else "false"
  | JS.JNum x => JS.number_text x
  | JS.JStr s => s
  | JS.JArr items =>
      "{"
      ++ JS.join ","
           (map (fun i =>
                   match i with
                   | JS.JNull => "NULL"
                   | JS.JArr _ => prepare_value i
                   | _ =>
                       String (ascii_of_nat 34) (escape_element (prepare_value i))
                       ++ String (ascii_of_nat 34) EmptyString
                   end) items)
      ++ "}"
  | JS.JObj _ => JS.json_text v
  end.

(** *** JSONB *)

(** The order of the keys of an object in JSONB: shorter first, then by
    bytes. *)
Definition key_lt (a b : string) : bool :=
  (String.length a <? String.length b)%nat
  || ((String.length a =? String.length b)%nat
      && match String.compare a b with
         | Lt => true
         | _ => false
         end).

(** A member put at its place; it takes the place of a member of the same
    key. *)
Fixpoint put_member (e : string * JS.JValue) (l : list (string * JS.JValue))
  : list (string * JS.JValue) :=
  match l with
  | [] => [e]
  | e' :: rest =>
      if String.eqb (fst e) (fst e') then e :: rest
      else if key_lt (fst e) (fst e') then e :: l
      else e' :: put_member e rest
  end.

(** A value as it comes back from a [JSONB] column it was written to with
    [JSON.stringify]: the keys of an object sorted, the last one of equal
    keys kept; a number that is not finite is [null], and -0 is 0. *)
Fixpoint jsonb (v : JS.JValue) : JS.JValue :=
  match v with
  | JS.JNum x =>
      match Prim2SF x with
      | S754_nan | S754_infinity _ => JS.JNull
      | S754_zero _ => JS.JNum 0
      | S754_finite _ _ _ => v
      end
  | JS.JArr items => JS.JArr (map jsonb items)
  | JS.JObj fields =>
      JS.JObj (fold_left (fun members kw => put_member (fst kw, jsonb (snd kw)) members)
                 fields [])
  | _ => v
  end.

(** Assignment to [INTEGER]. *)
Definition integer (n : Z) : Error + Z :=
  if ((- 2 ^ 31 <=? n) && (n <? 2 ^ 31))%Z then inr n else inl IntegerOutOfRange.

Definition unsigned_in (s : string) : option Z :=
  match s with
  | EmptyString => None
  | _ => option_map (fun d => Z.of_N (N.of_uint d)) (NilEmpty.uint_of_string s)
  end.

(** The characters before the first point, and those after it. *)
Fixpoint split_point (s : string) : string * option string :=
  match s with
  | EmptyString => (EmptyString, None)
  | String c r =>
      if Ascii.eqb c "." then (EmptyString, Some r)
      else let '(a, b) := split_point r in (String c a, b)
  end.

Definition signed (s : string) : bool * string :=
  match s with
  | String "-" r => (true, r)
  | String "+" r => (false, r)
  | _ => (false, s)
  end.

(** Input of a decimal text with exactly two fraction digits, the form
    [toFixed(2)] prints, as hundredths. *)
Definition hundredths_in (s : string) : option Z :=
  let '(neg, body) := signed s in
  match split_point body with
  | (a, Some b) =>
      if (String.length b =? 2)%nat then
        match unsigned_in a, unsigned_in b with
        | Some i, Some f => Some (if neg then - (i * 100 + f) else i * 100 + f)%Z
        | _, _ => None
        end
      else None
  | (_, None) => None
  end.

(** Assignment of [x.toFixed(2)] to [DECIMAL(5,2)]: [NaN] is a value, an
    infinity and everything from 1000.00 on overflows. *)
Definition numeric_5_2 (t : JS.NumberText) : Error + Numeric :=
  match t with
  | JS.ExponentText _ => inl NumericOverflow
  | JS.Text s =>
      if String.eqb s "NaN" then inr NaN
      else if String.eqb s "Infinity" || String.eqb s "-Infinity" then inl NumericOverflow
      else match hundredths_in s with
           | Some h => if (Z.abs h <? 100000)%Z then inr (Dec h) else inl NumericOverflow
           | None => inl InvalidNumber
           end
  end.

(** White space as [isspace] has it. *)
Definition is_space (c : ascii) : bool :=
  Ascii.eqb c " " || ((9 <=? nat_of_ascii c)%nat && (nat_of_ascii c <=? 13)%nat).

Fixpoint skip_spaces (s : string) : string :=
  match s with
  | EmptyString => EmptyString
  | String c r => if is_space c then skip_spaces r else s
  end.

Definition is_digit (c : ascii) : bool :=
  ((48 <=? nat_of_ascii c)%nat && (nat_of_ascii c <=? 57)%nat).

(** The value of a character as a digit of the base, if it is one. *)
Definition digit_of (base : Z) (c : ascii) : option Z :=
  let k := Z.of_nat (nat_of_ascii c) in
  let v := if is_digit c then Some (k - 48)%Z
           else if ((97 <=? k) && (k <=? 102))%Z then Some (k - 87)%Z
           else if ((65 <=? k) && (k <=? 70))%Z then Some (k - 55)%Z
           else None in
  match v with
  | Some d => if (d <? base)%Z then Some d else None
  | None => None
  end.

Inductive Scanned : Type :=
| OutOfRange
| Invalid
| Read (v : Z) (rest : string).

(** Digits of the base, with single underscores between them, read from
    the left after the value [acc]; [first] tells that nothing was read
    yet.  A digit is read only while the value does not exceed 2^63
    divided by the base; an underscore is followed by a digit, and does
    not come first in base 10. *)
Fixpoint scan (base : Z) (first : bool) (acc : Z) (s : string) : Scanned :=
  match s with
  | EmptyString => if first then Invalid else Read acc EmptyString
  | String c r =>
      match digit_of base c with
      | Some d =>
          if (2 ^ 63 / base <? acc)%Z then OutOfRange
          else scan base false (acc * base + d)%Z r
      | None =>
          if Ascii.eqb c "_" then
            if first && (base =? 10)%Z then Invalid
            else match r with
                 | String c' _ =>
                     match digit_of base c' with
                     | Some _ => scan base false acc r
                     | None => Invalid
                     end
                 | EmptyString => Invalid
                 end
          else if first then Invalid else Read acc s
      end
  end.

Definition one_of (c a b : ascii) : bool := Ascii.eqb c a || Ascii.eqb c b.

(** A number in base 16, 8 or 2 after the prefix [0x], [0o] or [0b], or
    else in base 10. *)
Definition scan_number (r : string) : Scanned :=
  match r with
  | String "0" (String x r') =>
      if one_of x "x" "X" then scan 16 true 0 r'
      else if one_of x "o" "O" then scan 8 true 0 r'
      else if one_of x "b" "B" then scan 2 true 0 r'
      else scan 10 true 0 r
  | _ => scan 10 true 0 r
  end%Z.

(** Input of a [bigint] parameter, as PostgreSQL reads it from version
    16 on: white space, an optional sign, the number, white space. *)
Definition bigint (p : Param) : Error + Z :=
  match p with
  | PNumber n => inr n
  | PText s =>
      let '(neg, r) := signed (skip_spaces s) in
      match scan_number r with
      | OutOfRange => inl BigintOutOfRange
      | Invalid => inl InvalidNumber
      | Read v rest =>
          match skip_spaces rest with
          | EmptyString =>
              let n := (if neg then - v else v)%Z in
              if ((- 2 ^ 63 <=? n) && (n <? 2 ^ 63))%Z then inr n
              else inl BigintOutOfRange
          | _ => inl InvalidNumber
          end
      end
  end.

(** The value of decimal digits read from the left after [acc], and
    whether a digit is read when the value so far exceeds a tenth of
    2^63. *)
Fixpoint uint_value (acc : Z) (d : Decimal.uint) : Z :=
  match d with
  | Decimal.Nil => acc
  | Decimal.D0 d' => uint_value (acc * 10 + 0)%Z d'
  | Decimal.D1 d' => uint_value (acc * 10 + 1)%Z d'
  | Decimal.D2 d' => uint_value (acc * 10 + 2)%Z d'
  | Decimal.D3 d' => uint_value (acc * 10 + 3)%Z d'
  | Decimal.D4 d' => uint_value (acc * 10 + 4)%Z d'
  | Decimal.D5 d' => uint_value (acc * 10 + 5)%Z d'
  | Decimal.D6 d' => uint_value (acc * 10 + 6)%Z d'
  | Decimal.D7 d' => uint_value (acc * 10 + 7)%Z d'
  | Decimal.D8 d' => uint_value (acc * 10 + 8)%Z d'
  | Decimal.D9 d' => uint_value (acc * 10 + 9)%Z d'
  end.

Fixpoint uint_overflows (acc : Z) (d : Decimal.uint) : bool :=
  match d with
  | Decimal.Nil => false
  | Decimal.D0 d' => (2 ^ 63 / 10 <? acc)%Z || uint_overflows (acc * 10 + 0)%Z d'
  | Decimal.D1 d' => (2 ^ 63 / 10 <? acc)%Z || uint_overflows (acc * 10 + 1)%Z d'
  | Decimal.D2 d' => (2 ^ 63 / 10 <? acc)%Z || uint_overflows (acc * 10 + 2)%Z d'
  | Decimal.D3 d' => (2 ^ 63 / 10 <? acc)%Z || uint_overflows (acc * 10 + 3)%Z d'
  | Decimal.D4 d' => (2 ^ 63 / 10 <? acc)%Z || uint_overflows (acc * 10 + 4)%Z d'
  | Decimal.D5 d' => (2 ^ 63 / 10 <? acc)%Z || uint_overflows (acc * 10 + 5)%Z d'
  | Decimal.D6 d' => (2 ^ 63 / 10 <? acc)%Z || uint_overflows (acc * 10 + 6)%Z d'
  | Decimal.D7 d' => (2 ^ 63 / 10 <? acc)%Z || uint_overflows (acc * 10 + 7)%Z d'
  | Decimal.D8 d' => (2 ^ 63 / 10 <? acc)%Z || uint_overflows (acc * 10 + 8)%Z d'
  | Decimal.D9 d' => (2 ^ 63 / 10 <? acc)%Z || uint_overflows (acc * 10 + 9)%Z d'
  end.

(** What ends a decimal number: the end of the text, or a character that
    is neither a digit nor an underscore. *)
Definition stops (r : string) : Prop :=
  match r with
  | EmptyString => True
  | String c _ => is_digit c = false /\ c <> "_"%char
  end.

(** *** The statements *)

(** [SELECT NOW()]. *)
Definition select_now (now : Z) (db : Db) : Error + Z := inr now.

Definition insert_columns : list string :=
  ["source"; "total_objects"; "unique_objects"; "avg_confidence";
   "detected_objects"; "objects_data"].

(** [INSERT INTO detections (source, total_objects, unique_objects,
    avg_confidence, detected_objects, objects_data)
    VALUES ($1, $2, $3, $4, $5, $6) RETURNING *].  The relation and its
    columns are looked up when the statement is parsed; the two integers
    are read when the parameters are bound; then the values are made to
    fit their columns in the order of the columns.  [id] comes from the
    sequence, is an [INTEGER] and the primary key; [timestamp] and
    [created_at] come from [CURRENT_TIMESTAMP]. *)
Definition insert (now : Z) (p1 : string) (p2 p3 : Z) (p4 : JS.NumberText)
    (p5 : string) (p6 : JS.JValue) (db : Db) : Error + (Row * Db) :=
  match db with
  | None => inl UndefinedTable
  | Some t =>
      match missing_column t insert_columns with
      | Some c => inl (UndefinedColumn c)
      | None =>
          match integer p2, integer p3 with
          | inl e, _ => inl e
          | _, inl e => inl e
          | inr total, inr unique =>
              match varchar 50 p1, numeric_5_2 p4, varchar 500 p5 with
              | inr src, inr avg, inr text =>
                  match integer (serial t) with
                  | inl e => inl e
                  | inr key =>
                      if existsb (fun r => (id r =? key)%Z) (rows t)
                      then inl UniqueViolation
                      else
                        let row := {| id := key; timestamp := now; source := src;
                                      total_objects := total; unique_objects := unique;
                                      avg_confidence := avg; detected_objects := text;
                                      objects_data := jsonb p6; created_at := now |} in
                        inr (row, Some {| columns := columns t;
                                          rows := (rows t ++ [row])%list;
                                          serial := (serial t + 1)%Z |})
                  end
              | inl e, _, _ => inl e
              | _, inl e, _ => inl e
              | _, _, inl e => inl e
              end
          end
      end
  end.

(** [ORDER BY created_at DESC], by insertion; rows written at the same
    instant keep the order they were written in. *)
Fixpoint insert_recent (r : Row) (sorted : list Row) : list Row :=
  match sorted with
  | [] => [r]
  | r' :: rest =>
      if (created_at r' <=? created_at r)%Z then r :: sorted
      else r' :: insert_recent r rest
  end.

Definition order_by_created_at_desc (rs : list Row) : list Row :=
  foldr insert_recent [] rs.

(** [LIMIT n]. *)
Fixpoint limit_rows (n : Z) (rs : list Row) : list Row :=
  match rs with
  | [] => []
  | r :: rest => if (n <=? 0)%Z then [] else r :: limit_rows (n - 1) rest
  end.

Definition select_columns : list string :=
  ["id"; "timestamp"; "source"; "total_objects"; "unique_objects";
   "avg_confidence"; "detected_objects"; "objects_data"; "created_at"].

(** [SELECT id, timestamp, source, total_objects, unique_objects,
    avg_confidence, detected_objects, objects_data, created_at
    FROM detections ORDER BY created_at DESC LIMIT $1]. *)
Definition select_recent (p1 : Param) (db : Db) : Error + list Row :=
  match db with
  | None => inl UndefinedTable
  | Some t =>
      match missing_column t select_columns with
      | Some c => inl (UndefinedColumn c)
      | None =>
          match bigint p1 with
          | inl e => inl e
          | inr n =>
              if (n <? 0)%Z then inl NegativeLimit
              else inr (limit_rows n (order_by_created_at_desc (rows t)))
          end
      end
  end.

(** The mean of a numeric column: [NaN] as soon as one input is, or else
    a numeric, [digits * 10^-scale], printed with [scale] fraction
    digits. *)
Inductive Average : Type :=
| AvgNaN
| AvgOf (digits : Z) (scale : Z).

Record Stats : Type := {
  total_detections : Z;
  total_objects_detected : option Z;
  overall_avg_confidence : option Average;
  max_objects_in_detection : option Z
}.

(** Transition functions of the aggregates; [None] is SQL [NULL], the
    value of [SUM], [AVG] and [MAX] over no rows. *)
Definition count_step (acc : Z) (r : Row) : Z := (acc + 1)%Z.

Definition sum_step (acc : option Z) (r : Row) : option Z :=
  match acc with
  | None => Some (total_objects r)
  | Some s => Some (s + total_objects r)%Z
  end.

Definition max_step (acc : option Z) (r : Row) : option Z :=
  match acc with
  | None => Some (total_objects r)
  | Some m => Some (if (m <? total_objects r)%Z then total_objects r else m)
  end.

(** State of [AVG] over numerics: inputs seen, sum of the finite ones in
    hundredths, NaN inputs seen. *)
Definition avg_step (acc : Z * Z * Z) (r : Row) : Z * Z * Z :=
  let '(n, sum, nans) := acc in
  match avg_confidence r with
  | NaN => (n + 1, sum, nans + 1)%Z
  | Dec h => (n + 1, sum + h, nans)%Z
  end.

(** The weight and the first digit of a positive integer written in
    base 10000, as a numeric holds it. *)
Fixpoint first_digit (fuel : nat) (i : Z) : Z * Z :=
  match fuel with
  | O => (0, i)%Z
  | S f =>
      if (i <? 10000)%Z then (0, i)%Z
      else let '(w, d) := first_digit f (i / 10000) in ((w + 1)%Z, d)
  end.

(** The same of the sum of a column of two fraction digits, given in
    hundredths; both are 0 for the sum 0. *)
Definition sum_first_digit (sum : Z) : Z * Z :=
  let a := Z.abs sum in
  if (a =? 0)%Z then (0, 0)%Z
  else if (a <? 100)%Z then (-1, a * 100)%Z
  else first_digit (Z.to_nat (Z.log2 a)) (a / 100).

(** The scale the division of numerics gives its result: 16 significant
    digits from the estimated weight of the quotient on, and no fewer
    fraction digits than the operands have (here 2). *)
Definition div_scale (sum n : Z) : Z :=
  let '(w1, d1) := sum_first_digit sum in
  let '(w2, d2) := first_digit (Z.to_nat (Z.log2 n)) n in
  let qweight := (w1 - w2 - (if d1 <=? d2 then 1 else 0))%Z in
  Z.min 1000 (Z.max (16 - qweight * 4) 2).

(** [a / b] for [0 < b], rounded to an integer, half away from zero. *)
Definition round_div (a b : Z) : Z :=
  (Z.sgn a * ((2 * Z.abs a + b) / (2 * b)))%Z.

Definition avg_final (acc : Z * Z * Z) : option Average :=
  let '(n, sum, nans) := acc in
  if (n =? 0)%Z then None
  else if (0 <? nans)%Z then Some AvgNaN
  else let scale := div_scale sum n in
       Some (AvgOf (round_div (sum * 10 ^ scale) (100 * n)) scale).

Definition stats_columns : list string := ["total_objects"; "avg_confidence"].

(** [SELECT COUNT( * ) as total_detections,
    SUM(total_objects) as total_objects_detected,
    AVG(avg_confidence) as overall_avg_confidence,
    MAX(total_objects) as max_objects_in_detection FROM detections]. *)
Definition select_stats (db : Db) : Error + Stats :=
  match db with
  | None => inl UndefinedTable
  | Some t =>
      match missing_column t stats_columns with
      | Some c => inl (UndefinedColumn c)
      | None =>
          inr {| total_detections := fold_left count_step (rows t) 0%Z;
                 total_objects_detected := fold_left sum_step (rows t) None;
                 overall_avg_confidence :=
                   avg_final (fold_left avg_step (rows t) (0, 0, 0)%Z);
                 max_objects_in_detection := fold_left max_step (rows t) None |}
      end
  end.

(** [DELETE FROM detections]. *)
Definition delete_all (db : Db) : Error + Db :=
  match db with
  | None => inl UndefinedTable
  | Some t => inr (Some {| columns := columns t; rows := []; serial := serial t |})
  end.

End Pg.

(* ===================================================================== *)
(** ** The response envelope                                              *)
(* ===================================================================== *)

Module Http.

(** What a [catch] block can receive. *)
Inductive Thrown : Type :=
| SyntaxError
| TypeError
| QueryError (e : Pg.Error).

(** The object handed to [JSON.stringify] or [res.json], by shape; the
    fixed [message] texts of the success shapes are left out.  [ErrorPage]
    is the page Express answers with when a middleware fails. *)
Inductive Body : Type :=
| Empty
| HealthOk (timestamp : Z)
| HealthError (message : Thrown)
| Saved (data : Pg.Row)
| Listed (count : nat) (data : list Pg.Row)
| StatsOf (stats : Pg.Stats)
| Deleted
| Failure (error : string) (details : option Thrown)
| ErrorPage.

Record Response : Type := {
  statusCode : Z;
  headers : list (string * string);
  body : Body
}.

(** The outcome of a handler: every handler catches what its statements
    throw, so that every run returns. *)
Inductive Run (A : Type) : Type :=
| Returns (a : A).

Arguments Returns {A} a.

End Http.

(* ===================================================================== *)
(** ** A batch as typed records                                           *)
(* ===================================================================== *)

(** The statements of the ingest handlers on a batch read as typed
    records: objects whose [class] is a string and whose [score] is a
    number (lemma [typed_values] relates them to [Module Ingest]). *)
Module Aggregator.

Import JS.

Record DetectedObject : Type := {
  class : string;
  score : float
}.

(** The two fields the handlers read of an array element. *)
Definition detected (obj : JValue) : option DetectedObject :=
  match get_field obj "class", get_field obj "score" with
  | Some (JStr c), Some (JNum x) => Some {| class := c; score := x |}
  | _, _ => None
  end.

Definition is_null (v : JValue) : bool :=
  match v with
  | JNull => true
  | _ => false
  end.

(** [!objects || objects.length === 0]. *)
Definition no_objects (objects : option JValue) : bool :=
  not_ objects
  || match objects with
     | Some o => length_is_zero o
     | None => false
     end.

(** [source || 'camera'], for a [source] that is a string or falsy. *)
Definition source_or_camera (source : option JValue) : option string :=
  if not_ source then Some "camera"
  else match source with
       | Some (JStr s) => Some s
       | _ => None
       end.

Definition totalObjects (objects : list DetectedObject) : nat :=
  List.length objects.

(** [new Set(objects.map(obj => obj.class)).size]. *)
Definition uniqueObjects (objects : list DetectedObject) : nat :=
  size (list_to_set (map class objects) : gset string).

(** [(objects.reduce((sum, obj) => sum + obj.score, 0) / totalObjects) * 100]. *)
Definition avgConfidence (objects : list DetectedObject) : float :=
  (fold_left (fun sum obj => sum + score obj) objects 0
   / number_of_nat (totalObjects objects) * 100)%float.

Definition objectNames (objects : list DetectedObject) : list string :=
  map class objects.

(** [objectNames.forEach(name =>
      { objectCounts[name] = (objectCounts[name] || 0) + 1; })],
    starting from [{}]. *)
Definition objectCounts (objects : list DetectedObject) : JsObject :=
  fold_left (fun counts name => assign counts name (or_zero_plus_one counts name))
    (objectNames objects) [].

(** [Object.entries(objectCounts)
      .map(([name, count]) => `${name} (${count})`).join(', ')]. *)
Definition detectedObjectsText (objects : list DetectedObject) : string :=
  join ", "
    (map (fun '(name, count) => name ++ " (" ++ count_text count ++ ")")
       (entries (objectCounts objects))).

End Aggregator.

(* ===================================================================== *)
(** ** The statements both ingest handlers share                          *)
(* ===================================================================== *)

(** Lines 78 to 107 of [server.js] and 91 to 118 of [part_000] are the
    same text; it is embedded once, on the parsed elements of [objects],
    none of which is [null].  [None] stands for a TypeError. *)
Module Ingest.

Import JS.

Definition totalObjects (objects : list JValue) : nat :=
  List.length objects.

(** [new Set(objects.map(obj => obj.class)).size]. *)
Definition uniqueObjects (objects : list JValue) : nat :=
  List.length
    (fold_left set_add (map (fun obj => get_field obj "class") objects) []).

(** [objects.reduce((sum, obj) => sum + obj.score, 0)]. *)
Definition reduce (objects : list JValue) : option Sum :=
  fold_left (fun sum obj =>
               match sum with
               | Some s => plus s (get_field obj "score")
               | None => None
               end) objects (Some (SNum 0)).

(** [(objects.reduce(...) / totalObjects) * 100]. *)
Definition avgConfidence (objects : list JValue) : option float :=
  match reduce objects with
  | Some sum =>
      Some (sum_number sum / number_of_nat (totalObjects objects) * 100)%float
  | None => None
  end.

Definition objectNames (objects : list JValue) : list (option JValue) :=
  map (fun obj => get_field obj "class") objects.

(** [objectNames.forEach(name =>
      { objectCounts[name] = (objectCounts[name] || 0) + 1; })],
    starting from [{}]; the name is converted to a property key. *)
Definition objectCounts (names : list (option JValue)) : option JsObject :=
  fold_left (fun counts name =>
               match counts, text_of name with
               | Some o, Some key => Some (assign o key (or_zero_plus_one o key))
               | _, _ => None
               end) names (Some []).

(** [Object.entries(objectCounts)
      .map(([name, count]) => `${name} (${count})`).join(', ')]. *)
Definition detectedObjectsText (counts : JsObject) : string :=
  join ", "
    (map (fun '(name, count) => name ++ " (" ++ count_text count ++ ")")
       (entries counts)).

(** [source || 'camera'], as node-postgres sends it. *)
Definition source_param (source : option JValue) : string :=
  match source with
  | Some v => if truthy v then Pg.prepare_value v else "camera"
  | None => "camera"
  end.

(** The first five of [values]. *)
Definition values (source : option JValue) (objects : list JValue)
  : option (string * Z * Z * NumberText * string) :=
  match avgConfidence objects, objectCounts (objectNames objects) with
  | Some avg, Some counts =>
      Some (source_param source,
            Z.of_nat (totalObjects objects),
            Z.of_nat (uniqueObjects objects),
            toFixed2 avg,
            detectedObjectsText counts)
  | _, _ => None
  end.

End Ingest.

(* ===================================================================== *)
(** ** [part_000]: the function-per-request adapter                       *)
(* ===================================================================== *)

Module Api.

Import JS Http Aggregator.

(** [event.body] is kept as what [JSON.parse(event.body || '')] makes of
    it: [None] when it throws a [SyntaxError]. *)
Record Event : Type := {
  httpMethod : string;
  path : string;
  queryStringParameters : option (list (string * string));
  body : option JValue
}.

Definition detections_columns : list string :=
  ["id"; "timestamp"; "source"; "total_objects"; "unique_objects";
   "avg_confidence"; "detected_objects"; "objects_data"; "created_at"].

Definition initDatabase (db : Pg.Db) : Pg.Db :=
  Pg.create_table_if_not_exists detections_columns db.

Definition headers : list (string * string) :=
  [("Access-Control-Allow-Origin", "*");
   ("Access-Control-Allow-Headers", "Content-Type");
   ("Access-Control-Allow-Methods", "GET, POST, PUT, DELETE, OPTIONS");
   ("Content-Type", "application/json")].

Definition respond (status : Z) (b : Body) : Response :=
  {| Http.statusCode := status; Http.headers := headers; Http.body := b |}.

Definition handleOptions : Response := respond 200 Empty.

Definition handleHealth (now : Z) (db : Pg.Db) : Response :=
  match Pg.select_now now db with
  | inr ts => respond 200 (HealthOk ts)
  | inl e => respond 500 (HealthError (QueryError e))
  end.

Definition handlePostDetections (now : Z) (body : option JValue) (db : Pg.Db)
  : Run (Response * Pg.Db) :=
  let caught e :=
    Returns (respond 500 (Failure "Error guardando en base de datos" (Some e)), db) in
  match body with
  | None => caught SyntaxError
  | Some JNull => caught TypeError
  | Some parsed =>
      let source := get_field parsed "source" in
      let objects := get_field parsed "objects" in
      if no_objects objects then
        Returns (respond 400 (Failure "No hay objetos para guardar" None), db)
      else
        match objects with
        | Some (JArr items) =>
            if existsb is_null items then caught TypeError
            else
              match Ingest.values source items with
              | Some (p1, p2, p3, p4, p5) =>
                  match Pg.insert now p1 p2 p3 p4 p5 (JArr items) db with
                  | inr (row, db') => Returns (respond 200 (Saved row), db')
                  | inl e => caught (QueryError e)
                  end
              | None => caught TypeError
              end
        | _ => caught TypeError
        end
  end.

(** [query.limit]. *)
Fixpoint get_limit (query : list (string * string)) : option string :=
  match query with
  | [] => None
  | (k, v) :: rest => if String.eqb k "limit" then Some v else get_limit rest
  end.

(** [query.limit || 50]. *)
Definition limit_or_50 (query : list (string * string)) : Pg.Param :=
  match get_limit query with
  | Some v => if String.eqb v "" then Pg.PNumber 50 else Pg.PText v
  | None => Pg.PNumber 50
  end.

Definition handleGetDetections (query : list (string * string)) (db : Pg.Db) : Response :=
  let limit := limit_or_50 query in
  match Pg.select_recent limit db with
  | inr rows => respond 200 (Listed (List.length rows) rows)
  | inl e => respond 500 (Failure "Error obteniendo datos" (Some (QueryError e)))
  end.

Definition handleStats (db : Pg.Db) : Response :=
  match Pg.select_stats db with
  | inr stats => respond 200 (StatsOf stats)
  | inl e => respond 500 (Failure "Error obteniendo estadísticas" (Some (QueryError e)))
  end.

Definition handleDeleteDetections (db : Pg.Db) : Response * Pg.Db :=
  match Pg.delete_all db with
  | inr db' => (respond 200 Deleted, db')
  | inl e => (respond 500 (Failure "Error eliminando datos" (Some (QueryError e))), db)
  end.

(** [exports.handler], at the instant [now]. *)
Definition handler (now : Z) (event : Event) (db : Pg.Db) : Run (Response * Pg.Db) :=
  if String.eqb (httpMethod event) "OPTIONS" then Returns (handleOptions, db)
  else
    let path := path event in
    let method := httpMethod event in
    let query := default [] (queryStringParameters event) in
    let body := body event in
    if String.eqb path "/.netlify/functions/api/health" && String.eqb method "GET"
    then Returns (handleHealth now db, db)
    else if String.eqb path "/.netlify/functions/api/detections" && String.eqb method "POST"
    then handlePostDetections now body db
    else if String.eqb path "/.netlify/functions/api/detections" && String.eqb method "GET"
    then Returns (handleGetDetections query db, db)
    else if String.eqb path "/.netlify/functions/api/stats" && String.eqb method "GET"
    then Returns (handleStats db, db)
    else if String.eqb path "/.netlify/functions/api/detections" && String.eqb method "DELETE"
    then Returns (handleDeleteDetections db)
    else Returns (respond 404 (Failure "Ruta no encontrada" None), db).

End Api.

(* ===================================================================== *)
(** ** [server.js]: the standalone Express server                         *)
(* ===================================================================== *)

Module Server.

Import JS Http Aggregator.

(** [res.status(n).json(b)]; [res.json(b)] alone answers 200.  The headers
    are the middleware's ([cors()], [express.json()]). *)
Record Reply : Type := {
  status : Z;
  json : Body
}.

(** [app.use(express.json())] on a body that is JSON: an object or an
    array becomes [req.body]; any other value is refused (the parser is
    strict) and Express answers 400 with its error page before the route
    runs. *)
Definition express_json (body : JValue) : bool :=
  match body with
  | JObj _ | JArr _ => true
  | _ => false
  end.

Definition bad_request : Reply := {| status := 400; json := ErrorPage |}.

Definition detections_columns : list string :=
  ["id"; "timestamp"; "source"; "total_objects"; "unique_objects";
   "avg_confidence"; "objects_data"; "created_at"].

Definition initDatabase (db : Pg.Db) : Pg.Db :=
  Pg.create_table_if_not_exists detections_columns db.

(** [app.get('/api/health', ...)]. *)
Definition get_api_health (now : Z) (db : Pg.Db) : Reply :=
  match Pg.select_now now db with
  | inr ts => {| status := 200; json := HealthOk ts |}
  | inl e => {| status := 500; json := HealthError (QueryError e) |}
  end.

(** [app.post('/api/detections', ...)]; [body] is [req.body] as
    [express.json()] left it, an object or an array. *)
Definition post_api_detections (now : Z) (body : JValue) (db : Pg.Db)
  : Run (Reply * Pg.Db) :=
  let caught e :=
    Returns ({| status := 500;
                json := Failure "Error guardando en base de datos" (Some e) |}, db) in
  match body with
  | JNull => caught TypeError
  | _ =>
      let source := get_field body "source" in
      let objects := get_field body "objects" in
      if no_objects objects then
        Returns ({| status := 400; json := Failure "No hay objetos para guardar" None |}, db)
      else
        match objects with
        | Some (JArr items) =>
            if existsb is_null items then caught TypeError
            else
              match Ingest.values source items with
              | Some (p1, p2, p3, p4, p5) =>
                  match Pg.insert now p1 p2 p3 p4 p5 (JArr items) db with
                  | inr (row, db') => Returns ({| status := 200; json := Saved row |}, db')
                  | inl e => caught (QueryError e)
                  end
              | None => caught TypeError
              end
        | _ => caught TypeError
        end
  end.

(** [req.query.limit || 50]. *)
Definition limit_or_50 (limit : option string) : Pg.Param :=
  match limit with
  | Some v => if String.eqb v "" then Pg.PNumber 50 else Pg.PText v
  | None => Pg.PNumber 50
  end.

(** [app.get('/api/detections', ...)]. *)
Definition get_api_detections (limit : option string) (db : Pg.Db) : Reply :=
  match Pg.select_recent (limit_or_50 limit) db with
  | inr rows => {| status := 200; json := Listed (List.length rows) rows |}
  | inl e => {| status := 500;
                json := Failure "Error obteniendo datos" (Some (QueryError e)) |}
  end.

(** [app.get('/api/stats', ...)]. *)
Definition get_api_stats (db : Pg.Db) : Reply :=
  match Pg.select_stats db with
  | inr stats => {| status := 200; json := StatsOf stats |}
  | inl e => {| status := 500;
                json := Failure "Error obteniendo estadísticas" (Some (QueryError e)) |}
  end.

(** [app.delete('/api/detections', ...)]. *)
Definition delete_api_detections (db : Pg.Db) : Reply * Pg.Db :=
  match Pg.delete_all db with
  | inr db' => ({| status := 200; json := Deleted |}, db')
  | inl e => ({| status := 500;
                 json := Failure "Error eliminando datos" (Some (QueryError e)) |}, db)
  end.

End Server.

(* ===================================================================== *)
(** ** The five operations, whatever the hosting                          *)
(* ===================================================================== *)

Module Router.

Import JS Http.

Inductive Operation : Type :=
| Health
| Ingest (body : JValue)
| History (limit : option string)
| Stats
| Purge.

(** The operation as the function adapter receives it. *)
Definition event_of (op : Operation) : Api.Event :=
  let mk m p q b :=
    {| Api.httpMethod := m; Api.path := "/.netlify/functions/api/" ++ p;
       Api.queryStringParameters := q; Api.body := b |} in
  match op with
  | Health => mk "GET" "health" None None
  | Ingest body => mk "POST" "detections" None (Some body)
  | History None => mk "GET" "detections" None None
  | History (Some v) => mk "GET" "detections" (Some [("limit", v)]) None
  | Stats => mk "GET" "stats" None None
  | Purge => mk "DELETE" "detections" None None
  end.

Definition via_function (now : Z) (op : Operation) (db : Pg.Db)
  : Run (Z * Body * Pg.Db) :=
  match Api.handler now (event_of op) db with
  | Returns (r, db') => Returns (statusCode r, body r, db')
  end.

(** The operation as the Express server serves it: through
    [express.json()] where there is a body, then by the route of its
    method and path. *)
Definition via_server (now : Z) (op : Operation) (db : Pg.Db)
  : Run (Z * Body * Pg.Db) :=
  let reply (r : Server.Reply) db' := Returns (Server.status r, Server.json r, db') in
  match op with
  | Health => reply (Server.get_api_health now db) db
  | Ingest body =>
      if Server.express_json body then
        match Server.post_api_detections now body db with
        | Returns (r, db') => reply r db'
        end
      else reply Server.bad_request db
  | History limit => reply (Server.get_api_detections limit db) db
  | Stats => reply (Server.get_api_stats db) db
  | Purge => let '(r, db') := Server.delete_api_detections db in reply r db'
  end.

(** The operations [express.json()] lets through to a route. *)
Definition reaches_route (op : Operation) : bool :=
  match op with
  | Ingest body => Server.express_json body
  | _ => true
  end.

(** Both hostings answer the operation with [r]. *)
Definition answers (now : Z) (op : Operation) (db : Pg.Db)
    (r : Run (Z * Body * Pg.Db)) : Prop :=
  via_function now op db = r /\ via_server now op db = r.

End Router.

(* ===================================================================== *)
(** ** The specification's words                                          *)
(* ===================================================================== *)

(** Definitions that follow the specification's words, to compare the code
    with, and the notions the statements below are phrased in. *)
Module Spec.

Import JS Aggregator.

(** The number a binary64 value stands for; none for NaN and the
    infinities. *)
Definition value (x : float) : option Q :=
  match Prim2SF x with
  | S754_nan | S754_infinity _ => None
  | S754_zero _ => Some 0%Q
  | S754_finite s m e =>
      let q := (inject_Z (Zpos m) * Qpower 2 e)%Q in
      Some (if s then (- q)%Q else q)
  end.

(** "Rounded to 2 decimal places using standard rounding": [h] hundredths
    is the multiple of 0.01 nearest to [q], the one further from zero of
    two, and has the sign of [q]. *)
Definition rounded_to_hundredths (q : Q) (h : Z) : Prop :=
  (inject_Z (Z.abs h) - (1 # 2) <= 100 * Qabs q)%Q
  /\ (100 * Qabs q < inject_Z (Z.abs h) + (1 # 2))%Q
  /\ ((0 <= q)%Q -> (0 <= h)%Z)
  /\ ((q <= 0)%Q -> (h <= 0)%Z).

(** The same rounding as a function, where [DECIMAL(5,2)] can hold the
    result. *)
Definition round2 (x : float) : option Pg.Numeric :=
  match Prim2SF x with
  | S754_nan => Some Pg.NaN
  | S754_infinity _ => None
  | S754_zero _ => Some (Pg.Dec 0)
  | S754_finite s m e =>
      let n := nearest_scaled 2 m e in
      if (n <? 100000)%Z then Some (Pg.Dec (if s then - n else n)) else None
  end.

(** "(sum of score over all objects / total_objects) x 100", in binary64
    arithmetic, the sum taken from 0 in sequence order. *)
Definition sum_scores (scores : list float) : float :=
  fold_left PrimFloat.add scores 0%float.

Definition mean_percent (scores : list float) : float :=
  (sum_scores scores / number_of_nat (List.length scores) * 100)%float.

(** The distinct labels of a sequence, each at its first appearance. *)
Fixpoint first_seen (names : list string) : list string :=
  match names with
  | [] => []
  | x :: rest => x :: filter (fun y => y <> x) (first_seen rest)
  end.

Definition occurrences (c : string) (names : list string) : nat :=
  List.length (filter (fun y => y = c) names).

(** ["<class> (<count>)"]. *)
Definition pair_text (names : list string) (c : string) : string :=
  c ++ " (" ++ digits (Z.of_nat (occurrences c names)) ++ ")".

(** One pair per distinct class, in first-appearance order, joined with
    [", "]. *)
Definition summary (names : list string) : string :=
  join ", " (map (pair_text names) (first_seen names)).

(** The order [Object.entries] lists labels in: array indices by value,
    then the others as given. *)
Fixpoint insert_label (e : N * string) (l : list (N * string)) : list (N * string) :=
  match l with
  | [] => [e]
  | e' :: rest => if (fst e <=? fst e')%N then e :: l else e' :: insert_label e rest
  end.

Definition enumeration_order (labels : list string) : list string :=
  map snd (foldr insert_label []
             (omap (fun c => match array_index c with
                             | Some i => Some (i, c)
                             | None => None
                             end) labels))
  ++ filter (fun c => array_index c = None) labels.

(** What the relation asks of an insert: the six columns exist, the next
    [id] is an [INTEGER] no row has, the source has at most 50 characters
    and the summary at most 500, the count is an [INTEGER], and the rounded
    mean fits [DECIMAL(5,2)]. *)
Record storable (t : Pg.Table) (src : string) (objs : list DetectedObject) : Prop := {
  columns_exist : Pg.missing_column t Pg.insert_columns = None;
  id_fits : (- 2 ^ 31 <= Pg.serial t < 2 ^ 31)%Z;
  id_free : Forall (fun r => Pg.id r <> Pg.serial t) (Pg.rows t);
  source_fits : (Pg.characters src <= 50)%nat;
  count_fits : (Z.of_nat (List.length objs) < 2 ^ 31)%Z;
  mean_fits : is_Some (round2 (avgConfidence objs));
  summary_fits : (Pg.characters (detectedObjectsText objs) <= 500)%nat
}.

(** A request body whose [objects] array [items] reads as the batch [objs],
    under the source tag [src]. *)
Definition carries (parsed : JValue) (src : string) (items : list JValue)
    (objs : list DetectedObject) : Prop :=
  get_field parsed "objects" = Some (JArr items)
  /\ mapM detected items = Some objs
  /\ source_or_camera (get_field parsed "source") = Some src.

(** The row such a batch is written as at the instant [now], with the
    confidence [avg], and the relation after it. *)
Definition stored_row (now : Z) (t : Pg.Table) (src : string) (items : list JValue)
    (objs : list DetectedObject) (avg : Pg.Numeric) : Pg.Row :=
  {| Pg.id := Pg.serial t; Pg.timestamp := now; Pg.source := src;
     Pg.total_objects := Z.of_nat (List.length objs);
     Pg.unique_objects := Z.of_nat (uniqueObjects objs);
     Pg.avg_confidence := avg;
     Pg.detected_objects := detectedObjectsText objs;
     Pg.objects_data := Pg.jsonb (JArr items);
     Pg.created_at := now |}.

Definition with_row (t : Pg.Table) (row : Pg.Row) : Pg.Table :=
  {| Pg.columns := Pg.columns t;
     Pg.rows := (Pg.rows t ++ [row])%list;
     Pg.serial := (Pg.serial t + 1)%Z |}.

(** A request with the batch it carries, and what makes the relation [t]
    take it. *)
Record Batch : Type := {
  parsed : JValue;
  src : string;
  items : list JValue;
  objs : list DetectedObject
}.

Definition accepted (t : Pg.Table) (b : Batch) : Prop :=
  carries (parsed b) (src b) (items b) (objs b)
  /\ objs b <> []
  /\ storable t (src b) (objs b).

(** The request body [body] has made the ingest handler write [row] at
    the instant [now], which took the store from [db] to [db']. *)
Definition ingested (now : Z) (body : option JValue) (db : Pg.Db) (row : Pg.Row)
    (db' : Pg.Db) : Prop :=
  exists parsed items p1 p2 p3 p4 p5,
    body = Some parsed
    /\ get_field parsed "objects" = Some (JArr items) /\ items <> []
    /\ Ingest.values (get_field parsed "source") items = Some (p1, p2, p3, p4, p5)
    /\ Pg.insert now p1 p2 p3 p4 p5 (JArr items) db = inr (row, db').

(** The sequence is ahead of every stored [id], as it is on a relation
    written through [INSERT] only. *)
Definition ids_below (t : Pg.Table) : Prop :=
  Forall (fun r => (Pg.id r < Pg.serial t)%Z) (Pg.rows t).

(** The dictionary [objectCounts] after the labels [seen], when none of
    them is inherited. *)
Definition tally (seen : list string) : JsObject :=
  map (fun c => (c, CNum (occurrences c seen))) (first_seen seen).

(** The five operations of the function adapter, by method and path. *)
Definition routes : list (string * string) :=
  [("GET", "/.netlify/functions/api/health");
   ("POST", "/.netlify/functions/api/detections");
   ("GET", "/.netlify/functions/api/detections");
   ("GET", "/.netlify/functions/api/stats");
   ("DELETE", "/.netlify/functions/api/detections")].

(** Sum and maximum of [total_objects], and the mean of the
    confidences. *)
Definition sum_objects (rs : list Pg.Row) : Z :=
  foldr (fun r acc => (Pg.total_objects r + acc)%Z) 0%Z rs.

Definition is_max_objects (m : Z) (rs : list Pg.Row) : Prop :=
  (exists r, r ∈ rs /\ Pg.total_objects r = m)
  /\ forall r, r ∈ rs -> (Pg.total_objects r <= m)%Z.

Definition confidence (r : Pg.Row) : option Q :=
  match Pg.avg_confidence r with
  | Pg.NaN => None
  | Pg.Dec h => Some (inject_Z h / 100)%Q
  end.

(** The confidence of the row is a value of [DECIMAL(5,2)]. *)
Definition confidence_in_range (r : Pg.Row) : Prop :=
  match Pg.avg_confidence r with
  | Pg.NaN => True
  | Pg.Dec h => (Z.abs h < 100000)%Z
  end.

Definition mean (qs : list Q) : Q :=
  (foldr Qplus 0 qs / inject_Z (Z.of_nat (List.length qs)))%Q.

(** [d] is the integer nearest to [q], the one further from zero of two,
    and has the sign of [q]. *)
Definition nearest_integer (q : Q) (d : Z) : Prop :=
  (inject_Z (Z.abs d) - (1 # 2) <= Qabs q)%Q
  /\ (Qabs q < inject_Z (Z.abs d) + (1 # 2))%Q
  /\ ((0 <= q)%Q -> (0 <= d)%Z)
  /\ ((q <= 0)%Q -> (d <= 0)%Z).

(** [d * 10^-scale] is [q] rounded to [scale] fraction digits. *)
Definition rounded_at_scale (scale : Z) (q : Q) (d : Z) : Prop :=
  nearest_integer (inject_Z (10 ^ scale) * q) d.

(** "(sum of score over all objects / total_objects) x 100" in exact
    arithmetic, where every score is a finite number. *)
Definition exact_mean_percent (scores : list float) : option Q :=
  match mapM value scores with
  | Some qs => Some (mean qs * 100)%Q
  | None => None
  end.

(** Most recent first. *)
Definition newest_first (rs : list Pg.Row) : Prop :=
  StronglySorted (fun a b => (Pg.created_at b <= Pg.created_at a)%Z) rs.

(** [shown] are the most recent of the rows [rs]: the others are none
    of them more recent than any of [shown]. *)
Definition most_recent_of (shown rs : list Pg.Row) : Prop :=
  exists others,
    Permutation (shown ++ others)%list rs
    /\ forall a b, a ∈ shown -> b ∈ others -> (Pg.created_at b <= Pg.created_at a)%Z.

(** The events a response body carries. *)
Definition events (b : Http.Body) : list Pg.Row :=
  match b with
  | Http.Listed _ data => data
  | _ => []
  end.

End Spec.

(* ===================================================================== *)
(** ** Sample requests                                                    *)
(* ===================================================================== *)

Module Sample.

Import JS Aggregator.

Definition object (c : string) (x : float) : JValue :=
  JObj [("class", JStr c); ("score", JNum x);
        ("bbox", JArr [JNum 10; JNum 20; JNum 30; JNum 40])].

(** Scores 0.5, 0.9 and 1.0. *)
Definition items : list JValue :=
  [object "person" 0.5; object "car" 0x1.ccccccccccccdp-1; object "person" 1].

Definition batch : list DetectedObject :=
  [ {| class := "person"; score := 0.5 |};
    {| class := "car"; score := 0x1.ccccccccccccdp-1 |};
    {| class := "person"; score := 1 |} ].

Definition body : JValue :=
  JObj [("source", JStr "video"); ("objects", JArr items)].

Definition five_items : list JValue :=
  [object "dog" 0.5; object "dog" 0.5; object "cat" 0.25; object "dog" 0.75;
   object "bird" 1].

Definition five : list DetectedObject :=
  [ {| class := "dog"; score := 0.5 |}; {| class := "dog"; score := 0.5 |};
    {| class := "cat"; score := 0.25 |}; {| class := "dog"; score := 0.75 |};
    {| class := "bird"; score := 1 |} ].

Definition five_body : JValue := JObj [("objects", JArr five_items)].

(** A label that is an array index after one that is not. *)
Definition numbered_items : list JValue :=
  [object "person" 0.5; object "7" 0.5].

Definition numbered_body : JValue := JObj [("objects", JArr numbered_items)].

(** [objects] is an object with an own [length] of 0. *)
Definition zero_length_body : JValue :=
  JObj [("objects", JObj [("length", JNum 0)])].

(** [objects] is an object without [length]. *)
Definition object_body : JValue :=
  JObj [("objects", JObj [("class", JStr "person")])].

Definition numbered : list DetectedObject :=
  [ {| class := "person"; score := 0.5 |}; {| class := "7"; score := 0.5 |} ].

(** One object of score 0.99565, as binary64 reads it. *)
Definition near_tie_items : list JValue := [object "person" 0x1.fdc5d63886595p-1].

Definition near_tie : list DetectedObject :=
  [ {| class := "person"; score := 0x1.fdc5d63886595p-1 |} ].

Definition near_tie_body : JValue := JObj [("objects", JArr near_tie_items)].

(** No [objects] at all, and an empty array. *)
Definition no_objects_body : JValue := JObj [("source", JStr "camera")].

Definition empty_objects_body : JValue := JObj [("objects", JArr [])].

Definition first : Spec.Batch :=
  {| Spec.parsed := body; Spec.src := "video"; Spec.items := items;
     Spec.objs := batch |}.

Definition second : Spec.Batch :=
  {| Spec.parsed := five_body; Spec.src := "camera"; Spec.items := five_items;
     Spec.objs := five |}.

Definition third : Spec.Batch :=
  {| Spec.parsed := numbered_body; Spec.src := "camera";
     Spec.items := numbered_items; Spec.objs := numbered |}.

Definition options_event : Api.Event :=
  {| Api.httpMethod := "OPTIONS"; Api.path := "/anything";
     Api.queryStringParameters := None; Api.body := None |}.

Definition unknown_event : Api.Event :=
  {| Api.httpMethod := "GET"; Api.path := "/.netlify/functions/api/nothing";
     Api.queryStringParameters := None; Api.body := None |}.

(** An ingest request without a body. *)
Definition no_body_event : Api.Event :=
  {| Api.httpMethod := "POST"; Api.path := "/.netlify/functions/api/detections";
     Api.queryStringParameters := None; Api.body := None |}.

(** The relation as the function adapter creates it, and after the first
    sample batch was written at instant 10. *)
Definition table : Pg.Table :=
  {| Pg.columns := Api.detections_columns; Pg.rows := []; Pg.serial := 1 |}.

Definition row : Pg.Row :=
  Spec.stored_row 10 table "video" items batch (Pg.Dec 8000).

Definition stored : Pg.Table := Spec.with_row table row.

End Sample.

(* ===================================================================== *)
(** ** Sessions                                                           *)
(* ===================================================================== *)

(** The store over a sequence of requests, what holds of a relation written
    through the handlers only, and further sample requests. *)
Module Session.

Import Http.

(** The store after the function adapter served [requests] one after the
    other, each at its instant. *)
Fixpoint serve (requests : list (Z * Api.Event)) (db : Pg.Db) : Run Pg.Db :=
  match requests with
  | [] => Returns db
  | (now, event) :: rest =>
      match Api.handler now event db with
      | Returns (_, db') => serve rest db'
      end
  end.

(** The bodies that report a failure: [{status: 'error', message}] and
    [{error, details}]. *)
Definition is_error (b : Body) : bool :=
  match b with
  | HealthError _ | Failure _ _ | ErrorPage => true
  | _ => false
  end.

(** The events a store holds, if the relation exists. *)
Definition stored (db : Pg.Db) : option (list Pg.Row) := option_map Pg.rows db.

(** The relation after [DELETE FROM detections]. *)
Definition purged (t : Pg.Table) : Pg.Table :=
  {| Pg.columns := Pg.columns t; Pg.rows := []; Pg.serial := Pg.serial t |}.

(** What holds of an event written by an ingest. *)
Record well_formed (r : Pg.Row) : Prop := {
  id_positive : (1 <= Pg.id r < 2 ^ 31)%Z;
  one_instant : Pg.timestamp r = Pg.created_at r;
  some_object : (1 <= Pg.unique_objects r <= Pg.total_objects r)%Z;
  count_in_range : (Pg.total_objects r < 2 ^ 31)%Z
}.

(** What holds of the relation of a store written through the handlers
    only. *)
Record sound (t : Pg.Table) : Prop := {
  columns_kept : Pg.columns t = Api.detections_columns;
  sequence_ahead : Spec.ids_below t;
  sequence_positive : (1 <= Pg.serial t)%Z;
  ids_increase : StronglySorted Z.lt (map Pg.id (Pg.rows t));
  rows_well_formed : Forall well_formed (Pg.rows t)
}.


(** The number a count of [objectCounts] stands for; a text stands for
    none. *)
Definition count_number (c : JS.Count) : nat :=
  match c with
  | JS.CNum n => n
  | JS.CStr _ => 0
  end.

(** *** Sample requests *)

Definition post_event (body : JS.JValue) : Api.Event :=
  {| Api.httpMethod := "POST"; Api.path := "/.netlify/functions/api/detections";
     Api.queryStringParameters := None; Api.body := Some body |}.

Definition get_event (path : string) : Api.Event :=
  {| Api.httpMethod := "GET"; Api.path := path;
     Api.queryStringParameters := None; Api.body := None |}.

Definition delete_event : Api.Event :=
  {| Api.httpMethod := "DELETE"; Api.path := "/.netlify/functions/api/detections";
     Api.queryStringParameters := None; Api.body := None |}.

(** Two batches, a history request, a purge and a third batch. *)
Definition requests : list (Z * Api.Event) :=
  [(10, post_event Sample.body); (20, post_event Sample.five_body);
   (30, get_event "/.netlify/functions/api/detections"); (40, delete_event);
   (50, post_event Sample.numbered_body)]%Z.

(** An array with a [null] element. *)
Definition null_item_body : JS.JValue :=
  JS.JObj [("objects", JS.JArr [Sample.object "person" 0.5; JS.JNull])].

(** A source tag of 60 characters. *)
Definition long_source : string :=
  "camera-0123456789-0123456789-0123456789-0123456789-0123456789".

Definition long_source_body : JS.JValue :=
  JS.JObj [("source", JS.JStr long_source); ("objects", JS.JArr Sample.items)].

(** A source that is a number, and an object without a score. *)
Definition untyped_body : JS.JValue :=
  JS.JObj [("source", JS.JNum 5);
           ("objects", JS.JArr [JS.JObj [("class", JS.JStr "person")]])].

(** A source tag of 20 characters in 60 bytes. *)
Definition euro_source : string := String.concat "" (replicate 20 "€").

Definition euro_source_body : JS.JValue :=
  JS.JObj [("source", JS.JStr euro_source); ("objects", JS.JArr Sample.items)].

(** A class label of 600 characters. *)
Definition long_label : string :=
  String.concat "" (replicate 60 "abcdefghij").

Definition long_label_body : JS.JValue :=
  JS.JObj [("objects", JS.JArr [Sample.object long_label 0.5])].

(** One object with score 10: the mean is 1000 percent. *)
Definition score_ten_body : JS.JValue :=
  JS.JObj [("objects", JS.JArr [Sample.object "person" 10])].

End Session.

(* ===================================================================== *)
(** ** Decimal texts                                                      *)
(* ===================================================================== *)

Section Digits.

Import JS Pg.

Lemma split_point_uint (d : Decimal.uint) (r : string) :
  split_point (NilEmpty.string_of_uint d ++ String "." r)
  = (NilEmpty.string_of_uint d, Some r).
Proof.
  induction d as [|d IH|d IH|d IH|d IH|d IH|d IH|d IH|d IH|d IH|d IH];
    simpl; try (rewrite IH); reflexivity.
Qed.

Lemma to_uint_not_nil (n : N) : N.to_uint n <> Decimal.Nil.
Proof.
  intros H. pose proof (DecimalN.Unsigned.of_to n) as E.
  destruct n as [|p]; [discriminate H|].
  cbn in H. apply (DecimalPos.Unsigned.to_uint_nonnil p H).
Qed.

Lemma digits_uint (n : Z) :
  digits n = NilEmpty.string_of_uint (N.to_uint (Z.to_N n)).
Proof.
  unfold digits, NilZero.string_of_uint.
  destruct (N.to_uint (Z.to_N n)) eqn:E; try reflexivity.
  exfalso. exact (to_uint_not_nil _ E).
Qed.

Lemma uint_string_not_empty (d : Decimal.uint) :
  d <> Decimal.Nil -> NilEmpty.string_of_uint d <> "".
Proof. destruct d; cbn; congruence. Qed.

Lemma unsigned_in_digits (n : Z) :
  (0 <= n)%Z -> unsigned_in (digits n) = Some n.
Proof.
  intros Hn. rewrite digits_uint. unfold unsigned_in.
  pose proof (uint_string_not_empty _ (to_uint_not_nil (Z.to_N n))) as Hne.
  destruct (NilEmpty.string_of_uint (N.to_uint (Z.to_N n))) eqn:E; [congruence|].
  rewrite <- E, NilEmpty.usu. cbn.
  rewrite DecimalN.Unsigned.of_to. f_equal. lia.
Qed.

Lemma signed_uint (d : Decimal.uint) (r : string) :
  d <> Decimal.Nil ->
  signed (NilEmpty.string_of_uint d ++ r) = (false, NilEmpty.string_of_uint d ++ r).
Proof. destruct d; simpl; congruence. Qed.

Lemma unsigned_in_pair (a b : Z) :
  (0 <= a < 10)%Z -> (0 <= b < 10)%Z ->
  unsigned_in (String (digit a) (String (digit b) "")) = Some (10 * a + b)%Z.
Proof.
  intros Ha Hb.
  assert (Ea : (a = 0 \/ a = 1 \/ a = 2 \/ a = 3 \/ a = 4 \/ a = 5 \/ a = 6
               \/ a = 7 \/ a = 8 \/ a = 9)%Z) by lia.
  assert (Eb : (b = 0 \/ b = 1 \/ b = 2 \/ b = 3 \/ b = 4 \/ b = 5 \/ b = 6
               \/ b = 7 \/ b = 8 \/ b = 9)%Z) by lia.
  repeat destruct Ea as [Ea | Ea]; subst a;
    repeat destruct Eb as [Eb | Eb]; subst b; reflexivity.
Qed.

Lemma hundredths_in_point2 (s : bool) (n : Z) :
  (0 <= n)%Z ->
  hundredths_in ((if s then "-" else "") ++ point2 n) = Some (if s then - n else n)%Z.
Proof.
  intros Hn. unfold hundredths_in, point2.
  assert (Hd : (0 <= n / 100)%Z) by (apply Z.div_pos; lia).
  set (frac := String (digit (n / 10 mod 10)) (String (digit (n mod 10)) "")).
  assert (Hsig : signed ((if s then "-" else "") ++ digits (n / 100) ++ "." ++ frac)
                 = (s, digits (n / 100) ++ "." ++ frac)).
  { destruct s; simpl; [reflexivity|].
    rewrite digits_uint. apply signed_uint, to_uint_not_nil. }
  rewrite Hsig.
  replace (digits (n / 100) ++ "." ++ frac)
    with (NilEmpty.string_of_uint (N.to_uint (Z.to_N (n / 100))) ++ String "." frac)
    by (rewrite digits_uint; reflexivity).
  rewrite split_point_uint, <- digits_uint.
  change (String.length frac =? 2)%nat with true. cbv iota.
  rewrite unsigned_in_digits by exact Hd.
  unfold frac. rewrite unsigned_in_pair.
  - assert (E : (n / 100 * 100 + (10 * (n / 10 mod 10) + n mod 10) = n)%Z)
      by (Z.div_mod_to_equations; lia).
    rewrite E. reflexivity.
  - apply Z.mod_pos_bound; lia.
  - apply Z.mod_pos_bound; lia.
Qed.

Lemma nearest_scaled_nonneg (m : positive) (e : Z) : (0 <= nearest_scaled 2 m e)%Z.
Proof.
  unfold nearest_scaled. destruct (0 <=? e)%Z eqn:He.
  - apply Z.leb_le in He. pose proof (Z.pow_pos_nonneg 2 e). nia.
  - apply Z.leb_gt in He.
    assert (Hb : (0 < 2 ^ (- e))%Z) by (apply Z.pow_pos_nonneg; lia).
    apply Z.div_pos; lia.
Qed.

Lemma exponent_text_overflows (m : positive) (e : Z) :
  at_least_1e21 m e = true -> (100000 <= nearest_scaled 2 m e)%Z.
Proof.
  unfold at_least_1e21, nearest_scaled.
  change (10 ^ 21)%Z with 1000000000000000000000%Z.
  change (10 ^ 2)%Z with 100%Z.
  destruct (0 <=? e)%Z eqn:He; intros H; apply Z.leb_le in H.
  - lia.
  - apply Z.leb_gt in He.
    assert (Hb : (0 < 2 ^ (- e))%Z) by (apply Z.pow_pos_nonneg; lia).
    apply Z.div_le_lower_bound; lia.
Qed.

Lemma numeric_5_2_toFixed2 (x : float) :
  numeric_5_2 (toFixed2 x)
  = match Spec.round2 x with
    | Some v => inr v
    | None => inl NumericOverflow
    end.
Proof.
  unfold toFixed2, Spec.round2.
  destruct (Prim2SF x) as [sg|[|]| |sg m e]; try reflexivity.
  destruct (at_least_1e21 m e) eqn:Hbig.
  - apply exponent_text_overflows in Hbig.
    destruct (nearest_scaled 2 m e <? 100000)%Z eqn:Hlt; [|reflexivity].
    apply Z.ltb_lt in Hlt. lia.
  - pose proof (nearest_scaled_nonneg m e) as Hn.
    pose proof (hundredths_in_point2 sg _ Hn) as Hin.
    set (n := nearest_scaled 2 m e) in *.
    set (t := (if sg then "-" else "") ++ point2 n) in *.
    unfold numeric_5_2.
    destruct (String.eqb_spec t "NaN") as [E|_];
      [rewrite E in Hin; discriminate Hin|].
    destruct (String.eqb_spec t "Infinity") as [E|_];
      [rewrite E in Hin; discriminate Hin|].
    destruct (String.eqb_spec t "-Infinity") as [E|_];
      [rewrite E in Hin; discriminate Hin|].
    cbn [orb]. rewrite Hin.
    replace (Z.abs (if sg then - n else n)) with n by (destruct sg; lia).
    destruct (n <? 100000)%Z; reflexivity.
Qed.

End Digits.

(* ===================================================================== *)
(** ** Rounding to hundredths                                             *)
(* ===================================================================== *)

Section Rounding.

Import JS.

Lemma half_interval (A b n : Z) :
  (0 < b)%Z -> (2 * b * n - b <= 2 * A)%Z -> (2 * A < 2 * b * n + b)%Z ->
  (inject_Z n - (1 # 2) <= inject_Z A / inject_Z b)%Q
  /\ (inject_Z A / inject_Z b < inject_Z n + (1 # 2))%Q.
Proof.
  intros Hb Hlo Hhi. destruct b as [|p|p]; try lia.
  rewrite <- Qmake_Qdiv. unfold Qle, Qlt, Qminus, Qplus, Qopp, inject_Z. simpl.
  split; nia.
Qed.

Lemma scaled_magnitude (m : positive) (e : Z) :
  let n := nearest_scaled 2 m e in
  let q := (inject_Z (Zpos m) * Qpower 2 e)%Q in
  (inject_Z n - (1 # 2) <= 100 * q)%Q /\ (100 * q < inject_Z n + (1 # 2))%Q.
Proof.
  unfold nearest_scaled. change (10 ^ 2)%Z with 100%Z.
  destruct (0 <=? e)%Z eqn:He; cbv zeta.
  - apply Z.leb_le in He.
    assert (E : (100 * (inject_Z (Zpos m) * Qpower 2 e)
                 == inject_Z (Zpos m * 2 ^ e * 100))%Q).
    { rewrite !inject_Z_mult, (Zpower_Qpower 2 e He). change (inject_Z 100) with 100%Q. change (inject_Z 2) with 2%Q. ring. }
    rewrite E. unfold Qle, Qlt, Qminus, Qplus, Qopp, inject_Z. simpl. split; lia.
  - apply Z.leb_gt in He.
    set (b := (2 ^ (- e))%Z).
    assert (Hb : (0 < b)%Z) by (apply Z.pow_pos_nonneg; lia).
    assert (E : (100 * (inject_Z (Zpos m) * Qpower 2 e)
                 == inject_Z (Zpos m * 100) / inject_Z b)%Q).
    { replace e with (- - e)%Z at 1 by lia.
      rewrite Qpower_opp. change 2%Q with (inject_Z 2). rewrite <- (Zpower_Qpower 2 (- e)) by lia.
      fold b. rewrite inject_Z_mult. unfold Qdiv.
      change (inject_Z 100) with 100%Q. ring. }
    rewrite E.
    pose proof (Z.div_mod (2 * (Zpos m * 100) + b) (2 * b) ltac:(lia)) as Hdm.
    pose proof (Z.mod_pos_bound (2 * (Zpos m * 100) + b) (2 * b) ltac:(lia)) as Hmod.
    apply half_interval; [exact Hb| |]; nia.
Qed.

Lemma round2_rounds (x : float) (h : Z) :
  Spec.round2 x = Some (Pg.Dec h) ->
  exists q, Spec.value x = Some q /\ Spec.rounded_to_hundredths q h.
Proof.
  unfold Spec.round2, Spec.value.
  destruct (Prim2SF x) as [sg|sg| |sg m e]; try discriminate.
  - intros [= <-]. exists 0%Q. split; [reflexivity|].
    unfold Spec.rounded_to_hundredths, Qle, Qlt. simpl. repeat split; intros; lia.
  - pose proof (nearest_scaled_nonneg m e) as Hn.
    destruct (nearest_scaled 2 m e <? 100000)%Z; [|discriminate].
    intros [= <-]. eexists. split; [reflexivity|].
    destruct (scaled_magnitude m e) as [Hlo Hhi]. cbv zeta in Hlo, Hhi.
    set (n := nearest_scaled 2 m e) in *.
    set (q := (inject_Z (Zpos m) * Qpower 2 e)%Q) in *.
    assert (Hq : (0 <= q)%Q).
    { unfold q. apply Qmult_le_0_compat; [easy|]. apply Qpower_pos. easy. }
    assert (Habs : (Qabs (if sg then - q else q) == q)%Q).
    { destruct sg; [rewrite Qabs_opp|]; apply Qabs_pos; exact Hq. }
    assert (Hz : Z.abs (if sg then - n else n) = n) by (destruct sg; lia).
    unfold Spec.rounded_to_hundredths. rewrite Hz, Habs.
    repeat split; try assumption.
    + intros Hs. destruct sg; [|lia].
      assert (Hq0 : (q == 0)%Q) by (apply Qle_antisym; [|exact Hq];
        apply Qopp_le_compat in Hs; rewrite Qopp_involutive in Hs; exact Hs).
      rewrite Hq0 in Hlo. unfold Qle, Qminus, Qplus, Qopp, inject_Z in Hlo.
      simpl in Hlo. lia.
    + intros Hs. destruct sg; [lia|].
      assert (Hq0 : (q == 0)%Q) by (apply Qle_antisym; assumption).
      rewrite Hq0 in Hlo. unfold Qle, Qminus, Qplus, Qopp, inject_Z in Hlo.
      simpl in Hlo. lia.
Qed.

End Rounding.

(* ===================================================================== *)
(** ** Counting labels in a plain object                                  *)
(* ===================================================================== *)

Section Counting.

Import JS Aggregator.

Local Open Scope list_scope.

Implicit Types (names seen : list string) (x c : string).

Lemma first_seen_elem names x : x ∈ Spec.first_seen names <-> x ∈ names.
Proof.
  induction names as [|a names IH]; simpl; [reflexivity|].
  rewrite !elem_of_cons, list_elem_of_filter, IH.
  destruct (decide (x = a)); intuition.
Qed.

Lemma first_seen_NoDup names : NoDup (Spec.first_seen names).
Proof.
  induction names as [|a names IH]; simpl; constructor.
  - rewrite list_elem_of_filter. intros [Hne _]. by apply Hne.
  - by apply NoDup_filter.
Qed.

Lemma first_seen_snoc seen x :
  Spec.first_seen (seen ++ [x])
  = if decide (x ∈ seen) then Spec.first_seen seen else Spec.first_seen seen ++ [x].
Proof.
  induction seen as [|a seen IH].
  - reflexivity.
  - rewrite <- app_comm_cons. cbn [Spec.first_seen]. rewrite IH.
    destruct (decide (x ∈ a :: seen)) as [Hin|Hout], (decide (x ∈ seen)) as [Hin'|Hout'];
      try reflexivity.
    + apply elem_of_cons in Hin as [->|Hin]; [|done].
      rewrite filter_app, filter_cons_False, filter_nil, app_nil_r
        by (intros H'; by apply H').
      reflexivity.
    + exfalso. apply Hout. by right.
    + rewrite filter_app, filter_cons_True; [reflexivity|].
      intros ->. apply Hout. by left.
Qed.

Lemma occurrences_snoc seen x c :
  Spec.occurrences c (seen ++ [x])
  = (Spec.occurrences c seen + if decide (x = c) then 1 else 0)%nat.
Proof.
  unfold Spec.occurrences. rewrite filter_app, length_app.
  case_decide; [rewrite filter_cons_True|rewrite filter_cons_False]; done.
Qed.

Lemma occurrences_absent seen c : c ∉ seen -> Spec.occurrences c seen = 0%nat.
Proof.
  unfold Spec.occurrences. induction seen as [|a seen IH]; intros Hc; [reflexivity|].
  rewrite filter_cons_False by set_solver. apply IH. set_solver.
Qed.

Lemma get_own_map (f : string -> Count) (l : list string) x :
  get_own (map (fun c => (c, f c)) l) x = if decide (x ∈ l) then Some (f x) else None.
Proof.
  induction l as [|a l IH].
  - destruct (decide (x ∈ [])) as [Hin|_]; [inversion Hin|reflexivity].
  - cbn [map get_own]. rewrite IH. destruct (String.eqb_spec a x) as [->|Hne].
    + rewrite decide_True by (by left). reflexivity.
    + destruct (decide (x ∈ l)) as [Hin|Hout].
      * rewrite decide_True by (by right). reflexivity.
      * rewrite decide_False; [reflexivity|].
        intros [E|Hin]%elem_of_cons; [by apply Hne|by apply Hout].
Qed.

Lemma set_own_fresh (f : string -> Count) (l : list string) x v :
  x ∉ l -> set_own (map (fun c => (c, f c)) l) x v = map (fun c => (c, f c)) l ++ [(x, v)].
Proof.
  induction l as [|a l IH]; intros Hx; simpl; [reflexivity|].
  destruct (String.eqb_spec a x) as [->|Hne]; [set_solver|].
  rewrite IH by set_solver. reflexivity.
Qed.

Lemma set_own_present (f g : string -> Count) (l : list string) x :
  NoDup l -> x ∈ l -> (forall c, c <> x -> g c = f c) ->
  set_own (map (fun c => (c, f c)) l) x (g x) = map (fun c => (c, g c)) l.
Proof.
  intros Hnd Hx Hg. induction l as [|a l IH]; [set_solver|].
  apply NoDup_cons in Hnd as [Ha Hnd]. simpl.
  destruct (String.eqb_spec a x) as [->|Hne].
  - f_equal. apply map_ext_in. intros c Hc. f_equal. symmetry. apply Hg.
    intros ->. apply Ha. by apply list_elem_of_In.
  - rewrite (Hg a Hne). f_equal. apply IH; [done|].
    apply elem_of_cons in Hx as [E|Hx]; [by destruct Hne|done].
Qed.

Lemma proto_not_inherited x : object_prototype x = None -> String.eqb x "__proto__" = false.
Proof. unfold object_prototype. destruct (String.eqb x "__proto__"); congruence. Qed.

Lemma tally_step seen x :
  object_prototype x = None ->
  assign (Spec.tally seen) x (or_zero_plus_one (Spec.tally seen) x) = Spec.tally (seen ++ [x]).
Proof.
  intros Hx. unfold assign, or_zero_plus_one, Spec.tally.
  rewrite (proto_not_inherited x Hx), get_own_map, first_seen_snoc.
  destruct (decide (x ∈ Spec.first_seen seen)) as [Hin|Hout], (decide (x ∈ seen)) as [Hin'|Hout'].
  - replace (CNum (Spec.occurrences x seen + 1))
      with ((fun c => CNum (Spec.occurrences c (seen ++ [x]))) x).
    + apply (set_own_present (fun c => CNum (Spec.occurrences c seen))
               (fun c => CNum (Spec.occurrences c (seen ++ [x])))).
      * apply first_seen_NoDup.
      * exact Hin.
      * intros c Hc. rewrite occurrences_snoc.
        destruct (decide (x = c)); [congruence|]. f_equal. lia.
    + cbv beta. rewrite occurrences_snoc. destruct (decide (x = x)); done.
  - exfalso. by apply Hout', first_seen_elem.
  - exfalso. by apply Hout, first_seen_elem.
  - rewrite Hx, set_own_fresh by exact Hout.
    rewrite map_app. cbn [map]. f_equal.
    + apply map_ext_in. intros c Hc. rewrite occurrences_snoc.
      destruct (decide (x = c)) as [->|_]; [|f_equal; f_equal; lia].
      exfalso. apply Hout. by apply list_elem_of_In.
    + rewrite occurrences_snoc, occurrences_absent by exact Hout'.
      destruct (decide (x = x)); done.
Qed.

Lemma tally_fold names seen :
  Forall (fun c => object_prototype c = None) names ->
  fold_left (fun counts name => assign counts name (or_zero_plus_one counts name))
    names (Spec.tally seen)
  = Spec.tally (seen ++ names).
Proof.
  intros H. revert seen. induction H as [|x names Hx _ IH]; intros seen; simpl.
  - by rewrite app_nil_r.
  - rewrite tally_step by done. rewrite IH, <- app_assoc. reflexivity.
Qed.

Lemma objectCounts_tally (objects : list DetectedObject) :
  Forall (fun c => object_prototype c = None) (objectNames objects) ->
  objectCounts objects = Spec.tally (objectNames objects).
Proof. intros H. unfold objectCounts. apply (tally_fold _ [] H). Qed.

Lemma insert_index_lift (F : string -> string * Count) (e : N * string)
    (l : list (N * string)) :
  insert_index (fst e, F (snd e)) (map (fun e' => (fst e', F (snd e'))) l)
  = map (fun e' => (fst e', F (snd e'))) (Spec.insert_label e l).
Proof.
  induction l as [|e' l IH]; [reflexivity|].
  cbn [map insert_index Spec.insert_label fst].
  destruct (fst e <=? fst e')%N; [reflexivity|].
  cbn [map]. by rewrite IH.
Qed.

Lemma entries_map (f : string -> Count) (l : list string) :
  entries (map (fun c => (c, f c)) l)
  = map (fun c => (c, f c)) (Spec.enumeration_order l).
Proof.
  unfold entries, Spec.enumeration_order, index_entries.
  rewrite map_app. f_equal.
  - rewrite map_map.
    transitivity (map snd (map (fun e' : N * string => (fst e', (snd e', f (snd e'))))
      (foldr Spec.insert_label []
         (omap (fun c => match array_index c with
                         | Some i => Some (i, c)
                         | None => None
                         end) l)))); [f_equal|by rewrite map_map].
    induction l as [|a l IH]; [reflexivity|].
    cbn [map omap list_omap fst]. destruct (array_index a) as [i|]; [|exact IH].
    cbn [foldr]. rewrite IH.
    apply (insert_index_lift (fun c => (c, f c)) (i, a)).
  - induction l as [|a l IH]; [reflexivity|].
    cbn [map]. destruct (array_index a) as [i|] eqn:E.
    + rewrite (filter_cons_False _ (a, f a)) by (simpl; congruence).
      rewrite (filter_cons_False _ a) by congruence. exact IH.
    + rewrite (filter_cons_True _ (a, f a)) by exact E.
      rewrite (filter_cons_True _ a) by exact E. cbn [map]. f_equal. apply IH.
Qed.

Lemma no_index_labels (l : list string) :
  Forall (fun c => array_index c = None) l ->
  omap (fun c => match array_index c with
                 | Some i => Some (i, c)
                 | None => None
                 end) l = []
  /\ filter (fun c => array_index c = None) l = l.
Proof.
  induction 1 as [|a l Ha _ [IH1 IH2]]; [by split|]. split.
  - cbn [omap list_omap]. rewrite Ha. exact IH1.
  - rewrite filter_cons_True by exact Ha. f_equal. exact IH2.
Qed.

Lemma enumeration_order_plain (l : list string) :
  Forall (fun c => array_index c = None) l -> Spec.enumeration_order l = l.
Proof.
  intros H. destruct (no_index_labels l H) as [Hidx Hrest].
  unfold Spec.enumeration_order. rewrite Hidx, Hrest. reflexivity.
Qed.

(** With no inherited label, the summary lists the distinct labels in the
    order [Object.entries] enumerates them, each with its number of
    occurrences. *)
Lemma detectedObjectsText_enumeration (objects : list DetectedObject) :
  Forall (fun c => object_prototype c = None) (objectNames objects) ->
  detectedObjectsText objects
  = join ", " (map (Spec.pair_text (objectNames objects))
                 (Spec.enumeration_order (Spec.first_seen (objectNames objects)))).
Proof.
  intros H. unfold detectedObjectsText.
  rewrite (objectCounts_tally objects H). unfold Spec.tally.
  rewrite entries_map, map_map. reflexivity.
Qed.

Lemma insert_label_perm (e : N * string) (l : list (N * string)) :
  Spec.insert_label e l ≡ₚ e :: l.
Proof.
  induction l as [|e' l IH]; [reflexivity|]. cbn [Spec.insert_label].
  destruct (fst e <=? fst e')%N; [reflexivity|]. rewrite IH. apply perm_swap.
Qed.

Lemma insert_label_ascending (e : N * string) (l : list (N * string)) :
  StronglySorted (fun a b => (fst a <= fst b)%N) l ->
  StronglySorted (fun a b => (fst a <= fst b)%N) (Spec.insert_label e l).
Proof.
  induction l as [|e' l IH]; intros Hl; [repeat constructor|].
  cbn [Spec.insert_label]. apply StronglySorted_cons in Hl as [Hall Hl].
  destruct (N.leb_spec (fst e) (fst e')) as [Hle|Hgt].
  - apply StronglySorted_cons. split.
    + constructor; [exact Hle|]. eapply Forall_impl; [exact Hall|].
      intros x Hx. cbv beta in *. lia.
    + apply StronglySorted_cons. by split.
  - apply StronglySorted_cons. split; [|by apply IH].
    rewrite insert_label_perm. constructor; [lia|exact Hall].
Qed.

(** The labels [Object.entries] lists first are the array indices among
    the labels, by ascending value. *)
Lemma enumeration_order_ascending (labels : list string) :
  exists indexed : list (N * string),
    Spec.enumeration_order labels
    = map snd indexed ++ filter (fun c => array_index c = None) labels
    /\ StronglySorted (fun a b => (fst a <= fst b)%N) indexed
    /\ Forall (fun e => array_index (snd e) = Some (fst e) /\ snd e ∈ labels) indexed.
Proof.
  eexists. split; [reflexivity|]. induction labels as [|c labels [IHs IHf]].
  - split; constructor.
  - cbn [omap list_omap]. destruct (array_index c) as [i|] eqn:E.
    + cbn [foldr]. split; [by apply insert_label_ascending|].
      rewrite insert_label_perm. constructor; [split; [exact E|by left]|].
      eapply Forall_impl; [exact IHf|]. intros e [He Hin]. split; [exact He|by right].
    + split; [exact IHs|]. eapply Forall_impl; [exact IHf|].
      intros e [He Hin]. split; [exact He|by right].
Qed.

(** [Object.entries] lists every label, once. *)
Lemma enumeration_order_perm (labels : list string) :
  Spec.enumeration_order labels ≡ₚ labels.
Proof.
  unfold Spec.enumeration_order. induction labels as [|c labels IH]; [reflexivity|].
  cbn [omap list_omap]. destruct (array_index c) as [i|] eqn:E.
  - cbn [foldr]. rewrite insert_label_perm, filter_cons_False by congruence.
    cbn [map snd app]. by rewrite IH.
  - rewrite filter_cons_True by exact E.
    rewrite <- Permutation_middle. by rewrite IH.
Qed.

(** A label that names an inherited property is not counted: the inherited
    function is read instead of [undefined], and [__proto__] is never
    recorded. *)
Example inherited_labels_are_miscounted :
  forall p q r : float,
    detectedObjectsText [ {| class := "toString"; score := p |};
                          {| class := "__proto__"; score := q |};
                          {| class := "toString"; score := r |} ]
    = "toString (function toString() { [native code] }11)".
Proof. reflexivity. Qed.

End Counting.

(* ===================================================================== *)
(** ** Ingest of an accepted batch                                        *)
(* ===================================================================== *)

Section Ingest.

Import JS Http Aggregator.

Lemma distinct_labels (names : list string) :
  size (list_to_set names : gset string) = length (Spec.first_seen names).
Proof.
  rewrite <- (size_list_to_set (C := gset string) (Spec.first_seen names))
    by apply first_seen_NoDup.
  f_equal. apply set_eq. intros x.
  rewrite !elem_of_list_to_set. symmetry. apply first_seen_elem.
Qed.

Lemma first_seen_length (names : list string) :
  (length (Spec.first_seen names) <= length names)%nat.
Proof.
  induction names as [|a names IH]; [reflexivity|].
  cbn [Spec.first_seen length].
  pose proof (length_filter (fun y => y <> a) (Spec.first_seen names)). lia.
Qed.

Lemma uniqueObjects_le (objs : list DetectedObject) :
  (uniqueObjects objs <= totalObjects objs)%nat.
Proof.
  unfold uniqueObjects, totalObjects. rewrite distinct_labels.
  etransitivity; [apply first_seen_length|]. by rewrite length_map.
Qed.

Lemma detected_not_null (items : list JValue) (objs : list DetectedObject) :
  mapM detected items = Some objs -> existsb is_null items = false.
Proof.
  rewrite mapM_Some. induction 1 as [|v o items objs Hv _ IH]; [reflexivity|].
  cbn [existsb]. rewrite IH. destruct v; try reflexivity. discriminate Hv.
Qed.

(** A text has no more characters than bytes. *)
Lemma characters_le (s : string) : (Pg.characters s <= String.length s)%nat.
Proof.
  induction s as [|c s IH]; [reflexivity|]. cbn [Pg.characters String.length].
  destruct (Pg.is_continuation c); lia.
Qed.

Lemma varchar_characters (n : nat) (s : string) :
  (Pg.characters s <= n)%nat -> Pg.varchar n s = inr s.
Proof. intros H. unfold Pg.varchar. apply Nat.leb_le in H. by rewrite H. Qed.

Lemma varchar_fits (n : nat) (s : string) :
  (String.length s <= n)%nat -> Pg.varchar n s = inr s.
Proof.
  intros H. apply varchar_characters. pose proof (characters_le s). lia.
Qed.

Lemma integer_fits (n : Z) :
  (0 <= n < 2 ^ 31)%Z -> Pg.integer n = inr n.
Proof.
  intros H. unfold Pg.integer.
  replace (- 2 ^ 31 <=? n)%Z with true by (symmetry; apply Z.leb_le; lia).
  replace (n <? 2 ^ 31)%Z with true by (symmetry; apply Z.ltb_lt; lia).
  reflexivity.
Qed.

Lemma integer_in_range (n : Z) :
  (- 2 ^ 31 <= n < 2 ^ 31)%Z -> Pg.integer n = inr n.
Proof.
  intros H. unfold Pg.integer.
  replace (- 2 ^ 31 <=? n)%Z with true by (symmetry; apply Z.leb_le; lia).
  replace (n <? 2 ^ 31)%Z with true by (symmetry; apply Z.ltb_lt; lia).
  reflexivity.
Qed.

Lemma id_not_taken (t : Pg.Table) :
  Forall (fun r => Pg.id r <> Pg.serial t) (Pg.rows t) ->
  existsb (fun r => (Pg.id r =? Pg.serial t)%Z) (Pg.rows t) = false.
Proof.
  induction 1 as [|r rs Hr _ IH]; [reflexivity|].
  cbn [existsb]. rewrite IH. by destruct (Z.eqb_spec (Pg.id r) (Pg.serial t)).
Qed.

(** An accepted batch is written by [INSERT] as [Spec.stored_row]. *)
Lemma insert_accepted (now : Z) (t : Pg.Table) (src : string) (items : list JValue)
    (objs : list DetectedObject) (avg : Pg.Numeric) :
  Spec.storable t src objs ->
  Spec.round2 (avgConfidence objs) = Some avg ->
  Pg.insert now src (Z.of_nat (totalObjects objs)) (Z.of_nat (uniqueObjects objs))
    (toFixed2 (avgConfidence objs)) (detectedObjectsText objs) (JArr items) (Some t)
  = inr (Spec.stored_row now t src items objs avg,
         Some (Spec.with_row t (Spec.stored_row now t src items objs avg))).
Proof.
  intros [Hcols Hid Hfree Hsrc Hcount _ Htext] Havg. unfold Pg.insert.
  pose proof (uniqueObjects_le objs) as Hle. unfold totalObjects in *.
  rewrite Hcols, (varchar_characters 50 src Hsrc), (varchar_characters 500 _ Htext).
  rewrite !integer_fits by lia.
  rewrite numeric_5_2_toFixed2, Havg, (integer_in_range (Pg.serial t) Hid).
  rewrite (id_not_taken t Hfree). reflexivity.
Qed.

Lemma carried_nonempty (items : list JValue) (objs : list DetectedObject) :
  mapM detected items = Some objs -> objs <> [] ->
  no_objects (Some (JArr items)) = false.
Proof.
  intros Hm Hne. apply length_mapM in Hm.
  destruct items; [destruct objs; [congruence|discriminate Hm]|reflexivity].
Qed.

(** *** The shared statements on a typed batch *)

Lemma detected_fields (v : JValue) (o : DetectedObject) :
  detected v = Some o ->
  get_field v "class" = Some (JStr (class o)) /\ get_field v "score" = Some (JNum (score o)).
Proof.
  unfold detected.
  destruct (get_field v "class") as [[| | |c| |]|]; try discriminate.
  destruct (get_field v "score") as [[| |x| | |]|]; try discriminate.
  intros [= <-]. split; reflexivity.
Qed.

Lemma typed_classes (items : list JValue) (objs : list DetectedObject) :
  mapM detected items = Some objs ->
  map (fun obj => get_field obj "class") items
  = map (fun c => Some (JStr c)) (map class objs).
Proof.
  rewrite mapM_Some. induction 1 as [|v o items objs Hv _ IH]; [reflexivity|].
  cbn [map]. rewrite IH. by destruct (detected_fields v o Hv) as [-> _].
Qed.

Lemma member_of_set (x : string) (l : list string) :
  existsb (same_value_zero (Some (JStr x))) (map (fun c => Some (JStr c)) l)
  = bool_decide (x ∈ l).
Proof.
  induction l as [|a l IH]; [reflexivity|]. cbn [map existsb same_value_zero].
  rewrite IH. destruct (String.eqb_spec x a) as [->|Hne].
  - symmetry. apply bool_decide_eq_true. by left.
  - cbn [orb]. apply bool_decide_ext. rewrite elem_of_cons. tauto.
Qed.

Lemma set_of_strings (names seen : list string) :
  fold_left set_add (map (fun c => Some (JStr c)) names)
    (map (fun c => Some (JStr c)) (Spec.first_seen seen))
  = map (fun c => Some (JStr c)) (Spec.first_seen (seen ++ names)).
Proof.
  revert seen. induction names as [|x names IH]; intros seen.
  - by rewrite app_nil_r.
  - cbn [map fold_left]. unfold set_add at 2. rewrite member_of_set.
    replace (seen ++ x :: names)%list with ((seen ++ [x]) ++ names)%list
      by (by rewrite <- app_assoc).
    rewrite <- IH, first_seen_snoc.
    destruct (decide (x ∈ seen)) as [Hin|Hout].
    + rewrite bool_decide_eq_true_2 by (by apply first_seen_elem). reflexivity.
    + rewrite bool_decide_eq_false_2 by (by rewrite first_seen_elem).
      by rewrite map_app.
Qed.

Lemma typed_uniqueObjects (items : list JValue) (objs : list DetectedObject) :
  mapM detected items = Some objs -> Ingest.uniqueObjects items = uniqueObjects objs.
Proof.
  intros Hm. unfold Ingest.uniqueObjects, uniqueObjects.
  rewrite (typed_classes items objs Hm), distinct_labels.
  change (@nil (option JValue))
    with (map (fun c => Some (JStr c)) (Spec.first_seen [])).
  rewrite (set_of_strings (map class objs) []). by rewrite !length_map.
Qed.

Lemma typed_reduce (items : list JValue) (objs : list DetectedObject) (acc : float) :
  mapM detected items = Some objs ->
  fold_left (fun sum obj =>
               match sum with
               | Some s => plus s (get_field obj "score")
               | None => None
               end) items (Some (SNum acc))
  = Some (SNum (fold_left (fun sum obj => sum + score obj)%float objs acc)).
Proof.
  rewrite mapM_Some. intros H. revert acc.
  induction H as [|v o items objs Hv _ IH]; intros acc; [reflexivity|].
  cbn [fold_left]. destruct (detected_fields v o Hv) as [_ ->]. cbn [plus]. apply IH.
Qed.

Lemma typed_objectCounts (names : list string) (o : JsObject) :
  fold_left (fun counts name =>
               match counts, text_of name with
               | Some o, Some key => Some (assign o key (or_zero_plus_one o key))
               | _, _ => None
               end) (map (fun c => Some (JStr c)) names) (Some o)
  = Some (fold_left (fun counts name => assign counts name (or_zero_plus_one counts name))
            names o).
Proof.
  revert o. induction names as [|x names IH]; intros o; [reflexivity|].
  cbn [map fold_left text_of text_of_value]. apply IH.
Qed.

Lemma typed_source (source : option JValue) (src : string) :
  source_or_camera source = Some src -> Ingest.source_param source = src.
Proof.
  unfold source_or_camera, Ingest.source_param, not_.
  destruct source as [v|]; [|by intros [= <-]].
  destruct (truthy v) eqn:Ht; cbn [negb]; [|by intros [= <-]].
  destruct v; try discriminate. by intros [= <-].
Qed.

(** On a batch of typed records the shared statements compute what
    [Module Aggregator] says. *)
Lemma typed_values (source : option JValue) (src : string) (items : list JValue)
    (objs : list DetectedObject) :
  mapM detected items = Some objs -> source_or_camera source = Some src ->
  Ingest.values source items
  = Some (src, Z.of_nat (totalObjects objs), Z.of_nat (uniqueObjects objs),
          toFixed2 (avgConfidence objs), detectedObjectsText objs).
Proof.
  intros Hm Hs. unfold Ingest.values, Ingest.avgConfidence, Ingest.reduce.
  rewrite (typed_reduce items objs 0 Hm). unfold Ingest.objectNames, Ingest.objectCounts.
  rewrite (typed_classes items objs Hm), typed_objectCounts.
  rewrite (typed_source source src Hs), (typed_uniqueObjects items objs Hm).
  unfold Ingest.totalObjects, totalObjects. rewrite (length_mapM _ _ _ Hm).
  reflexivity.
Qed.

(** The function adapter stores an accepted non-empty batch and answers
    with the stored row. *)
Lemma handlePostDetections_stores (now : Z) (parsed : JValue) (t : Pg.Table)
    (src : string) (items : list JValue) (objs : list DetectedObject) (avg : Pg.Numeric) :
  Spec.carries parsed src items objs -> objs <> [] ->
  Spec.storable t src objs ->
  Spec.round2 (avgConfidence objs) = Some avg ->
  Api.handlePostDetections now (Some parsed) (Some t)
  = Returns (Api.respond 200 (Saved (Spec.stored_row now t src items objs avg)),
             Some (Spec.with_row t (Spec.stored_row now t src items objs avg))).
Proof.
  intros (Hobj & Hm & Hsrc) Hne Hst Havg.
  destruct parsed as [| | | | |fields]; try discriminate Hobj.
  unfold Api.handlePostDetections. rewrite Hobj.
  rewrite (carried_nonempty items objs Hm Hne), (detected_not_null items objs Hm).
  rewrite (typed_values _ src items objs Hm Hsrc).
  rewrite (insert_accepted now t src items objs avg Hst Havg). reflexivity.
Qed.

(** So does the Express route, on a relation that has the columns. *)
Lemma post_api_detections_stores (now : Z) (parsed : JValue) (t : Pg.Table)
    (src : string) (items : list JValue) (objs : list DetectedObject) (avg : Pg.Numeric) :
  Spec.carries parsed src items objs -> objs <> [] ->
  Spec.storable t src objs ->
  Spec.round2 (avgConfidence objs) = Some avg ->
  Server.post_api_detections now parsed (Some t)
  = Returns ({| Server.status := 200;
                Server.json := Saved (Spec.stored_row now t src items objs avg) |},
             Some (Spec.with_row t (Spec.stored_row now t src items objs avg))).
Proof.
  intros (Hobj & Hm & Hsrc) Hne Hst Havg.
  destruct parsed as [| | | | |fields]; try discriminate Hobj.
  unfold Server.post_api_detections. rewrite Hobj.
  rewrite (carried_nonempty items objs Hm Hne), (detected_not_null items objs Hm).
  rewrite (typed_values _ src items objs Hm Hsrc).
  rewrite (insert_accepted now t src items objs avg Hst Havg). reflexivity.
Qed.

End Ingest.

(* ===================================================================== *)
(** ** What ingest stores, and what it refuses                            *)
(* ===================================================================== *)

Section IngestClaims.

Import JS Http Aggregator.

Lemma via_function_ingest (now : Z) (parsed : JValue) (db : Pg.Db) :
  Router.via_function now (Router.Ingest parsed) db
  = match Api.handlePostDetections now (Some parsed) db with
    | Returns (r, db') => Returns (statusCode r, body r, db')
    end.
Proof. reflexivity. Qed.

(** Both hostings store an accepted non-empty batch as the same row. *)
Lemma ingest_stores (now : Z) (parsed : JValue) (t : Pg.Table)
    (src : string) (items : list JValue) (objs : list DetectedObject) (avg : Pg.Numeric) :
  Spec.carries parsed src items objs -> objs <> [] ->
  Spec.storable t src objs ->
  Spec.round2 (avgConfidence objs) = Some avg ->
  let row := Spec.stored_row now t src items objs avg in
  Router.answers now (Router.Ingest parsed) (Some t)
    (Returns (200%Z, Saved row, Some (Spec.with_row t row))).
Proof.
  intros Hc Hne Hst Havg row. split.
  - rewrite via_function_ingest.
    by rewrite (handlePostDetections_stores now parsed t src items objs avg).
  - unfold Router.via_server.
    rewrite (post_api_detections_stores now parsed t src items objs avg) by done.
    destruct Hc as (Hobj & _). by destruct parsed.
Qed.

Lemma avgConfidence_mean (objs : list DetectedObject) :
  avgConfidence objs = Spec.mean_percent (map score objs).
Proof.
  unfold avgConfidence, Spec.mean_percent, Spec.sum_scores, totalObjects.
  rewrite length_map. do 3 f_equal.
  generalize 0%float. induction objs as [|o objs IH]; intros acc; [reflexivity|].
  cbn [fold_left map]. apply IH.
Qed.

(** C1, as amended: for every non-empty batch the relation accepts, both
    hostings answer 200 and append one row to the relation, whose
    avg_confidence is the value of (sum of the scores / number of objects)
    x 100 as binary64 arithmetic computes it (the sum from 0 in sequence
    order, then the division, then the product, each rounded to binary64),
    rounded to the nearest hundredth, ties away from zero; for the scores
    0.5, 0.9 and 1.0 the mean is printed as 80.00 and stored as 80.00. *)
Theorem avg_confidence_is_rounded_mean (now : Z) (parsed : JValue) (t : Pg.Table)
    (src : string) (items : list JValue) (objs : list DetectedObject) :
  Spec.carries parsed src items objs -> objs <> [] ->
  Spec.storable t src objs ->
  (exists row,
      Router.answers now (Router.Ingest parsed) (Some t)
        (Returns (200%Z, Saved row, Some (Spec.with_row t row)))
      /\ Spec.round2 (Spec.mean_percent (map score objs)) = Some (Pg.avg_confidence row)
      /\ forall h, Pg.avg_confidence row = Pg.Dec h ->
           exists q, Spec.value (Spec.mean_percent (map score objs)) = Some q
                     /\ Spec.rounded_to_hundredths q h)
  /\ (forall c1 c2 c3,
        let batch := [ {| class := c1; score := 0.5 |};
                       {| class := c2; score := 0x1.ccccccccccccdp-1 |};
                       {| class := c3; score := 1 |} ] in
        toFixed2 (avgConfidence batch) = Text "80.00"
        /\ Spec.round2 (avgConfidence batch) = Some (Pg.Dec 8000)).
Proof.
  intros Hc Hne Hst. split.
  - destruct (Spec.mean_fits _ _ _ Hst) as [avg Havg].
    pose proof (ingest_stores now parsed t src items objs avg Hc Hne Hst Havg) as Hok.
    eexists. split; [exact Hok|].
    unfold Spec.stored_row. cbn [Pg.avg_confidence].
    rewrite <- avgConfidence_mean. split; [exact Havg|].
    intros h ->. by apply round2_rounds.
  - intros c1 c2 c3. split; vm_compute; reflexivity.
Qed.

(** C2, as amended: for every non-empty batch the relation accepts whose
    class labels are not names a plain object inherits, both hostings
    store as detected_objects one "<class> (<count>)" pair per distinct
    class, joined with ", ", in the order a plain object enumerates its
    keys: labels that are array indices first, in ascending numeric order,
    then the other labels in first-appearance order.  When no label is an
    array index this is first-appearance order; for the classes person,
    car, person it is "person (2), car (1)". *)
Theorem detected_objects_in_enumeration_order (now : Z) (parsed : JValue) (t : Pg.Table)
    (src : string) (items : list JValue) (objs : list DetectedObject) :
  Spec.carries parsed src items objs -> objs <> [] ->
  Spec.storable t src objs ->
  Forall (fun c => object_prototype c = None) (map class objs) ->
  let distinct := Spec.first_seen (map class objs) in
  (exists row db' indexed,
      Router.answers now (Router.Ingest parsed) (Some t)
        (Returns (200%Z, Saved row, db'))
      /\ Pg.detected_objects row
          = join ", " (map (Spec.pair_text (map class objs))
                         (Spec.enumeration_order distinct))
      /\ Spec.enumeration_order distinct ≡ₚ distinct
      /\ Spec.enumeration_order distinct
          = (map snd indexed ++ filter (fun c => array_index c = None) distinct)%list
      /\ StronglySorted (fun a b => (fst a <= fst b)%N) indexed
      /\ Forall (fun e => array_index (snd e) = Some (fst e)) indexed
      /\ (Forall (fun c => array_index c = None) (map class objs) ->
          Pg.detected_objects row = Spec.summary (map class objs)))
  /\ (forall x1 x2 x3,
        detectedObjectsText [ {| class := "person"; score := x1 |};
                              {| class := "car"; score := x2 |};
                              {| class := "person"; score := x3 |} ]
        = "person (2), car (1)").
Proof.
  intros Hc Hne Hst Hplain distinct. split; [|reflexivity].
  destruct (Spec.mean_fits _ _ _ Hst) as [avg Havg].
  pose proof (ingest_stores now parsed t src items objs avg Hc Hne Hst Havg) as Hok.
  destruct (enumeration_order_ascending distinct) as (indexed & Hsplit & Hsorted & Hidx).
  eexists _, _, indexed. split; [exact Hok|].
  unfold Spec.stored_row. cbn [Pg.detected_objects].
  pose proof (detectedObjectsText_enumeration objs Hplain) as Htext.
  unfold objectNames in Htext. split; [exact Htext|].
  split; [apply enumeration_order_perm|]. split; [exact Hsplit|].
  split; [exact Hsorted|]. split.
  - eapply Forall_impl; [exact Hidx|]. by intros e [He _].
  - intros Hnone. rewrite Htext. fold distinct.
    rewrite enumeration_order_plain; [reflexivity|].
    apply List.Forall_forall. intros c Hin. rewrite List.Forall_forall in Hnone.
    apply Hnone. rewrite <- list_elem_of_In in Hin |- *. by apply first_seen_elem.
Qed.

(** C3: for every non-empty batch the relation accepts, both hostings
    answer 200 and append one row to the relation, whose total_objects is
    the length of the input sequence and whose unique_objects is the
    number of distinct class values in it, so that unique_objects <=
    total_objects. *)
Theorem total_and_unique_objects (now : Z) (parsed : JValue) (t : Pg.Table)
    (src : string) (items : list JValue) (objs : list DetectedObject) :
  Spec.carries parsed src items objs -> objs <> [] ->
  Spec.storable t src objs ->
  exists row,
    Router.answers now (Router.Ingest parsed) (Some t)
      (Returns (200%Z, Saved row, Some (Spec.with_row t row)))
    /\ Pg.total_objects row = Z.of_nat (length items)
    /\ Pg.unique_objects row = Z.of_nat (length (Spec.first_seen (map class objs)))
    /\ (Pg.unique_objects row <= Pg.total_objects row)%Z.
Proof.
  intros Hc Hne Hst.
  destruct (Spec.mean_fits _ _ _ Hst) as [avg Havg].
  pose proof (ingest_stores now parsed t src items objs avg Hc Hne Hst Havg) as Hok.
  eexists. split; [exact Hok|].
  unfold Spec.stored_row. cbn [Pg.total_objects Pg.unique_objects].
  destruct Hc as (_ & Hm & _). apply length_mapM in Hm.
  pose proof (uniqueObjects_le objs) as Hle. unfold totalObjects in Hle.
  split; [by rewrite Hm|]. split; [|lia].
  unfold uniqueObjects. by rewrite distinct_labels.
Qed.

(** C4, as amended: an ingest request whose body is a JSON value without
    an objects field, or with an empty array as objects, stores no row,
    whatever the store holds.  When the body is a JSON object or array,
    both hostings answer it 400 with the validation error.  When it is
    another value, the Express server answers 400 from its body parser,
    before the route runs; the function adapter answers a value other
    than null 400 with the validation error, and null 500 with the
    storage error. *)
Theorem missing_or_empty_objects_rejected (now : Z) (parsed : JValue) (db : Pg.Db) :
  get_field parsed "objects" = None \/ get_field parsed "objects" = Some (JArr []) ->
  (Server.express_json parsed = true ->
     Router.answers now (Router.Ingest parsed) db
       (Returns (400%Z, Failure "No hay objetos para guardar" None, db)))
  /\ (Server.express_json parsed = false ->
      Router.via_server now (Router.Ingest parsed) db = Returns (400%Z, ErrorPage, db))
  /\ (parsed <> JNull ->
      Router.via_function now (Router.Ingest parsed) db
      = Returns (400%Z, Failure "No hay objetos para guardar" None, db))
  /\ (parsed = JNull ->
      Router.via_function now (Router.Ingest parsed) db
      = Returns (500%Z, Failure "Error guardando en base de datos" (Some TypeError), db)).
Proof.
  intros Hobj. unfold Router.answers. rewrite via_function_ingest.
  unfold Router.via_server, Api.handlePostDetections, Server.post_api_detections.
  destruct parsed; cbn [Server.express_json];
    (destruct Hobj as [Hobj | Hobj]; [|try discriminate Hobj]);
    try rewrite Hobj; repeat split; intros; try reflexivity; congruence.
Qed.

(** C10, as amended: an ingest request whose objects field is truthy, is
    not an array, and has no length strictly equal to 0 passes the
    validation check; the aggregation then throws a TypeError and both
    hostings answer 500 with the storage error, the store left as it
    was. *)
Theorem non_array_objects_answered_500 (now : Z) (parsed objects : JValue) (db : Pg.Db) :
  get_field parsed "objects" = Some objects ->
  truthy objects = true -> is_array objects = false ->
  length_is_zero objects = false ->
  no_objects (Some objects) = false
  /\ Router.answers now (Router.Ingest parsed) db
       (Returns (500%Z, Failure "Error guardando en base de datos" (Some TypeError), db)).
Proof.
  intros Hobj Ht Ha Hl.
  assert (Hno : no_objects (Some objects) = false)
    by (unfold no_objects, not_; rewrite Ht, Hl; reflexivity).
  split; [exact Hno|]. unfold Router.answers. rewrite via_function_ingest.
  unfold Router.via_server, Api.handlePostDetections, Server.post_api_detections.
  destruct parsed; try discriminate Hobj. rewrite Hobj, Hno.
  destruct objects; try discriminate Ha; split; reflexivity.
Qed.

End IngestClaims.

(* ===================================================================== *)
(** ** Routing                                                            *)
(* ===================================================================== *)

Section Routing.

Import JS Http Aggregator.

(** On one and the same store the two hostings run the same logic on
    every operation that reaches a route of the Express server. *)
Lemma hostings_agree (now : Z) (op : Router.Operation) (db : Pg.Db) :
  Router.reaches_route op = true ->
  Router.via_function now op db = Router.via_server now op db.
Proof.
  intros Hroute. destruct op as [|parsed|[v|]| |].
  - reflexivity.
  - rewrite via_function_ingest. unfold Router.via_server.
    cbn [Router.reaches_route] in Hroute. rewrite Hroute.
    unfold Api.handlePostDetections, Server.post_api_detections.
    destruct parsed as [| | | |elements|fields]; try discriminate Hroute;
      [reflexivity|].
    cbv zeta.
    destruct (no_objects (get_field (JObj fields) "objects")); [reflexivity|].
    destruct (get_field (JObj fields) "objects") as [[| | | |items|]|];
      try reflexivity.
    destruct (existsb is_null items); [reflexivity|].
    destruct (Ingest.values _ items) as [[[[[p1 p2] p3] p4] p5]|]; [|reflexivity].
    destruct (Pg.insert _ _ _ _ _ _ _ db) as [e|[row db']]; reflexivity.
  - unfold Router.via_function, Router.via_server, Router.event_of, Api.handler.
    cbn. unfold Api.handleGetDetections, Server.get_api_detections.
    unfold Api.limit_or_50, Server.limit_or_50. cbn.
    destruct (Pg.select_recent _ db); reflexivity.
  - unfold Router.via_function, Router.via_server, Router.event_of, Api.handler.
    cbn. unfold Api.handleGetDetections, Server.get_api_detections.
    destruct (Pg.select_recent _ db); reflexivity.
  - unfold Router.via_function, Router.via_server, Router.event_of, Api.handler.
    cbn. unfold Api.handleStats, Server.get_api_stats.
    destruct (Pg.select_stats db); reflexivity.
  - unfold Router.via_function, Router.via_server, Router.event_of, Api.handler.
    cbn. unfold Api.handleDeleteDetections, Server.delete_api_detections.
    destruct (Pg.delete_all db); reflexivity.
Qed.

(** C9: the function adapter answers an OPTIONS request to any path with
    status 200, an empty body and the CORS headers, which allow every
    origin, the header Content-Type and the methods GET, POST, PUT, DELETE
    and OPTIONS; it answers any other request whose method and path match
    none of the five operations with status 404, the not-found error and
    the same headers; neither touches the store. *)
Theorem unknown_route_404_options_200 (now : Z) (event : Api.Event) (db : Pg.Db) :
  (Api.httpMethod event = "OPTIONS" ->
     Api.handler now event db
     = Returns ({| statusCode := 200;
                   headers :=
                     [("Access-Control-Allow-Origin", "*");
                      ("Access-Control-Allow-Headers", "Content-Type");
                      ("Access-Control-Allow-Methods", "GET, POST, PUT, DELETE, OPTIONS");
                      ("Content-Type", "application/json")];
                   body := Empty |}, db))
  /\ (Api.httpMethod event <> "OPTIONS" ->
      (Api.httpMethod event, Api.path event) ∉ Spec.routes ->
      Api.handler now event db
      = Returns ({| statusCode := 404;
                    headers :=
                      [("Access-Control-Allow-Origin", "*");
                       ("Access-Control-Allow-Headers", "Content-Type");
                       ("Access-Control-Allow-Methods", "GET, POST, PUT, DELETE, OPTIONS");
                       ("Content-Type", "application/json")];
                    body := Failure "Ruta no encontrada" None |}, db)).
Proof.
  split.
  - intros Hm. unfold Api.handler. rewrite Hm. reflexivity.
  - intros Hm Hr. unfold Api.handler.
    destruct (String.eqb_spec (Api.httpMethod event) "OPTIONS") as [E|_]; [done|].
    repeat match goal with
           | |- context [String.eqb ?a ?b] =>
               destruct (String.eqb_spec a b) as [?E|?N]
           end; cbn [andb]; try reflexivity; try congruence;
      exfalso; apply Hr; unfold Spec.routes;
      repeat match goal with E : _ = _ |- _ => rewrite E; clear E end;
      rewrite !elem_of_cons; tauto.
Qed.

End Routing.

(* ===================================================================== *)
(** ** The two relations                                                  *)
(* ===================================================================== *)

Section Schema.

Import JS Http Aggregator.

(** On the relation [server.js] creates, its own INSERT finds no column
    [detected_objects]. *)
Lemma server_insert_fails now p1 p2 p3 p4 p5 p6 :
  Pg.insert now p1 p2 p3 p4 p5 p6 (Server.initDatabase None)
  = inl (Pg.UndefinedColumn "detected_objects").
Proof. reflexivity. Qed.

(** So on that relation the Express server answers no ingest request 200,
    and stores nothing. *)
Lemma server_ingest_fails (now : Z) (parsed : JValue) :
  exists status b,
    Router.via_server now (Router.Ingest parsed) (Server.initDatabase None)
    = Returns (status, b, Server.initDatabase None)
    /\ status <> 200%Z.
Proof.
  unfold Router.via_server, Server.post_api_detections.
  destruct parsed as [| | | |elements|fields]; cbn [Server.express_json];
    try (eexists _, _; split; [reflexivity|discriminate]).
  cbv zeta.
  destruct (no_objects (get_field (JObj fields) "objects"));
    [eexists _, _; split; [reflexivity|discriminate]|].
  destruct (get_field (JObj fields) "objects") as [[| | | |items|]|];
    try (eexists _, _; split; [reflexivity|discriminate]).
  destruct (existsb is_null items);
    [eexists _, _; split; [reflexivity|discriminate]|].
  destruct (Ingest.values _ items) as [[[[[p1 p2] p3] p4] p5]|];
    [|eexists _, _; split; [reflexivity|discriminate]].
  rewrite server_insert_fails. eexists _, _; split; [reflexivity|discriminate].
Qed.

(** C5: the two hostings do not create the same relation.  The function
    adapter creates the column detected_objects and stores the sample
    batch; the Express server creates the relation without that column,
    so that on its own relation its INSERT and its history SELECT fail:
    the same batch is answered 500 and no ingest request ever stores a
    row. *)
Theorem server_creates_no_detected_objects_column :
  ("detected_objects" ∈ Api.detections_columns)
  /\ ("detected_objects" ∉ Server.detections_columns)
  /\ Router.via_function 10 (Router.Ingest Sample.body) (Api.initDatabase None)
     = Returns (200%Z, Saved Sample.row, Some Sample.stored)
  /\ Router.via_server 10 (Router.Ingest Sample.body) (Server.initDatabase None)
     = Returns (500%Z,
                Failure "Error guardando en base de datos"
                  (Some (QueryError (Pg.UndefinedColumn "detected_objects"))),
                Server.initDatabase None)
  /\ Router.via_server 10 (Router.History None) (Server.initDatabase None)
     = Returns (500%Z,
                Failure "Error obteniendo datos"
                  (Some (QueryError (Pg.UndefinedColumn "detected_objects"))),
                Server.initDatabase None)
  /\ forall now parsed status b db',
       Router.via_server now (Router.Ingest parsed) (Server.initDatabase None)
       = Returns (status, b, db') ->
       status <> 200%Z /\ db' = Server.initDatabase None.
Proof.
  split; [unfold Api.detections_columns; rewrite !elem_of_cons; tauto|].
  split; [unfold Server.detections_columns; rewrite !elem_of_cons, elem_of_nil;
          intros H; repeat destruct H as [H|H]; try discriminate H; exact H|].
  split; [vm_compute; reflexivity|].
  split; [reflexivity|]. split; [reflexivity|].
  intros now parsed status b db' H.
  destruct (server_ingest_fails now parsed) as (status' & b' & E & Hs).
  rewrite E in H. injection H as <- <- <-. by split.
Qed.

End Schema.

(* ===================================================================== *)
(** ** Input of integers                                                  *)
(* ===================================================================== *)

Section Integers.

Import JS Http Aggregator.

Local Open Scope Z_scope.

Lemma skip_spaces_uint (d : Decimal.uint) (r : string) :
  d <> Decimal.Nil ->
  Pg.skip_spaces (NilEmpty.string_of_uint d ++ r) = NilEmpty.string_of_uint d ++ r.
Proof. destruct d; [done|reflexivity..]. Qed.

Lemma digit_of_none (c : ascii) : Pg.is_digit c = false -> Pg.digit_of 10 c = None.
Proof.
  intros H. unfold Pg.digit_of. rewrite H. cbv zeta.
  set (k := Z.of_nat (nat_of_ascii c)).
  destruct (Z.leb_spec 97 k), (Z.leb_spec k 102), (Z.leb_spec 65 k), (Z.leb_spec k 70);
    cbn [andb]; try reflexivity;
    match goal with |- context [(?a <? 10)] => destruct (Z.ltb_spec a 10) end;
    (reflexivity || lia).
Qed.

Lemma scan_stops (acc : Z) (r : string) : Pg.stops r -> Pg.scan 10 false acc r = Pg.Read acc r.
Proof.
  destruct r as [|c v]; [reflexivity|]. intros [Hd Hu]. cbn [Pg.scan].
  rewrite (digit_of_none c Hd).
  destruct (Ascii.eqb_spec c "_"); [done|reflexivity].
Qed.

Lemma scan_uint (d : Decimal.uint) (first : bool) (acc : Z) (r : string) :
  Pg.stops r -> first = false \/ d <> Decimal.Nil ->
  Pg.scan 10 first acc (NilEmpty.string_of_uint d ++ r)
  = if Pg.uint_overflows acc d then Pg.OutOfRange else Pg.Read (Pg.uint_value acc d) r.
Proof.
  intros Hr. revert first acc.
  induction d as [|d IH|d IH|d IH|d IH|d IH|d IH|d IH|d IH|d IH|d IH];
    intros first acc Hf.
  { destruct Hf as [->|Hf]; [|done]. by apply scan_stops. }
  all: cbn [NilEmpty.string_of_uint Pg.uint_overflows Pg.uint_value];
    change (String ?a ?s ++ r) with (String a (s ++ r)); cbn [Pg.scan];
    match goal with
    | |- context [Pg.digit_of 10 ?c] =>
        let v := eval vm_compute in (Pg.digit_of 10 c) in change (Pg.digit_of 10 c) with v
    end;
    cbv iota beta; change (2 ^ 63 / 10) with 922337203685477580;
    (destruct (922337203685477580 <? acc); [reflexivity|]);
    cbn [orb]; apply IH; by left.
Qed.

Lemma uint_value_acc (p : positive) (d : Decimal.uint) :
  Zpos (Pos.of_uint_acc d p) = Pg.uint_value (Zpos p) d.
Proof.
  revert p. induction d as [|d IH|d IH|d IH|d IH|d IH|d IH|d IH|d IH|d IH|d IH];
    intros p; cbn [Pos.of_uint_acc Pg.uint_value]; [reflexivity|..];
    rewrite IH; f_equal; lia.
Qed.

Lemma uint_value_of (d : Decimal.uint) : Z.of_N (N.of_uint d) = Pg.uint_value 0 d.
Proof.
  unfold N.of_uint.
  induction d as [|d IH|d IH|d IH|d IH|d IH|d IH|d IH|d IH|d IH|d IH];
    cbn [Pos.of_uint Pg.uint_value]; [reflexivity|exact IH|..];
    cbn [Z.of_N]; by rewrite uint_value_acc.
Qed.

Lemma uint_value_digits (n : Z) : (0 <= n)%Z -> Pg.uint_value 0 (N.to_uint (Z.to_N n)) = n.
Proof.
  intros Hn. rewrite <- uint_value_of, DecimalN.Unsigned.of_to. lia.
Qed.

Lemma uint_value_ge (d : Decimal.uint) (acc : Z) :
  0 <= acc -> acc <= Pg.uint_value acc d /\ (d <> Decimal.Nil -> acc * 10 <= Pg.uint_value acc d).
Proof.
  revert acc. induction d as [|d IH|d IH|d IH|d IH|d IH|d IH|d IH|d IH|d IH|d IH];
    intros acc Ha; cbn [Pg.uint_value]; [split; [lia|done]|..];
    match goal with
    | |- context [Pg.uint_value ?a d] => destruct (IH a ltac:(lia)) as [H1 _]
    end; split; intros; lia.
Qed.

Lemma uint_overflows_last (acc k : Z) :
  0 <= k < 10 -> (acc * 10 + k) / 10 = acc.
Proof. intros Hk. symmetry. apply Z.div_unique with k; lia. Qed.

Lemma uint_overflows_spec (d : Decimal.uint) (acc : Z) :
  0 <= acc -> d <> Decimal.Nil ->
  Pg.uint_overflows acc d = (2 ^ 63 / 10 <? Pg.uint_value acc d / 10).
Proof.
  change (2 ^ 63 / 10) with 922337203685477580.
  assert (forall d' a acc',
            0 <= acc' -> a / 10 = acc' -> acc' * 10 <= a ->
            (d' <> Decimal.Nil ->
             Pg.uint_overflows a d' = (922337203685477580 <? Pg.uint_value a d' / 10)) ->
            (922337203685477580 <? acc') || Pg.uint_overflows a d'
            = (922337203685477580 <? Pg.uint_value a d' / 10)) as Hstep.
  { intros d' a acc' Ha Hdiv Hle IH.
    destruct (uint_value_ge d' a ltac:(lia)) as [H1 H2].
    assert (d' = Decimal.Nil \/ d' <> Decimal.Nil) as [->|Hd']
      by (destruct d'; (by left) || (by right)).
    { cbn [Pg.uint_overflows Pg.uint_value]. by rewrite orb_false_r, Hdiv. }
    rewrite IH by exact Hd'. specialize (H2 Hd').
    assert (acc' * 10 <= Pg.uint_value a d' / 10) by (apply Z.div_le_lower_bound; lia).
    destruct (Z.ltb_spec 922337203685477580 acc');
      destruct (Z.ltb_spec 922337203685477580 (Pg.uint_value a d' / 10));
      cbn [orb]; try reflexivity; lia. }
  revert acc. induction d as [|d IH|d IH|d IH|d IH|d IH|d IH|d IH|d IH|d IH|d IH];
    intros acc Ha Hd; [done|..];
    cbn [Pg.uint_overflows Pg.uint_value]; change (2 ^ 63 / 10) with 922337203685477580;
    (apply Hstep; [exact Ha|apply uint_overflows_last; lia|lia|]);
    intros Hd'; (apply IH; [lia|exact Hd']).
Qed.

Lemma scan_number_uint (d : Decimal.uint) (r : string) :
  Pg.stops r -> d <> Decimal.Nil ->
  (forall v, r = String "x" v \/ r = String "X" v \/ r = String "o" v
             \/ r = String "O" v \/ r = String "b" v \/ r = String "B" v ->
             d <> Decimal.D0 Decimal.Nil) ->
  Pg.scan_number (NilEmpty.string_of_uint d ++ r)
  = Pg.scan 10 true 0 (NilEmpty.string_of_uint d ++ r).
Proof.
  intros Hr Hd Hx. destruct d; try done; try reflexivity.
  cbn [NilEmpty.string_of_uint]. change ("0" ++ ?s ++ r) with (String "0" (s ++ r)).
  destruct d; try reflexivity.
  cbn [NilEmpty.string_of_uint]. change ("" ++ r) with r.
  destruct r as [|c v]; [reflexivity|].
  change ("0" ++ String c v) with (String "0" (String c v)). unfold Pg.scan_number.
  destruct (Pg.one_of c "x" "X") eqn:E1.
  { apply orb_prop in E1 as [->%Ascii.eqb_eq| ->%Ascii.eqb_eq];
      exfalso; apply (Hx v); tauto. }
  destruct (Pg.one_of c "o" "O") eqn:E2.
  { apply orb_prop in E2 as [->%Ascii.eqb_eq| ->%Ascii.eqb_eq];
      exfalso; apply (Hx v); tauto. }
  destruct (Pg.one_of c "b" "B") eqn:E3; [|reflexivity].
  apply orb_prop in E3 as [->%Ascii.eqb_eq| ->%Ascii.eqb_eq];
    exfalso; apply (Hx v); tauto.
Qed.

(** The weight and the first digit of a number in base 10000. *)
Lemma first_digit_spec (fuel : nat) (i : Z) :
  1 <= i < 10000 ^ (Z.of_nat fuel + 1) ->
  let '(w, d) := Pg.first_digit fuel i in
  0 <= w /\ 1 <= d < 10000 /\ d * 10000 ^ w <= i < (d + 1) * 10000 ^ w.
Proof.
  revert i. induction fuel as [|fuel IH]; intros i Hi.
  - cbn [Pg.first_digit]. change (10000 ^ (Z.of_nat 0 + 1)) with 10000 in Hi.
    change (10000 ^ 0) with 1. lia.
  - cbn [Pg.first_digit]. destruct (Z.ltb_spec i 10000) as [Hlt|Hge].
    + change (10000 ^ 0) with 1. lia.
    + replace (Z.of_nat (S fuel) + 1) with (Z.of_nat fuel + 1 + 1) in Hi by lia.
      rewrite (Z.pow_add_r 10000 (Z.of_nat fuel + 1) 1) in Hi by lia.
      change (10000 ^ 1) with 10000 in Hi.
      assert (1 <= i / 10000 < 10000 ^ (Z.of_nat fuel + 1)) as Hq.
      { split; [apply Z.div_le_lower_bound; lia|apply Z.div_lt_upper_bound; lia]. }
      specialize (IH (i / 10000) Hq). destruct (Pg.first_digit fuel (i / 10000)) as [w d].
      destruct IH as (Hw & Hd & Hlo & Hhi).
      split; [lia|]. split; [exact Hd|].
      rewrite (Z.pow_add_r 10000 w 1) by lia. change (10000 ^ 1) with 10000.
      pose proof (Z.div_mod i 10000 ltac:(lia)). pose proof (Z.mod_pos_bound i 10000 ltac:(lia)).
      nia.
Qed.

Lemma log2_fuel (i : Z) : 1 <= i -> i < 10000 ^ (Z.of_nat (Z.to_nat (Z.log2 i)) + 1).
Proof.
  intros Hi. pose proof (Z.log2_nonneg i). rewrite Z2Nat.id by lia.
  pose proof (Z.log2_spec i ltac:(lia)) as [_ Hspec].
  eapply Z.lt_le_trans; [exact Hspec|].
  replace (Z.succ (Z.log2 i)) with (Z.log2 i + 1) by lia.
  apply Z.pow_le_mono_l. lia.
Qed.

(** Where the mean is below 1000 in magnitude, the division gives its
    result 16 fraction digits at least. *)
Lemma div_scale_sixteen (sum n : Z) :
  0 < n -> Z.abs sum < 100000 * n -> 16 <= Pg.div_scale sum n.
Proof.
  intros Hn Hs. unfold Pg.div_scale.
  pose proof (first_digit_spec (Z.to_nat (Z.log2 n)) n
                ltac:(split; [lia|apply log2_fuel; lia])) as H2.
  destruct (Pg.first_digit (Z.to_nat (Z.log2 n)) n) as [w2 d2].
  destruct H2 as (Hw2 & Hd2 & Hlo2 & Hhi2).
  assert (forall w1 d1, w1 - w2 - (if d1 <=? d2 then 1 else 0) <= 0 ->
            16 <= Z.min 1000 (Z.max (16 - (w1 - w2 - (if d1 <=? d2 then 1 else 0)) * 4) 2))
    as Hq by (intros; lia).
  unfold Pg.sum_first_digit. set (a := Z.abs sum) in *.
  destruct (Z.eqb_spec a 0) as [H0|H0]; [apply Hq; destruct (0 <=? d2); lia|].
  destruct (Z.ltb_spec a 100) as [Hsmall|Hbig]; [apply Hq; destruct (_ <=? d2); lia|].
  assert (1 <= a / 100) as Hi by (apply Z.div_le_lower_bound; lia).
  pose proof (first_digit_spec (Z.to_nat (Z.log2 a)) (a / 100)) as H1.
  assert (a / 100 < 10000 ^ (Z.of_nat (Z.to_nat (Z.log2 a)) + 1)) as Hf.
  { pose proof (log2_fuel a ltac:(lia)).
    assert (a / 100 <= a) by (apply Z.div_le_upper_bound; lia). lia. }
  specialize (H1 ltac:(lia)).
  destruct (Pg.first_digit (Z.to_nat (Z.log2 a)) (a / 100)) as [w1 d1].
  destruct H1 as (Hw1 & Hd1 & Hlo1 & Hhi1). apply Hq.
  assert (a / 100 < 1000 * n) as Hlt by (apply Z.div_lt_upper_bound; lia).
  destruct (Z.le_gt_cases w1 w2) as [Hle|Hgt]; [destruct (d1 <=? d2); lia|].
  replace w1 with (w2 + 1 + (w1 - w2 - 1)) in Hlo1 by lia.
  rewrite !Z.pow_add_r in Hlo1 by lia. change (10000 ^ 1) with 10000 in Hlo1.
  assert (0 < 10000 ^ w2) as Hp2 by (apply Z.pow_pos_nonneg; lia).
  assert (1 <= 10000 ^ (w1 - w2 - 1)) as Hpk.
  { pose proof (Z.pow_pos_nonneg 10000 (w1 - w2 - 1) ltac:(lia) ltac:(lia)). lia. }
  assert (w1 - w2 - 1 = 0 \/ 1 <= w1 - w2 - 1) as [Hk|Hk] by lia.
  - rewrite Hk in Hlo1. change (10000 ^ 0) with 1 in Hlo1.
    assert (d1 <= d2) by nia.
    destruct (Z.leb_spec d1 d2); lia.
  - exfalso. assert (10000 <= 10000 ^ (w1 - w2 - 1)) as Hp.
    { change 10000 with (10000 ^ 1) at 1. apply Z.pow_le_mono_r; lia. }
    set (X := 10000 ^ w2) in *. set (P := 10000 ^ (w1 - w2 - 1)) in *.
    assert (d1 * (X * 10000 * P) < 1000 * ((d2 + 1) * X)) as Hc by lia.
    replace (d1 * (X * 10000 * P)) with (d1 * 10000 * P * X) in Hc by ring.
    replace (1000 * ((d2 + 1) * X)) with (1000 * (d2 + 1) * X) in Hc by ring.
    apply Z.mul_lt_mono_pos_r in Hc; [|exact Hp2].
    assert (P <= d1 * P) by nia. lia.
Qed.

End Integers.

(* ===================================================================== *)
(** ** History                                                            *)
(* ===================================================================== *)

Section History.

Import JS Http Aggregator.

Lemma signed_digits (n : Z) : Pg.signed (digits n) = (false, digits n).
Proof.
  rewrite digits_uint. pose proof (to_uint_not_nil (Z.to_N n)) as H.
  destruct (N.to_uint (Z.to_N n)); simpl; congruence.
Qed.

Lemma skip_spaces_digits (n : Z) : Pg.skip_spaces (digits n) = digits n.
Proof.
  rewrite digits_uint. pose proof (to_uint_not_nil (Z.to_N n)) as H.
  destruct (N.to_uint (Z.to_N n)); simpl; congruence.
Qed.

Lemma string_app_empty (s : string) : s = s ++ "".
Proof.
  induction s as [|c s IH]; [reflexivity|].
  change (String c s ++ "") with (String c (s ++ "")). by rewrite <- IH.
Qed.

(** Input of a decimal integer, signed or not. *)
Lemma bigint_decimal (neg : bool) (n : Z) :
  (0 <= n)%Z ->
  Pg.bigint (Pg.PText ((if neg then "-" else "") ++ digits n))
  = let v := (if neg then - n else n)%Z in
    if ((- 2 ^ 63 <=? v) && (v <? 2 ^ 63))%Z then inr v else inl Pg.BigintOutOfRange.
Proof.
  intros Hn. unfold Pg.bigint.
  assert (Hs : Pg.signed (Pg.skip_spaces ((if neg then "-" else "") ++ digits n))
               = (neg, digits n)).
  { destruct neg.
    - reflexivity.
    - change ("" ++ digits n) with (digits n).
      by rewrite skip_spaces_digits, signed_digits. }
  rewrite Hs. cbv beta iota. rewrite digits_uint.
  pose proof (to_uint_not_nil (Z.to_N n)) as Hd.
  set (d := N.to_uint (Z.to_N n)) in *.
  rewrite (string_app_empty (NilEmpty.string_of_uint d)).
  rewrite scan_number_uint, scan_uint; try done;
    [|by right|intros v [?|[?|[?|[?|[?|?]]]]]; discriminate].
  rewrite uint_overflows_spec by (lia || done). unfold d. rewrite uint_value_digits by lia.
  change (2 ^ 63 / 10)%Z with 922337203685477580%Z. cbv zeta.
  destruct (Z.ltb_spec 922337203685477580 (n / 10)) as [Hbig|Hsmall]; [|reflexivity].
  assert (9223372036854775810 <= n)%Z.
  { pose proof (Z.div_mod n 10 ltac:(lia)). pose proof (Z.mod_pos_bound n 10 ltac:(lia)).
    lia. }
  assert (2 ^ 63 = 9223372036854775808)%Z as E63 by reflexivity.
  destruct neg.
  - replace (- 2 ^ 63 <=? - n)%Z with false by (symmetry; apply Z.leb_gt; lia).
    reflexivity.
  - replace (n <? 2 ^ 63)%Z with false by (symmetry; apply Z.ltb_ge; lia).
    by rewrite andb_false_r.
Qed.

Lemma bigint_digits (n : Z) :
  (0 <= n < 2 ^ 63)%Z -> Pg.bigint (Pg.PText (digits n)) = inr n.
Proof.
  intros H. pose proof (bigint_decimal false n ltac:(lia)) as E.
  change ((if false then "-" else "") ++ digits n) with (digits n) in E.
  rewrite E. cbv zeta.
  replace (- 2 ^ 63 <=? n)%Z with true by (symmetry; apply Z.leb_le; lia).
  replace (n <? 2 ^ 63)%Z with true by (symmetry; apply Z.ltb_lt; lia).
  reflexivity.
Qed.

Lemma bigint_too_large (n : Z) :
  (2 ^ 63 <= n)%Z -> Pg.bigint (Pg.PText (digits n)) = inl Pg.BigintOutOfRange.
Proof.
  intros H. pose proof (bigint_decimal false n ltac:(lia)) as E.
  change ((if false then "-" else "") ++ digits n) with (digits n) in E.
  rewrite E. cbv zeta.
  replace (n <? 2 ^ 63)%Z with false by (symmetry; apply Z.ltb_ge; lia).
  by rewrite andb_false_r.
Qed.

Lemma bigint_negative (n : Z) :
  (0 < n <= 2 ^ 63)%Z -> Pg.bigint (Pg.PText ("-" ++ digits n)) = inr (- n)%Z.
Proof.
  intros H. pose proof (bigint_decimal true n ltac:(lia)) as E.
  change ((if true then "-" else "") ++ digits n) with ("-" ++ digits n) in E.
  rewrite E. cbv zeta.
  replace (- 2 ^ 63 <=? - n)%Z with true by (symmetry; apply Z.leb_le; lia).
  replace (- n <? 2 ^ 63)%Z with true by (symmetry; apply Z.ltb_lt; lia).
  reflexivity.
Qed.

Lemma bigint_too_small (n : Z) :
  (2 ^ 63 < n)%Z -> Pg.bigint (Pg.PText ("-" ++ digits n)) = inl Pg.BigintOutOfRange.
Proof.
  intros H. pose proof (bigint_decimal true n ltac:(lia)) as E.
  change ((if true then "-" else "") ++ digits n) with ("-" ++ digits n) in E.
  rewrite E. cbv zeta.
  by replace (- 2 ^ 63 <=? - n)%Z with false by (symmetry; apply Z.leb_gt; lia).
Qed.

Lemma limit_rows_take (n : Z) (rs : list Pg.Row) :
  (0 <= n)%Z -> Pg.limit_rows n rs = take (Z.to_nat n) rs.
Proof.
  revert n. induction rs as [|r rs IH]; intros n Hn; [by rewrite take_nil|].
  cbn [Pg.limit_rows]. destruct (Z.leb_spec n 0).
  - by replace n with 0%Z by lia.
  - rewrite IH by lia. replace (Z.to_nat n) with (S (Z.to_nat (n - 1))) by lia.
    reflexivity.
Qed.

(** What both hostings make of the history statement's result. *)
Lemma history_answers (now : Z) (limit : option string) (db : Pg.Db) :
  Router.answers now (Router.History limit) db
    match Pg.select_recent (Server.limit_or_50 limit) db with
    | inr rows => Returns (200%Z, Listed (length rows) rows, db)
    | inl e => Returns (500%Z, Failure "Error obteniendo datos" (Some (QueryError e)), db)
    end.
Proof.
  split; [rewrite hostings_agree by reflexivity|];
    unfold Router.via_server, Server.get_api_detections;
    destruct (Pg.select_recent _ db); reflexivity.
Qed.

Lemma select_recent_digits (t : Pg.Table) (n : Z) :
  Pg.missing_column t Pg.select_columns = None -> (0 <= n < 2 ^ 63)%Z ->
  Pg.select_recent (Pg.PText (digits n)) (Some t)
  = inr (take (Z.to_nat n) (Pg.order_by_created_at_desc (Pg.rows t))).
Proof.
  intros Hc Hn. unfold Pg.select_recent. rewrite Hc, bigint_digits by exact Hn.
  replace (n <? 0)%Z with false by (symmetry; apply Z.ltb_ge; lia).
  by rewrite limit_rows_take by lia.
Qed.

Lemma digits_not_empty (n : Z) : digits n <> "".
Proof.
  rewrite digits_uint. apply uint_string_not_empty, to_uint_not_nil.
Qed.

Lemma limit_text_passed (v : string) :
  v <> "" -> Server.limit_or_50 (Some v) = Pg.PText v
             /\ Api.limit_or_50 [("limit", v)] = Pg.PText v.
Proof.
  intros Hv. unfold Server.limit_or_50, Api.limit_or_50. cbn.
  by destruct (String.eqb_spec v "").
Qed.

(** C6, as amended: the history operation uses limit 50 when no limit is
    supplied, or the empty text.  A supplied limit that is not empty is
    passed unchanged to the statement's LIMIT, neither clamped nor checked
    by the router: a decimal n with 0 <= n < 2^63 lists the n most recent
    rows (none for 0), a negative one (refused by LIMIT down to -2^63, and
    as a bigint below that) and one from 2^63 on make the statement fail,
    which is answered 500. *)
Theorem limit_defaults_to_50_else_is_passed_on (now : Z) (t : Pg.Table) :
  Pg.missing_column t Pg.select_columns = None ->
  let newest := Pg.order_by_created_at_desc (Pg.rows t) in
  let listed rows := Returns (200%Z, Listed (length rows) rows, Some t) in
  let refused e :=
    Returns (500%Z, Failure "Error obteniendo datos" (Some (QueryError e)), Some t) in
  (Api.limit_or_50 [] = Pg.PNumber 50
   /\ Server.limit_or_50 None = Pg.PNumber 50
   /\ Api.limit_or_50 [("limit", "")] = Pg.PNumber 50
   /\ Server.limit_or_50 (Some "") = Pg.PNumber 50
   /\ Router.answers now (Router.History None) (Some t) (listed (take 50 newest)))
  /\ (forall v, v <> "" ->
        Api.limit_or_50 [("limit", v)] = Pg.PText v
        /\ Server.limit_or_50 (Some v) = Pg.PText v)
  /\ (forall n, (0 <= n < 2 ^ 63)%Z ->
        Router.answers now (Router.History (Some (digits n))) (Some t)
          (listed (take (Z.to_nat n) newest)))
  /\ (forall n, (0 < n <= 2 ^ 63)%Z ->
        Router.answers now (Router.History (Some ("-" ++ digits n))) (Some t)
          (refused Pg.NegativeLimit))
  /\ (forall n, (2 ^ 63 <= n)%Z ->
        Router.answers now (Router.History (Some (digits n))) (Some t)
          (refused Pg.BigintOutOfRange))
  /\ (forall n, (2 ^ 63 < n)%Z ->
        Router.answers now (Router.History (Some ("-" ++ digits n))) (Some t)
          (refused Pg.BigintOutOfRange)).
Proof.
  intros Hc newest listed refused. repeat split.
  - pose proof (history_answers now None (Some t)) as [H _].
    rewrite H. unfold Pg.select_recent. rewrite Hc. cbn.
    by rewrite (limit_rows_take 50) by lia.
  - pose proof (history_answers now None (Some t)) as [_ H].
    rewrite H. unfold Pg.select_recent. rewrite Hc. cbn.
    by rewrite (limit_rows_take 50) by lia.
  - by apply limit_text_passed.
  - by apply limit_text_passed.
  - pose proof (history_answers now (Some (digits n)) (Some t)) as [Hf _].
    rewrite Hf. destruct (limit_text_passed (digits n) (digits_not_empty n)) as [-> _].
    by rewrite select_recent_digits.
  - pose proof (history_answers now (Some (digits n)) (Some t)) as [_ Hs].
    rewrite Hs. destruct (limit_text_passed (digits n) (digits_not_empty n)) as [-> _].
    by rewrite select_recent_digits.
  - pose proof (history_answers now (Some ("-" ++ digits n)) (Some t)) as [Hf _].
    rewrite Hf.
    destruct (limit_text_passed ("-" ++ digits n)) as [-> _]; [discriminate|].
    unfold Pg.select_recent. rewrite Hc, bigint_negative by lia.
    by replace (- n <? 0)%Z with true by (symmetry; apply Z.ltb_lt; lia).
  - pose proof (history_answers now (Some ("-" ++ digits n)) (Some t)) as [_ Hs].
    rewrite Hs.
    destruct (limit_text_passed ("-" ++ digits n)) as [-> _]; [discriminate|].
    unfold Pg.select_recent. rewrite Hc, bigint_negative by lia.
    by replace (- n <? 0)%Z with true by (symmetry; apply Z.ltb_lt; lia).
  - pose proof (history_answers now (Some (digits n)) (Some t)) as [Hf _].
    rewrite Hf. destruct (limit_text_passed (digits n) (digits_not_empty n)) as [-> _].
    unfold Pg.select_recent. by rewrite Hc, bigint_too_large.
  - pose proof (history_answers now (Some (digits n)) (Some t)) as [_ Hs].
    rewrite Hs. destruct (limit_text_passed (digits n) (digits_not_empty n)) as [-> _].
    unfold Pg.select_recent. by rewrite Hc, bigint_too_large.
  - pose proof (history_answers now (Some ("-" ++ digits n)) (Some t)) as [Hf _].
    rewrite Hf.
    destruct (limit_text_passed ("-" ++ digits n)) as [-> _]; [discriminate|].
    unfold Pg.select_recent. by rewrite Hc, bigint_too_small.
  - pose proof (history_answers now (Some ("-" ++ digits n)) (Some t)) as [_ Hs].
    rewrite Hs.
    destruct (limit_text_passed ("-" ++ digits n)) as [-> _]; [discriminate|].
    unfold Pg.select_recent. by rewrite Hc, bigint_too_small.
Qed.

Lemma insert_recent_perm (r : Pg.Row) (l : list Pg.Row) :
  Pg.insert_recent r l ≡ₚ r :: l.
Proof.
  induction l as [|r' l IH]; [reflexivity|]. cbn [Pg.insert_recent].
  destruct (Pg.created_at r' <=? Pg.created_at r)%Z; [reflexivity|].
  rewrite IH. apply perm_swap.
Qed.

Lemma order_by_perm (rs : list Pg.Row) : Pg.order_by_created_at_desc rs ≡ₚ rs.
Proof.
  induction rs as [|r rs IH]; [reflexivity|].
  unfold Pg.order_by_created_at_desc in *. cbn [foldr].
  by rewrite insert_recent_perm, IH.
Qed.

Lemma insert_recent_sorted (r : Pg.Row) (l : list Pg.Row) :
  Spec.newest_first l -> Spec.newest_first (Pg.insert_recent r l).
Proof.
  unfold Spec.newest_first. induction l as [|r' l IH]; intros Hl.
  - repeat constructor.
  - cbn [Pg.insert_recent]. apply StronglySorted_cons in Hl as [Hall Hl].
    destruct (Z.leb_spec (Pg.created_at r') (Pg.created_at r)) as [Hle|Hgt].
    + apply StronglySorted_cons. split.
      * constructor; [exact Hle|]. eapply Forall_impl; [exact Hall|].
        intros x Hx. cbv beta in *. lia.
      * apply StronglySorted_cons. by split.
    + apply StronglySorted_cons. split; [|by apply IH].
      rewrite insert_recent_perm. constructor; [lia|exact Hall].
Qed.

Lemma order_by_sorted (rs : list Pg.Row) :
  Spec.newest_first (Pg.order_by_created_at_desc rs).
Proof.
  induction rs as [|r rs IH]; [constructor|].
  unfold Pg.order_by_created_at_desc in *. cbn [foldr].
  by apply insert_recent_sorted.
Qed.

Lemma take_newest_first (k : nat) (l : list Pg.Row) :
  Spec.newest_first l -> Spec.newest_first (take k l).
Proof.
  unfold Spec.newest_first. rewrite <- (take_drop k l) at 1.
  apply StronglySorted_app_1_l.
Qed.

Lemma take_most_recent (k : nat) (rs : list Pg.Row) :
  Spec.most_recent_of (take k (Pg.order_by_created_at_desc rs)) rs.
Proof.
  exists (drop k (Pg.order_by_created_at_desc rs)). split.
  - rewrite take_drop. apply order_by_perm.
  - intros a b Ha Hb. pose proof (order_by_sorted rs) as Hs.
    unfold Spec.newest_first in Hs.
    rewrite <- (take_drop k (Pg.order_by_created_at_desc rs)) in Hs.
    exact (StronglySorted_app_1_elem_of _ _ _ a b Hs Ha Hb).
Qed.

Lemma select_recent_listed (p : Pg.Param) (db : Pg.Db) (listed : list Pg.Row) :
  Pg.select_recent p db = inr listed ->
  exists t k, db = Some t /\ (0 <= k)%Z /\ Pg.bigint p = inr k
              /\ listed = take (Z.to_nat k) (Pg.order_by_created_at_desc (Pg.rows t)).
Proof.
  unfold Pg.select_recent. destruct db as [t|]; [|discriminate].
  destruct (Pg.missing_column t Pg.select_columns); [discriminate|].
  destruct (Pg.bigint p) as [e|k]; [discriminate|].
  destruct (Z.ltb_spec k 0); [discriminate|]. intros [= <-].
  exists t, k. by rewrite limit_rows_take by lia.
Qed.

(** An accepted request is stored by both hostings; the relation then
    accepts what it accepted before. *)
Lemma ingest_accepted (now : Z) (t : Pg.Table) (b : Spec.Batch) :
  Spec.accepted t b ->
  exists avg,
    let row := Spec.stored_row now t (Spec.src b) (Spec.items b) (Spec.objs b) avg in
    Router.answers now (Router.Ingest (Spec.parsed b)) (Some t)
      (Returns (200%Z, Saved row, Some (Spec.with_row t row))).
Proof.
  intros (Hc & Hne & Hst). destruct (Spec.mean_fits _ _ _ Hst) as [avg Havg].
  exists avg. by apply ingest_stores.
Qed.

Lemma ids_below_with_row (t : Pg.Table) (r : Pg.Row) :
  Spec.ids_below t -> Pg.id r = Pg.serial t -> Spec.ids_below (Spec.with_row t r).
Proof.
  unfold Spec.ids_below. intros Ht Hr. cbn [Spec.with_row Pg.rows Pg.serial].
  apply Forall_app. split.
  - eapply Forall_impl; [exact Ht|]. intros r' Hr'. cbv beta in *. lia.
  - repeat constructor. lia.
Qed.

Lemma accepted_with_row (t : Pg.Table) (r : Pg.Row) (b : Spec.Batch) :
  Spec.accepted t b -> Spec.ids_below t -> Pg.id r = Pg.serial t ->
  (Pg.serial t + 1 < 2 ^ 31)%Z ->
  Spec.accepted (Spec.with_row t r) b.
Proof.
  intros (Hc & Hne & [H1 H2 H3 H4 H5 H6 H7]) Hbelow Hr Hser.
  split; [exact Hc|]. split; [exact Hne|].
  constructor; [exact H1| | |exact H4|exact H5|exact H6|exact H7].
  - cbn [Spec.with_row Pg.serial]. lia.
  - eapply Forall_impl; [exact (ids_below_with_row t r Hbelow Hr)|].
    intros r' Hr'. cbv beta in *. lia.
Qed.

(** C8: for every store state and every positive limit N both hostings
    list at most N events, most recent first; where the relation has the
    selected columns and N is below 2^63 they list the min(N, number of
    rows) most recent rows.  In particular, after three events were stored
    at increasing instants in an empty relation, limit 2 lists exactly the
    third and the second, in that order. *)
Theorem history_lists_most_recent_first (now n : Z) :
  (0 < n)%Z ->
  (forall db, exists status b,
      Router.answers now (Router.History (Some (digits n))) db (Returns (status, b, db))
      /\ (Z.of_nat (length (Spec.events b)) <= n)%Z
      /\ Spec.newest_first (Spec.events b))
  /\ (forall t, Pg.missing_column t Pg.select_columns = None -> (n < 2 ^ 63)%Z ->
        exists shown,
          Router.answers now (Router.History (Some (digits n))) (Some t)
            (Returns (200%Z, Listed (length shown) shown, Some t))
          /\ length shown = Nat.min (Z.to_nat n) (length (Pg.rows t))
          /\ Spec.newest_first shown
          /\ Spec.most_recent_of shown (Pg.rows t))
  /\ (forall t b1 b2 b3 now1 now2 now3,
        Pg.rows t = [] -> Pg.missing_column t Pg.select_columns = None ->
        (Pg.serial t + 2 < 2 ^ 31)%Z ->
        Spec.accepted t b1 -> Spec.accepted t b2 -> Spec.accepted t b3 ->
        (now1 < now2 < now3)%Z ->
        exists r1 r2 r3 t1 t2 t3,
          Router.answers now1 (Router.Ingest (Spec.parsed b1)) (Some t)
            (Returns (200%Z, Saved r1, Some t1))
          /\ Router.answers now2 (Router.Ingest (Spec.parsed b2)) (Some t1)
               (Returns (200%Z, Saved r2, Some t2))
          /\ Router.answers now3 (Router.Ingest (Spec.parsed b3)) (Some t2)
               (Returns (200%Z, Saved r3, Some t3))
          /\ Router.answers now (Router.History (Some "2")) (Some t3)
               (Returns (200%Z, Listed 2 [r3; r2], Some t3))).
Proof.
  intros Hn. split; [|split].
  - intros db. pose proof (history_answers now (Some (digits n)) db) as Hans.
    destruct (Pg.select_recent _ db) as [e|listed] eqn:Hsel.
    + eexists _, _. split; [exact Hans|]. cbn. split; [lia|constructor].
    + eexists _, _. split; [exact Hans|]. cbn [Spec.events].
      apply select_recent_listed in Hsel as (t & k & -> & Hk & Hp & ->).
      destruct (limit_text_passed (digits n) (digits_not_empty n)) as [Hv _].
      rewrite Hv in Hp. split.
      * destruct (Z.ltb_spec n (2 ^ 63)).
        -- rewrite bigint_digits in Hp by lia. injection Hp as <-.
           rewrite length_take. lia.
        -- rewrite bigint_too_large in Hp by lia. discriminate Hp.
      * apply take_newest_first, order_by_sorted.
  - intros t Hc Hlt. eexists. split; [|split; [|split]].
    + pose proof (history_answers now (Some (digits n)) (Some t)) as Hans.
      destruct (limit_text_passed (digits n) (digits_not_empty n)) as [Hv _].
      rewrite Hv, select_recent_digits in Hans by (done || lia). exact Hans.
    + rewrite length_take. f_equal. apply Permutation_length, order_by_perm.
    + apply take_newest_first, order_by_sorted.
    + apply take_most_recent.
  - intros t b1 b2 b3 now1 now2 now3 Hrows Hc Hser H1 H2 H3 Hnow.
    assert (Hb : Spec.ids_below t) by (unfold Spec.ids_below; rewrite Hrows; constructor).
    destruct (ingest_accepted now1 t b1 H1) as [a1 Hi1]. cbv zeta in Hi1.
    set (r1 := Spec.stored_row now1 t _ _ _ a1) in *.
    set (t1 := Spec.with_row t r1) in *.
    assert (Hb1 : Spec.ids_below t1) by (by apply ids_below_with_row).
    assert (Hs1 : (Pg.serial t1 + 1 < 2 ^ 31)%Z) by (cbn [t1 Spec.with_row Pg.serial]; lia).
    assert (H21 : Spec.accepted t1 b2) by (apply accepted_with_row; [done..|lia]).
    assert (H31 : Spec.accepted t1 b3) by (apply accepted_with_row; [done..|lia]).
    destruct (ingest_accepted now2 t1 b2 H21) as [a2 Hi2]. cbv zeta in Hi2.
    set (r2 := Spec.stored_row now2 t1 _ _ _ a2) in *.
    set (t2 := Spec.with_row t1 r2) in *.
    assert (H32 : Spec.accepted t2 b3) by (by apply accepted_with_row).
    destruct (ingest_accepted now3 t2 b3 H32) as [a3 Hi3].
    cbv zeta in Hi3.
    set (r3 := Spec.stored_row now3 t2 _ _ _ a3) in *.
    set (t3 := Spec.with_row t2 r3) in *.
    exists r1, r2, r3, t1, t2, t3. repeat (split; [assumption|]).
    pose proof (history_answers now (Some "2") (Some t3)) as Hans.
    change (Server.limit_or_50 (Some "2")) with (Pg.PText (digits 2)) in Hans.
    rewrite select_recent_digits in Hans by (done || lia).
    assert (Hrows3 : Pg.rows t3 = [r1; r2; r3])
      by (unfold t3, t2, t1, Spec.with_row; cbn [Pg.rows]; by rewrite Hrows).
    rewrite Hrows3 in Hans. unfold Pg.order_by_created_at_desc in Hans.
    cbn [foldr Pg.insert_recent] in Hans.
    change (Pg.created_at r1) with now1 in Hans.
    change (Pg.created_at r2) with now2 in Hans.
    change (Pg.created_at r3) with now3 in Hans.
    replace (now3 <=? now2)%Z with false in Hans by (symmetry; apply Z.leb_gt; lia).
    cbn [Pg.insert_recent] in Hans.
    change (Pg.created_at r1) with now1 in Hans.
    change (Pg.created_at r2) with now2 in Hans.
    change (Pg.created_at r3) with now3 in Hans.
    replace (now3 <=? now1)%Z with false in Hans by (symmetry; apply Z.leb_gt; lia).
    replace (now2 <=? now1)%Z with false in Hans by (symmetry; apply Z.leb_gt; lia).
    exact Hans.
Qed.

End History.

(* ===================================================================== *)
(** ** Statistics                                                         *)
(* ===================================================================== *)

Section Statistics.

Import JS Http Aggregator.

Implicit Types (rs : list Pg.Row) (r : Pg.Row).

Lemma count_fold rs (acc : Z) :
  fold_left Pg.count_step rs acc = (acc + Z.of_nat (length rs))%Z.
Proof.
  revert acc. induction rs as [|r rs IH]; intros acc; cbn [fold_left length].
  - lia.
  - rewrite IH. unfold Pg.count_step. lia.
Qed.

Lemma sum_fold rs (s : Z) :
  fold_left Pg.sum_step rs (Some s) = Some (s + Spec.sum_objects rs)%Z.
Proof.
  revert s. induction rs as [|r rs IH]; intros s; cbn [fold_left Spec.sum_objects foldr].
  - f_equal. lia.
  - cbn [Pg.sum_step]. rewrite IH. fold (Spec.sum_objects rs). f_equal. lia.
Qed.

Lemma max_fold rs (m : Z) :
  exists m', fold_left Pg.max_step rs (Some m) = Some m'
             /\ (m <= m')%Z
             /\ (m' = m \/ exists r, r ∈ rs /\ Pg.total_objects r = m')
             /\ forall r, r ∈ rs -> (Pg.total_objects r <= m')%Z.
Proof.
  revert m. induction rs as [|r rs IH]; intros m; cbn [fold_left].
  - exists m. repeat split; [lia|by left|]. intros r Hr. inversion Hr.
  - cbn [Pg.max_step]. destruct (Z.ltb_spec m (Pg.total_objects r)) as [Hlt|Hge].
    + destruct (IH (Pg.total_objects r)) as (m' & -> & Hle & Hin & Hall).
      exists m'. repeat split; [lia| |].
      * right. destruct Hin as [->|(r' & Hr' & <-)].
        -- exists r. split; [by left|reflexivity].
        -- exists r'. split; [by right|reflexivity].
      * intros r' [->|Hr']%elem_of_cons; [exact Hle|by apply Hall].
    + destruct (IH m) as (m' & -> & Hle & Hin & Hall).
      exists m'. repeat split; [exact Hle| |].
      * destruct Hin as [->|(r' & Hr' & <-)]; [by left|].
        right. exists r'. split; [by right|reflexivity].
      * intros r' [->|Hr']%elem_of_cons; [lia|by apply Hall].
Qed.

Lemma avg_fold_counts rs (n s k : Z) :
  exists s' k', fold_left Pg.avg_step rs (n, s, k) = (n + Z.of_nat (length rs), s', k')%Z
                /\ (k <= k')%Z.
Proof.
  revert n s k. induction rs as [|r rs IH]; intros n s k; cbn [fold_left length].
  - exists s, k. split; [f_equal; f_equal; lia|lia].
  - unfold Pg.avg_step at 2. destruct (Pg.avg_confidence r) as [|h].
    + destruct (IH (n + 1) s (k + 1))%Z as (s' & k' & -> & Hk).
      exists s', k'. split; [f_equal; f_equal; lia|lia].
    + destruct (IH (n + 1) (s + h) k)%Z as (s' & k' & -> & Hk).
      exists s', k'. split; [f_equal; f_equal; lia|lia].
Qed.

(** With a NaN among the inputs the NaN counter ends above where it
    started. *)
Lemma avg_fold_nan rs (n s k : Z) :
  mapM Spec.confidence rs = None ->
  exists n' s' k', fold_left Pg.avg_step rs (n, s, k) = (n', s', k') /\ (k < k')%Z.
Proof.
  rewrite mapM_None. intros Hex. revert n s k.
  induction Hex as [r rs Hr|r rs _ IH]; intros n s k; cbn [fold_left].
  - unfold Spec.confidence in Hr. unfold Pg.avg_step at 2.
    destruct (Pg.avg_confidence r) as [|h]; [|discriminate Hr].
    destruct (avg_fold_counts rs (n + 1) s (k + 1))%Z as (s' & k' & -> & Hk).
    eexists _, _, _. split; [reflexivity|lia].
  - unfold Pg.avg_step at 2. destruct (Pg.avg_confidence r) as [|h].
    + destruct (IH (n + 1) s (k + 1))%Z as (n' & s' & k' & -> & Hk).
      eexists _, _, _. split; [reflexivity|lia].
    + apply IH.
Qed.

(** With finite inputs only, the sum runs over all of them. *)
Lemma avg_fold_finite rs (qs : list Q) (n s k : Z) :
  mapM Spec.confidence rs = Some qs ->
  exists s', fold_left Pg.avg_step rs (n, s, k) = (n + Z.of_nat (length rs), s', k)%Z
             /\ (inject_Z s' / 100 == inject_Z s / 100 + foldr Qplus 0 qs)%Q
             /\ length qs = length rs.
Proof.
  rewrite mapM_Some. intros Hall. revert n s k.
  induction Hall as [|r q rs qs Hq _ IH]; intros n s k.
  - exists s. cbn. repeat split; [f_equal; f_equal; lia|ring].
  - cbn [fold_left]. unfold Pg.avg_step at 2. unfold Spec.confidence in Hq.
    destruct (Pg.avg_confidence r) as [|h]; [discriminate Hq|].
    injection Hq as <-.
    destruct (IH (n + 1) (s + h) k)%Z as (s' & -> & Hs & Hlen).
    exists s'. repeat split.
    + f_equal. f_equal. cbn [length]. lia.
    + rewrite Hs. cbn [foldr]. rewrite inject_Z_plus. field.
    + cbn [length]. by rewrite Hlen.
Qed.

(** The division of numerics rounds half away from zero. *)
Lemma round_div_rounds (a b : Z) (q : Q) :
  (0 < b)%Z -> (q == inject_Z a / inject_Z b)%Q ->
  Spec.nearest_integer q (Pg.round_div a b).
Proof.
  intros Hb Hq. unfold Spec.nearest_integer, Pg.round_div.
  set (m := ((2 * Z.abs a + b) / (2 * b))%Z).
  pose proof (Z.div_mod (2 * Z.abs a + b) (2 * b) ltac:(lia)) as Hdm.
  pose proof (Z.mod_pos_bound (2 * Z.abs a + b) (2 * b) ltac:(lia)) as Hmod.
  fold m in Hdm.
  assert (Hm : (0 <= m)%Z) by (apply Z.div_pos; lia).
  assert (Hm0 : a = 0%Z -> m = 0%Z).
  { intros ->. unfold m. apply Z.div_small. lia. }
  assert (Habs : Z.abs (Z.sgn a * m) = m).
  { destruct (Z.sgn_spec a) as [[? ->]|[[? ->]|[? ->]]]; [lia|rewrite Hm0; lia|lia]. }
  assert (Hq' : (Qabs q == inject_Z (Z.abs a) / inject_Z b)%Q).
  { rewrite Hq. destruct b as [|p|p]; try lia. rewrite <- !Qmake_Qdiv. reflexivity. }
  rewrite Habs, Hq'.
  destruct (half_interval (Z.abs a) b m Hb) as [Hlo Hhi]; [nia|nia|].
  split; [exact Hlo|]. split; [exact Hhi|].
  destruct b as [|p|p]; try lia. rewrite <- Qmake_Qdiv in Hq.
  split; intros Hs; rewrite Hq in Hs; unfold Qle in Hs; cbn in Hs; nia.
Qed.

Lemma div_scale_bounds (sum n : Z) : (2 <= Pg.div_scale sum n <= 1000)%Z.
Proof.
  unfold Pg.div_scale. destruct (Pg.sum_first_digit sum) as [w1 d1].
  destruct (Pg.first_digit _ n) as [w2 d2]. lia.
Qed.

Lemma avg_fold_bound rs (n s k : Z) :
  Forall Spec.confidence_in_range rs ->
  (Z.abs (snd (fst (fold_left Pg.avg_step rs (n, s, k))) - s)
   <= 99999 * Z.of_nat (length rs))%Z.
Proof.
  intros Hr. revert n s k.
  induction Hr as [|r rs Hr _ IH]; intros n s k; cbn [fold_left length]; [cbn; lia|].
  unfold Pg.avg_step at 2. unfold Spec.confidence_in_range in Hr.
  destruct (Pg.avg_confidence r) as [|h].
  - specialize (IH (n + 1) s (k + 1))%Z. lia.
  - specialize (IH (n + 1) (s + h) k)%Z. lia.
Qed.

Lemma stats_answers (now : Z) (db : Pg.Db) :
  Router.answers now Router.Stats db
    match Pg.select_stats db with
    | inr stats => Returns (200%Z, StatsOf stats, db)
    | inl e =>
        Returns (500%Z, Failure "Error obteniendo estadísticas" (Some (QueryError e)), db)
    end.
Proof.
  split; [rewrite hostings_agree by reflexivity|];
    unfold Router.via_server, Server.get_api_stats;
    destruct (Pg.select_stats db); reflexivity.
Qed.

(** What the statistics statement computes on a relation that has the two
    aggregated columns. *)
Lemma select_stats_spec (t : Pg.Table) :
  Pg.missing_column t Pg.stats_columns = None ->
  exists s,
    Pg.select_stats (Some t) = inr s
    /\ Pg.total_detections s = Z.of_nat (length (Pg.rows t))
    /\ (Pg.rows t = [] ->
        Pg.total_objects_detected s = None
        /\ Pg.overall_avg_confidence s = None
        /\ Pg.max_objects_in_detection s = None)
    /\ (Pg.rows t <> [] ->
        Pg.total_objects_detected s = Some (Spec.sum_objects (Pg.rows t))
        /\ (exists m, Pg.max_objects_in_detection s = Some m
                      /\ Spec.is_max_objects m (Pg.rows t))
        /\ match mapM Spec.confidence (Pg.rows t) with
           | Some qs =>
               exists d scale,
                 Pg.overall_avg_confidence s = Some (Pg.AvgOf d scale)
                 /\ (2 <= scale <= 1000)%Z
                 /\ (Forall Spec.confidence_in_range (Pg.rows t) -> (16 <= scale)%Z)
                 /\ Spec.rounded_at_scale scale (Spec.mean qs) d
           | None => Pg.overall_avg_confidence s = Some Pg.AvgNaN
           end).
Proof.
  intros Hc. unfold Pg.select_stats. rewrite Hc. eexists. split; [reflexivity|].
  cbn [Pg.total_detections Pg.total_objects_detected Pg.overall_avg_confidence
       Pg.max_objects_in_detection].
  split; [by rewrite count_fold|]. split.
  - intros ->. by cbn.
  - destruct (Pg.rows t) as [|r rs] eqn:Hrows; [done|]. intros _. split; [|split].
    + cbn [fold_left Pg.sum_step]. rewrite sum_fold. cbn [Spec.sum_objects foldr].
      reflexivity.
    + cbn [fold_left Pg.max_step].
      destruct (max_fold rs (Pg.total_objects r)) as (m & -> & Hle & Hin & Hall).
      exists m. split; [reflexivity|]. split.
      * destruct Hin as [->|(r' & Hr' & <-)].
        -- exists r. split; [by left|reflexivity].
        -- exists r'. split; [by right|reflexivity].
      * intros r' [->|Hr']%elem_of_cons; [exact Hle|by apply Hall].
    + destruct (mapM Spec.confidence (r :: rs)) as [qs|] eqn:Hm.
      * pose proof (avg_fold_bound (r :: rs) 0 0 0) as Hbound.
        destruct (avg_fold_finite (r :: rs) qs 0 0 0 Hm) as (s' & E & Hs & Hlen).
        rewrite E in Hbound |- *. cbn [fst snd length] in Hbound.
        unfold Pg.avg_final. cbn [length].
        destruct (Z.eqb_spec (0 + Z.of_nat (S (length rs))) 0); [lia|].
        cbn [Z.ltb Z.compare]. eexists _, _. split; [reflexivity|].
        split; [apply div_scale_bounds|].
        replace (0 + Z.of_nat (S (length rs)))%Z with (Z.of_nat (S (length rs))) by lia.
        set (k := Z.of_nat (S (length rs))) in *.
        assert (Hk : (0 < k)%Z) by (unfold k; lia).
        split; [intros Hr; apply div_scale_sixteen; [exact Hk|];
                specialize (Hbound Hr); lia|].
        apply round_div_rounds; [lia|].
        unfold Spec.mean. rewrite Hlen. cbn [length]. fold k.
        assert (Hsum : (foldr Qplus 0 qs == inject_Z s' / 100)%Q).
        { rewrite Hs. change (inject_Z 0) with 0%Q. field. }
        rewrite Hsum, !inject_Z_mult. change (inject_Z 100) with 100%Q.
        field. intros H0. unfold Qeq, inject_Z in H0. cbn [Qnum Qden] in H0. lia.
      * destruct (avg_fold_counts (r :: rs) 0 0 0) as (s2 & k2 & E & _).
        destruct (avg_fold_nan (r :: rs) 0 0 0 Hm) as (n3 & s3 & k3 & E3 & Hk3).
        rewrite E in E3. injection E3 as <- <- <-.
        rewrite E. unfold Pg.avg_final. cbn [length].
        destruct (Z.eqb_spec (0 + Z.of_nat (S (length rs))) 0); [lia|].
        destruct (Z.ltb_spec 0 k2); [reflexivity|lia].
Qed.

(** C7, as amended: on every relation that has the aggregated columns
    both hostings answer the statistics operation with total_detections =
    number of rows, total_objects_detected = sum of total_objects,
    overall_avg_confidence = mean of avg_confidence rounded, half away
    from zero, to the fraction digits the division of numerics gives its
    result, between 2 and 1000 of them and 16 at least where every
    confidence is a value of DECIMAL(5,2) (NaN when a row holds NaN), and
    max_objects_in_detection = maximum of total_objects; on a
    relation without rows the count is 0 and the three others are null,
    without error; after batches of 3 and of 5 objects were stored in an
    empty relation, the sum is 8, the maximum 5 and the count 2. *)
Theorem stats_aggregate_all_rows (now : Z) (t : Pg.Table) :
  Pg.missing_column t Pg.stats_columns = None ->
  (exists s,
      Router.answers now Router.Stats (Some t) (Returns (200%Z, StatsOf s, Some t))
      /\ Pg.total_detections s = Z.of_nat (length (Pg.rows t))
      /\ (Pg.rows t = [] ->
          Pg.total_detections s = 0%Z
          /\ Pg.total_objects_detected s = None
          /\ Pg.overall_avg_confidence s = None
          /\ Pg.max_objects_in_detection s = None)
      /\ (Pg.rows t <> [] ->
          Pg.total_objects_detected s = Some (Spec.sum_objects (Pg.rows t))
          /\ (exists m, Pg.max_objects_in_detection s = Some m
                        /\ Spec.is_max_objects m (Pg.rows t))
          /\ match mapM Spec.confidence (Pg.rows t) with
             | Some qs =>
                 exists d scale,
                   Pg.overall_avg_confidence s = Some (Pg.AvgOf d scale)
                   /\ (2 <= scale <= 1000)%Z
                   /\ (Forall Spec.confidence_in_range (Pg.rows t) -> (16 <= scale)%Z)
                   /\ Spec.rounded_at_scale scale (Spec.mean qs) d
             | None => Pg.overall_avg_confidence s = Some Pg.AvgNaN
             end))
  /\ (forall b3 b5 now1 now2,
        Pg.rows t = [] -> (Pg.serial t + 1 < 2 ^ 31)%Z ->
        Spec.accepted t b3 -> Spec.accepted t b5 ->
        length (Spec.objs b3) = 3%nat -> length (Spec.objs b5) = 5%nat ->
        exists r1 r2 t1 t2 s,
          Router.answers now1 (Router.Ingest (Spec.parsed b3)) (Some t)
            (Returns (200%Z, Saved r1, Some t1))
          /\ Router.answers now2 (Router.Ingest (Spec.parsed b5)) (Some t1)
               (Returns (200%Z, Saved r2, Some t2))
          /\ Router.answers now Router.Stats (Some t2)
               (Returns (200%Z, StatsOf s, Some t2))
          /\ Pg.total_detections s = 2%Z
          /\ Pg.total_objects_detected s = Some 8%Z
          /\ Pg.max_objects_in_detection s = Some 5%Z).
Proof.
  intros Hc. split.
  - destruct (select_stats_spec t Hc) as (s & Hsel & Hcount & Hempty & Hrows).
    exists s. pose proof (stats_answers now (Some t)) as Hans. rewrite Hsel in Hans.
    split; [exact Hans|]. split; [exact Hcount|]. split; [|exact Hrows].
    intros H0. split; [by rewrite Hcount, H0|by apply Hempty].
  - intros b3 b5 now1 now2 Hrows Hser H3 H5 Hl3 Hl5.
    assert (Hb : Spec.ids_below t) by (unfold Spec.ids_below; rewrite Hrows; constructor).
    destruct (ingest_accepted now1 t b3 H3) as [a1 Hi1]. cbv zeta in Hi1.
    set (r1 := Spec.stored_row now1 t _ _ _ a1) in *.
    set (t1 := Spec.with_row t r1) in *.
    assert (H51 : Spec.accepted t1 b5) by (by apply accepted_with_row).
    destruct (ingest_accepted now2 t1 b5 H51) as [a2 Hi2].
    cbv zeta in Hi2.
    set (r2 := Spec.stored_row now2 t1 _ _ _ a2) in *.
    set (t2 := Spec.with_row t1 r2) in *.
    pose proof (stats_answers now (Some t2)) as Hans.
    unfold Pg.select_stats in Hans.
    change (Pg.missing_column t2 Pg.stats_columns)
      with (Pg.missing_column t Pg.stats_columns) in Hans.
    rewrite Hc in Hans.
    assert (Hrows2 : Pg.rows t2 = [r1; r2])
      by (unfold t2, t1, Spec.with_row; cbn [Pg.rows]; by rewrite Hrows).
    rewrite Hrows2 in Hans.
    eexists r1, r2, t1, t2, _. split; [exact Hi1|]. split; [exact Hi2|].
    split; [exact Hans|].
    cbn [Pg.total_detections Pg.total_objects_detected Pg.max_objects_in_detection
         fold_left Pg.count_step Pg.sum_step Pg.max_step].
    change (Pg.total_objects r1) with (Z.of_nat (length (Spec.objs b3))).
    change (Pg.total_objects r2) with (Z.of_nat (length (Spec.objs b5))).
    rewrite Hl3, Hl5. repeat split.
Qed.

End Statistics.

(* ===================================================================== *)
(** ** The claims on sample requests                                      *)
(* ===================================================================== *)

Section Instances.

Import JS Http Aggregator.

Lemma sample_carried :
  Spec.carries Sample.body "video" Sample.items Sample.batch.
Proof. repeat split. Defined.

Lemma sample_storable : Spec.storable Sample.table "video" Sample.batch.
Proof.
  constructor.
  - reflexivity.
  - cbn. lia.
  - constructor.
  - vm_compute. lia.
  - reflexivity.
  - exists (Pg.Dec 8000). vm_compute. reflexivity.
  - vm_compute. lia.
Defined.

Lemma sample_not_empty : Sample.batch <> [].
Proof. discriminate. Defined.

(** The sample batch, scores 0.5, 0.9 and 1.0, is stored with confidence
    80.00. *)
Lemma avg_confidence_is_rounded_mean_witness :
  Spec.carries Sample.body "video" Sample.items Sample.batch
  /\ Sample.batch <> []
  /\ Spec.storable Sample.table "video" Sample.batch
  /\ exists row,
       Router.answers 10 (Router.Ingest Sample.body) (Some Sample.table)
         (Returns (200%Z, Saved row, Some (Spec.with_row Sample.table row)))
       /\ Pg.avg_confidence row = Pg.Dec 8000.
Proof.
  split; [exact sample_carried|]. split; [exact sample_not_empty|].
  split; [exact sample_storable|].
  destruct (avg_confidence_is_rounded_mean 10 Sample.body Sample.table "video"
              Sample.items Sample.batch sample_carried sample_not_empty sample_storable)
    as [(row & Hans & Hr & _) _].
  exists row. split; [exact Hans|].
  vm_compute in Hr. injection Hr as Hr. symmetry. exact Hr.
Defined.

(** C1, the claim as stated fails: the one score 0.99565 is stored with
    the confidence 99.56, the hundredth nearest to what binary64
    arithmetic makes of the product by 100, where the mean of the scores
    times 100 is nearest to 99.57. *)
Lemma exact_mean_rounds_to_another_hundredth :
  let row := Spec.stored_row 10 Sample.table "camera" Sample.near_tie_items
               Sample.near_tie (Pg.Dec 9956) in
  Router.answers 10 (Router.Ingest Sample.near_tie_body) (Some Sample.table)
    (Returns (200%Z, Saved row, Some (Spec.with_row Sample.table row)))
  /\ Pg.avg_confidence row = Pg.Dec 9956
  /\ exists q,
       Spec.exact_mean_percent (map score Sample.near_tie) = Some q
       /\ Spec.rounded_to_hundredths q 9957
       /\ ~ Spec.rounded_to_hundredths q 9956.
Proof.
  cbv zeta. split; [split; vm_compute; reflexivity|]. split; [reflexivity|].
  eexists. split; [vm_compute; reflexivity|]. split.
  - unfold Spec.rounded_to_hundredths.
    split; [vm_compute; discriminate|]. split; [vm_compute; reflexivity|].
    split; [intros _; lia|].
    intros Hneg. vm_compute in Hneg. exfalso. apply Hneg. reflexivity.
  - intros (_ & Hhi & _). vm_compute in Hhi. discriminate Hhi.
Qed.

Lemma sample_plain_labels :
  Forall (fun c => object_prototype c = None) (map class Sample.batch).
Proof. repeat constructor. Defined.

(** The sample batch, classes person, car, person, is stored with the
    summary "person (2), car (1)". *)
Lemma detected_objects_in_enumeration_order_witness :
  Spec.carries Sample.body "video" Sample.items Sample.batch
  /\ Sample.batch <> []
  /\ Spec.storable Sample.table "video" Sample.batch
  /\ Forall (fun c => object_prototype c = None) (map class Sample.batch)
  /\ exists row db',
       Router.answers 10 (Router.Ingest Sample.body) (Some Sample.table)
         (Returns (200%Z, Saved row, db'))
       /\ Pg.detected_objects row = "person (2), car (1)".
Proof.
  split; [exact sample_carried|]. split; [exact sample_not_empty|].
  split; [exact sample_storable|]. split; [exact sample_plain_labels|].
  destruct (detected_objects_in_enumeration_order 10 Sample.body Sample.table "video"
              Sample.items Sample.batch sample_carried sample_not_empty sample_storable
              sample_plain_labels)
    as [(row & db' & indexed & Hans & Htext & _) _].
  exists row, db'. split; [exact Hans|]. rewrite Htext. vm_compute. reflexivity.
Defined.

(** The sample batch is stored with 3 objects of 2 classes. *)
Lemma total_and_unique_objects_witness :
  Spec.carries Sample.body "video" Sample.items Sample.batch
  /\ Sample.batch <> []
  /\ Spec.storable Sample.table "video" Sample.batch
  /\ exists row,
       Router.answers 10 (Router.Ingest Sample.body) (Some Sample.table)
         (Returns (200%Z, Saved row, Some (Spec.with_row Sample.table row)))
       /\ Pg.total_objects row = 3%Z
       /\ Pg.unique_objects row = 2%Z.
Proof.
  split; [exact sample_carried|]. split; [exact sample_not_empty|].
  split; [exact sample_storable|].
  destruct (total_and_unique_objects 10 Sample.body Sample.table "video"
              Sample.items Sample.batch sample_carried sample_not_empty sample_storable)
    as (row & Hans & Htotal & Hunique & _).
  exists row. split; [exact Hans|]. split; [exact Htotal|exact Hunique].
Defined.

(** A body without objects, and one with an empty array, on a relation
    that holds a row. *)
Lemma missing_or_empty_objects_rejected_witness :
  (get_field Sample.no_objects_body "objects" = None
   /\ Router.answers 20 (Router.Ingest Sample.no_objects_body) (Some Sample.stored)
        (Returns (400%Z, Failure "No hay objetos para guardar" None, Some Sample.stored)))
  /\ (get_field Sample.empty_objects_body "objects" = Some (JArr [])
      /\ Router.answers 20 (Router.Ingest Sample.empty_objects_body) (Some Sample.stored)
           (Returns (400%Z, Failure "No hay objetos para guardar" None,
                     Some Sample.stored)))
  /\ (get_field (JStr "objects") "objects" = None
      /\ Router.via_server 20 (Router.Ingest (JStr "objects")) (Some Sample.stored)
         = Returns (400%Z, ErrorPage, Some Sample.stored)
      /\ Router.via_function 20 (Router.Ingest (JStr "objects")) (Some Sample.stored)
         = Returns (400%Z, Failure "No hay objetos para guardar" None,
                    Some Sample.stored)).
Proof.
  split; [|split].
  - split; [reflexivity|].
    apply (missing_or_empty_objects_rejected 20 Sample.no_objects_body
             (Some Sample.stored)); [left; reflexivity|reflexivity].
  - split; [reflexivity|].
    apply (missing_or_empty_objects_rejected 20 Sample.empty_objects_body
             (Some Sample.stored)); [right; reflexivity|reflexivity].
  - split; [reflexivity|].
    destruct (missing_or_empty_objects_rejected 20 (JStr "objects")
                (Some Sample.stored) (or_introl eq_refl)) as (_ & Hs & Hf & _).
    split; [exact (Hs eq_refl)|]. apply Hf. discriminate.
Defined.

(** C4, the claim as stated fails: a body that is null has no objects
    field, and the function adapter answers it 500 with the storage
    error, as it answers a request without a body; the Express server
    answers null 400 from its body parser.  None of them stores a row. *)
Lemma null_body_answered_500 :
  get_field JNull "objects" = None
  /\ Router.via_function 20 (Router.Ingest JNull) (Some Sample.stored)
     = Returns (500%Z, Failure "Error guardando en base de datos" (Some TypeError),
                Some Sample.stored)
  /\ Router.via_server 20 (Router.Ingest JNull) (Some Sample.stored)
     = Returns (400%Z, ErrorPage, Some Sample.stored)
  /\ Api.handler 20 Sample.no_body_event (Some Sample.stored)
     = Returns ({| statusCode := 500; headers := Api.headers;
                   body := Failure "Error guardando en base de datos"
                             (Some SyntaxError) |},
                Some Sample.stored).
Proof. repeat split. Qed.

(** [objects] is an object without a length. *)
Lemma non_array_objects_answered_500_witness :
  get_field Sample.object_body "objects" = Some (JObj [("class", JStr "person")])
  /\ truthy (JObj [("class", JStr "person")]) = true
  /\ is_array (JObj [("class", JStr "person")]) = false
  /\ length_is_zero (JObj [("class", JStr "person")]) = false
  /\ Router.answers 20 (Router.Ingest Sample.object_body) (Some Sample.stored)
       (Returns (500%Z, Failure "Error guardando en base de datos" (Some TypeError),
                 Some Sample.stored)).
Proof.
  repeat (split; [reflexivity|]).
  apply (non_array_objects_answered_500 20 Sample.object_body
           (JObj [("class", JStr "person")]) (Some Sample.stored));
    reflexivity.
Defined.

(** C2, the claim as stated fails: the batch with the classes person, 7 is
    stored with the summary "7 (1), person (1)", where first-appearance
    order is "person (1), 7 (1)". *)
Lemma array_index_label_listed_first :
  Router.answers 10 (Router.Ingest Sample.numbered_body) (Some Sample.table)
    (Returns (200%Z,
              Saved (Spec.stored_row 10 Sample.table "camera" Sample.numbered_items
                       Sample.numbered (Pg.Dec 5000)),
              Some (Spec.with_row Sample.table
                      (Spec.stored_row 10 Sample.table "camera" Sample.numbered_items
                         Sample.numbered (Pg.Dec 5000)))))
  /\ Pg.detected_objects
       (Spec.stored_row 10 Sample.table "camera" Sample.numbered_items
          Sample.numbered (Pg.Dec 5000))
     = "7 (1), person (1)"
  /\ Spec.summary (map class Sample.numbered) = "person (1), 7 (1)".
Proof. split; [split|split]; vm_compute; reflexivity. Qed.

(** C10, the claim as stated fails: an objects field that is the object
    with the own property length 0 is truthy and is not an array, and the
    request is answered 400. *)
Lemma zero_length_object_answered_400 :
  get_field Sample.zero_length_body "objects" = Some (JObj [("length", JNum 0)])
  /\ truthy (JObj [("length", JNum 0)]) = true
  /\ is_array (JObj [("length", JNum 0)]) = false
  /\ Router.answers 20 (Router.Ingest Sample.zero_length_body) (Some Sample.stored)
       (Returns (400%Z, Failure "No hay objetos para guardar" None,
                 Some Sample.stored)).
Proof. repeat split; vm_compute; reflexivity. Qed.

(** C6, the claim as stated fails: the limits 0 and 1000000000000 are
    passed to the statement as they are, and both requests succeed, the
    first with no event although the relation holds one. *)
Lemma limit_zero_is_passed_through :
  Api.limit_or_50 [("limit", "0")] = Pg.PText "0"
  /\ Server.limit_or_50 (Some "0") = Pg.PText "0"
  /\ Router.answers 20 (Router.History (Some "0")) (Some Sample.stored)
       (Returns (200%Z, Listed 0 [], Some Sample.stored))
  /\ Api.limit_or_50 [("limit", "1000000000000")] = Pg.PText "1000000000000"
  /\ Router.answers 20 (Router.History (Some "1000000000000")) (Some Sample.stored)
       (Returns (200%Z, Listed 1 [Sample.row], Some Sample.stored)).
Proof.
  split; [reflexivity|]. split; [reflexivity|].
  split; [split; vm_compute; reflexivity|]. split; [reflexivity|].
  split; vm_compute; reflexivity.
Qed.

Lemma first_accepted : Spec.accepted Sample.table Sample.first.
Proof.
  split; [exact sample_carried|]. split; [exact sample_not_empty|].
  exact sample_storable.
Defined.

Lemma second_accepted : Spec.accepted Sample.table Sample.second.
Proof.
  split; [repeat split|]. split; [discriminate|]. constructor.
  - reflexivity.
  - cbn. lia.
  - constructor.
  - vm_compute. lia.
  - reflexivity.
  - exists (Pg.Dec 6000). vm_compute. reflexivity.
  - vm_compute. lia.
Defined.

Lemma third_accepted : Spec.accepted Sample.table Sample.third.
Proof.
  split; [repeat split|]. split; [discriminate|]. constructor.
  - reflexivity.
  - cbn. lia.
  - constructor.
  - vm_compute. lia.
  - reflexivity.
  - exists (Pg.Dec 5000). vm_compute. reflexivity.
  - vm_compute. lia.
Defined.

(** Without a limit the one stored row is listed; limit 1 lists it too,
    limit -1 is refused by the statement. *)
Lemma limit_defaults_to_50_else_is_passed_on_witness :
  Pg.missing_column Sample.stored Pg.select_columns = None
  /\ Router.answers 20 (Router.History None) (Some Sample.stored)
       (Returns (200%Z, Listed 1 [Sample.row], Some Sample.stored))
  /\ Router.answers 20 (Router.History (Some "1")) (Some Sample.stored)
       (Returns (200%Z, Listed 1 [Sample.row], Some Sample.stored))
  /\ Router.answers 20 (Router.History (Some "-1")) (Some Sample.stored)
       (Returns (500%Z,
                 Failure "Error obteniendo datos" (Some (QueryError Pg.NegativeLimit)),
                 Some Sample.stored)).
Proof.
  split; [reflexivity|].
  destruct (limit_defaults_to_50_else_is_passed_on 20 Sample.stored eq_refl)
    as ((_ & _ & _ & _ & Hdefault) & _ & Hdigits & Hneg & _).
  split; [exact Hdefault|]. split.
  - apply (Hdigits 1%Z). lia.
  - apply (Hneg 1%Z). lia.
Defined.

(** The empty relation has count 0 and null aggregates; after the sample
    batches of 3 and 5 objects the sum is 8 and the maximum 5. *)
Lemma stats_aggregate_all_rows_witness :
  Pg.missing_column Sample.table Pg.stats_columns = None
  /\ (exists s,
        Router.answers 30 Router.Stats (Some Sample.table)
          (Returns (200%Z, StatsOf s, Some Sample.table))
        /\ Pg.total_detections s = 0%Z
        /\ Pg.total_objects_detected s = None
        /\ Pg.overall_avg_confidence s = None
        /\ Pg.max_objects_in_detection s = None)
  /\ (exists r1 r2 t1 t2 s,
        Router.answers 10 (Router.Ingest Sample.body) (Some Sample.table)
          (Returns (200%Z, Saved r1, Some t1))
        /\ Router.answers 20 (Router.Ingest Sample.five_body) (Some t1)
             (Returns (200%Z, Saved r2, Some t2))
        /\ Router.answers 30 Router.Stats (Some t2)
             (Returns (200%Z, StatsOf s, Some t2))
        /\ Pg.total_detections s = 2%Z
        /\ Pg.total_objects_detected s = Some 8%Z
        /\ Pg.max_objects_in_detection s = Some 5%Z).
Proof.
  split; [reflexivity|].
  destruct (stats_aggregate_all_rows 30 Sample.table eq_refl)
    as ((s & Hans & _ & Hempty & _) & Hboth).
  split.
  - exists s. split; [exact Hans|]. exact (Hempty eq_refl).
  - exact (Hboth Sample.first Sample.second 10%Z 20%Z eq_refl eq_refl
             first_accepted second_accepted eq_refl eq_refl).
Defined.

(** C7, the claim as stated fails: over the confidences 80.00, 60.00 and
    50.00 of three stored batches the mean is 190/3, and the statistics
    carry 63.3333333333333333, which is not the mean. *)
Lemma mean_is_rounded_to_sixteen_digits :
  exists r1 r2 r3 t1 t2 t3 qs s,
    Router.answers 10 (Router.Ingest Sample.body) (Some Sample.table)
      (Returns (200%Z, Saved r1, Some t1))
    /\ Router.answers 20 (Router.Ingest Sample.five_body) (Some t1)
         (Returns (200%Z, Saved r2, Some t2))
    /\ Router.answers 30 (Router.Ingest Sample.numbered_body) (Some t2)
         (Returns (200%Z, Saved r3, Some t3))
    /\ map Pg.avg_confidence (Pg.rows t3) = [Pg.Dec 8000; Pg.Dec 6000; Pg.Dec 5000]
    /\ mapM Spec.confidence (Pg.rows t3) = Some qs
    /\ (Spec.mean qs == 190 # 3)%Q
    /\ Router.answers 40 Router.Stats (Some t3) (Returns (200%Z, StatsOf s, Some t3))
    /\ Pg.overall_avg_confidence s = Some (Pg.AvgOf 633333333333333333 16)
    /\ ~ (inject_Z 633333333333333333 / inject_Z (10 ^ 16) == Spec.mean qs)%Q.
Proof.
  eexists _, _, _, _, _, _, _, _.
  split; [split; vm_compute; reflexivity|].
  split; [split; vm_compute; reflexivity|].
  split; [split; vm_compute; reflexivity|].
  split; [vm_compute; reflexivity|]. split; [vm_compute; reflexivity|].
  split; [vm_compute; reflexivity|].
  split; [split; vm_compute; reflexivity|]. split; [vm_compute; reflexivity|].
  vm_compute. discriminate.
Qed.

(** Three sample batches stored at the instants 10, 20 and 30; limit 2
    lists the third and the second. *)
Lemma history_lists_most_recent_first_witness :
  (0 < 2)%Z
  /\ exists r1 r2 r3 t1 t2 t3,
       Router.answers 10 (Router.Ingest Sample.body) (Some Sample.table)
         (Returns (200%Z, Saved r1, Some t1))
       /\ Router.answers 20 (Router.Ingest Sample.five_body) (Some t1)
            (Returns (200%Z, Saved r2, Some t2))
       /\ Router.answers 30 (Router.Ingest Sample.numbered_body) (Some t2)
            (Returns (200%Z, Saved r3, Some t3))
       /\ Router.answers 40 (Router.History (Some "2")) (Some t3)
            (Returns (200%Z, Listed 2 [r3; r2], Some t3)).
Proof.
  split; [lia|].
  destruct (history_lists_most_recent_first 40 2 ltac:(lia)) as (_ & _ & Hthree).
  apply (Hthree Sample.table Sample.first Sample.second Sample.third 10%Z 20%Z 30%Z
           eq_refl eq_refl eq_refl first_accepted second_accepted third_accepted).
  lia.
Defined.

(** An OPTIONS request to some path, and a GET of a path that is no
    route. *)
Lemma unknown_route_404_options_200_witness :
  (Api.httpMethod Sample.options_event = "OPTIONS"
   /\ exists r,
        Api.handler 0 Sample.options_event (Some Sample.stored)
        = Returns (r, Some Sample.stored)
        /\ statusCode r = 200%Z /\ body r = Empty
        /\ (("Access-Control-Allow-Origin", "*") ∈ headers r))
  /\ Api.httpMethod Sample.unknown_event <> "OPTIONS"
  /\ ((Api.httpMethod Sample.unknown_event, Api.path Sample.unknown_event) ∉ Spec.routes)
  /\ exists r,
       Api.handler 0 Sample.unknown_event (Some Sample.stored)
       = Returns (r, Some Sample.stored)
       /\ statusCode r = 404%Z /\ body r = Failure "Ruta no encontrada" None
       /\ (("Access-Control-Allow-Origin", "*") ∈ headers r).
Proof.
  assert (Hm : Api.httpMethod Sample.unknown_event <> "OPTIONS") by discriminate.
  assert (Hr : (Api.httpMethod Sample.unknown_event, Api.path Sample.unknown_event)
               ∉ Spec.routes).
  { unfold Spec.routes. rewrite !elem_of_cons, elem_of_nil.
    intros H. repeat destruct H as [H|H]; try discriminate H; exact H. }
  split.
  - split; [reflexivity|]. eexists. split.
    + exact (proj1 (unknown_route_404_options_200 0 Sample.options_event
                      (Some Sample.stored)) eq_refl).
    + repeat split. by left.
  - split; [exact Hm|]. split; [exact Hr|]. eexists. split.
    + exact (proj2 (unknown_route_404_options_200 0 Sample.unknown_event
                      (Some Sample.stored)) Hm Hr).
    + repeat split. by left.
Defined.

End Instances.

(* ===================================================================== *)
(** ** Purge                                                              *)
(* ===================================================================== *)

Section Purge.

Import JS Http Aggregator.

(** Both hostings answer a purge alike. *)
Lemma purge_answers (now : Z) (db : Pg.Db) :
  Router.answers now Router.Purge db
    match db with
    | Some t => Returns (200%Z, Deleted, Some (Session.purged t))
    | None =>
        Returns (500%Z,
                 Failure "Error eliminando datos" (Some (QueryError Pg.UndefinedTable)),
                 None)
    end.
Proof. destruct db; split; reflexivity. Qed.

Lemma select_recent_no_rows (p : Pg.Param) (t : Pg.Table) (listed : list Pg.Row) :
  Pg.rows t = [] -> Pg.select_recent p (Some t) = inr listed -> listed = [].
Proof.
  intros Hr H. apply select_recent_listed in H as (t' & k & [= <-] & _ & _ & ->).
  rewrite Hr. cbn. by rewrite take_nil.
Qed.

(** X1: purge removes every event.  On an existing relation it is answered
    200 by both hostings and leaves the relation with its columns and no
    row; any history request that follows lists no event, the default one
    is answered 200 with count 0, and the statistics that follow are
    count 0 with null for sum, mean and maximum. *)
Theorem purge_empties_the_store (now later : Z) (t : Pg.Table) :
  let t' := Session.purged t in
  Router.answers now Router.Purge (Some t) (Returns (200%Z, Deleted, Some t'))
  /\ (forall limit, exists status b,
        Router.answers later (Router.History limit) (Some t')
          (Returns (status, b, Some t'))
        /\ Spec.events b = [])
  /\ (Pg.missing_column t Pg.select_columns = None ->
      Router.answers later (Router.History None) (Some t')
        (Returns (200%Z, Listed 0 [], Some t')))
  /\ (Pg.missing_column t Pg.stats_columns = None ->
      Router.answers later Router.Stats (Some t')
        (Returns (200%Z,
                  StatsOf {| Pg.total_detections := 0;
                             Pg.total_objects_detected := None;
                             Pg.overall_avg_confidence := None;
                             Pg.max_objects_in_detection := None |},
                  Some t'))).
Proof.
  intros t'. split; [exact (purge_answers now (Some t))|]. split; [|split].
  - intros limit. pose proof (history_answers later limit (Some t')) as H.
    destruct (Pg.select_recent (Server.limit_or_50 limit) (Some t')) as [e|rows] eqn:E.
    + eexists _, _. split; [exact H|reflexivity].
    + apply select_recent_no_rows in E as ->; [|reflexivity].
      eexists _, _. split; [exact H|reflexivity].
  - intros Hc. pose proof (history_answers later None (Some t')) as H.
    unfold Pg.select_recent in H. change (Pg.missing_column t' Pg.select_columns)
      with (Pg.missing_column t Pg.select_columns) in H. rewrite Hc in H. exact H.
  - intros Hc. pose proof (stats_answers later (Some t')) as H.
    unfold Pg.select_stats in H. change (Pg.missing_column t' Pg.stats_columns)
      with (Pg.missing_column t Pg.stats_columns) in H. rewrite Hc in H. exact H.
Qed.

(** A batch the relation takes is taken after a purge as well. *)
Lemma accepted_purged (t : Pg.Table) (b : Spec.Batch) :
  Spec.accepted t b -> Spec.accepted (Session.purged t) b.
Proof.
  intros (Hc & Hn & [H1 H2 H3 H4 H5 H6 H7]). split; [exact Hc|]. split; [exact Hn|].
  constructor; try assumption. constructor.
Qed.

(** X2: purge does not restart the id sequence.  The first batch stored
    after a purge gets the id the sequence had reached, which is larger
    than the id of every event that was removed, and is then the only
    event of the relation. *)
Theorem purge_keeps_the_id_sequence (now later : Z) (t : Pg.Table) (b : Spec.Batch) :
  Spec.accepted t b -> Spec.ids_below t ->
  exists row t2,
    Router.answers now Router.Purge (Some t)
      (Returns (200%Z, Deleted, Some (Session.purged t)))
    /\ Router.answers later (Router.Ingest (Spec.parsed b)) (Some (Session.purged t))
         (Returns (200%Z, Saved row, Some t2))
    /\ Pg.rows t2 = [row]
    /\ Pg.id row = Pg.serial t
    /\ Pg.serial t2 = (Pg.serial t + 1)%Z
    /\ Forall (fun r => (Pg.id r < Pg.id row)%Z) (Pg.rows t).
Proof.
  intros Ha Hb. apply accepted_purged in Ha.
  destruct (ingest_accepted later _ _ Ha) as [avg H]. cbv zeta in H.
  eexists _, _. split; [exact (purge_answers now (Some t))|].
  split; [exact H|]. repeat split. exact Hb.
Qed.

End Purge.

(* ===================================================================== *)
(** ** The ways an ingest returns                                         *)
(* ===================================================================== *)

Section Outcomes.

Import JS Http Aggregator.

(** What a successful INSERT has done. *)
Lemma insert_done now p1 p2 p3 p4 p5 p6 db row db' :
  Pg.insert now p1 p2 p3 p4 p5 p6 db = inr (row, db') ->
  exists t, db = Some t /\ db' = Some (Spec.with_row t row)
    /\ Pg.missing_column t Pg.insert_columns = None
    /\ Pg.id row = Pg.serial t /\ (- 2 ^ 31 <= Pg.serial t < 2 ^ 31)%Z
    /\ Pg.timestamp row = now /\ Pg.created_at row = now
    /\ Pg.varchar 50 p1 = inr (Pg.source row)
    /\ Pg.total_objects row = p2 /\ (- 2 ^ 31 <= p2 < 2 ^ 31)%Z
    /\ Pg.unique_objects row = p3
    /\ Pg.numeric_5_2 p4 = inr (Pg.avg_confidence row)
    /\ Pg.varchar 500 p5 = inr (Pg.detected_objects row).
Proof.
  unfold Pg.insert. destruct db as [t|]; [|discriminate].
  destruct (Pg.missing_column t Pg.insert_columns) eqn:Hc; [discriminate|].
  destruct (Pg.integer p2) as [?|total] eqn:E2; [discriminate|].
  destruct (Pg.integer p3) as [?|unique] eqn:E3; [discriminate|].
  destruct (Pg.varchar 50 p1) as [?|src] eqn:E1; [discriminate|].
  destruct (Pg.numeric_5_2 p4) as [?|avg] eqn:E4; [discriminate|].
  destruct (Pg.varchar 500 p5) as [?|text] eqn:E5; [discriminate|].
  destruct (Pg.integer (Pg.serial t)) as [?|key] eqn:E6; [discriminate|].
  destruct (existsb _ (Pg.rows t)); [discriminate|].
  unfold Pg.integer in E2, E3, E6.
  destruct (_ && _)%bool eqn:B2 in E2; [|discriminate]. injection E2 as <-.
  destruct (_ && _)%bool eqn:B3 in E3; [|discriminate]. injection E3 as <-.
  destruct (_ && _)%bool eqn:B6 in E6; [|discriminate]. injection E6 as <-.
  apply andb_prop in B2 as [?%Z.leb_le ?%Z.ltb_lt].
  apply andb_prop in B6 as [?%Z.leb_le ?%Z.ltb_lt].
  intros [= <- <-]. exists t. cbn. repeat split; try reflexivity; try assumption.
Qed.

(** A [Set] filled from a list has no more members than the list has
    elements, and one at least when the list is not empty. *)
Lemma set_fold_length (names set : list (option JValue)) :
  (length set <= length (fold_left set_add names set) <= length set + length names)%nat.
Proof.
  revert set. induction names as [|v names IH]; intros set; cbn [fold_left length]; [lia|].
  specialize (IH (set_add set v)).
  assert (length set <= length (set_add set v) <= S (length set))%nat; [|lia].
  unfold set_add. destruct (existsb (same_value_zero v) set); [lia|].
  rewrite length_app. cbn [length]. lia.
Qed.

Lemma uniqueObjects_bounds (items : list JValue) :
  items <> [] -> (1 <= Ingest.uniqueObjects items <= length items)%nat.
Proof.
  unfold Ingest.uniqueObjects. destruct items as [|v items]; [done|]. intros _.
  cbn [map fold_left length].
  pose proof (set_fold_length (map (fun obj => get_field obj "class") items)
                (set_add [] (get_field v "class"))) as H.
  change (set_add [] (get_field v "class")) with [get_field v "class"] in *.
  rewrite length_map in H. cbn [length] in H. lia.
Qed.

(** The two counts among the values of the INSERT. *)
Lemma values_counts source items p1 p2 p3 p4 p5 :
  Ingest.values source items = Some (p1, p2, p3, p4, p5) ->
  p2 = Z.of_nat (length items) /\ p3 = Z.of_nat (Ingest.uniqueObjects items).
Proof.
  unfold Ingest.values. destruct (Ingest.avgConfidence items); [|discriminate].
  destruct (Ingest.objectCounts _); [|discriminate]. by intros [= _ <- <- _ _].
Qed.

(** The ways the ingest handler of the function adapter returns: it
    always does. *)
Lemma handlePostDetections_outcome now body db :
  exists r db',
    Api.handlePostDetections now body db = Returns (r, db')
    /\ ((db' = db
         /\ (r = Api.respond 400 (Failure "No hay objetos para guardar" None)
             \/ exists e,
                  r = Api.respond 500
                        (Failure "Error guardando en base de datos" (Some e))))
        \/ exists row, Spec.ingested now body db row db'
                       /\ r = Api.respond 200 (Saved row)).
Proof.
  unfold Api.handlePostDetections. cbv zeta.
  destruct body as [parsed|]; [|eexists _, _; split; [reflexivity|]; left; eauto].
  destruct parsed as [| | | | |fields];
    try (eexists _, _; split; [reflexivity|]; left; split; [reflexivity|];
         (by left) || (right; eauto)).
  destruct (no_objects (get_field (JObj fields) "objects")) eqn:Hno;
    [eexists _, _; split; [reflexivity|]; left; split; [reflexivity|by left]|].
  destruct (get_field (JObj fields) "objects") as [[| | | |items|]|] eqn:Ho;
    try (eexists _, _; split; [reflexivity|]; left; split; [reflexivity|right; eauto]).
  destruct (existsb is_null items);
    [eexists _, _; split; [reflexivity|]; left; split; [reflexivity|right; eauto]|].
  destruct (Ingest.values _ items) as [[[[[p1 p2] p3] p4] p5]|] eqn:Hv;
    [|eexists _, _; split; [reflexivity|]; left; split; [reflexivity|right; eauto]].
  destruct (Pg.insert _ _ _ _ _ _ _ db) as [e|[row db'']] eqn:Hi;
    [eexists _, _; split; [reflexivity|]; left; split; [reflexivity|right; eauto]|].
  eexists _, _. split; [reflexivity|]. right. exists row. split; [|reflexivity].
  exists (JObj fields), items, p1, p2, p3, p4, p5.
  split; [reflexivity|]. split; [exact Ho|]. split; [|split; [exact Hv|exact Hi]].
  intros ->. discriminate Hno.
Qed.

Lemma handlePostDetections_returned now body db r db' :
  Api.handlePostDetections now body db = Returns (r, db') ->
  (db' = db
   /\ (r = Api.respond 400 (Failure "No hay objetos para guardar" None)
       \/ exists e,
            r = Api.respond 500 (Failure "Error guardando en base de datos" (Some e))))
  \/ exists row, Spec.ingested now body db row db' /\ r = Api.respond 200 (Saved row).
Proof.
  intros H. destruct (handlePostDetections_outcome now body db) as (r0 & db0 & E & Hout).
  rewrite E in H. by injection H as <- <-.
Qed.

(** No INSERT succeeds on the relation [server.js] creates. *)
Lemma nothing_ingested now body row db' :
  ~ Spec.ingested now body (Server.initDatabase None) row db'.
Proof.
  intros (parsed & items & p1 & p2 & p3 & p4 & p5 & _ & _ & _ & _ & Hi).
  rewrite server_insert_fails in Hi. discriminate Hi.
Qed.

End Outcomes.

(* ===================================================================== *)
(** ** Creation of the relation                                           *)
(* ===================================================================== *)

Section Initialisation.

Import JS Http Aggregator.

(** X3: [initDatabase] creates the relation only where there is none, so
    the hosting that ran first decides the columns.  After the server's
    [initDatabase] the function adapter's adds no detected_objects column:
    the function adapter then answers no ingest request 200 and stores
    nothing, and both hostings answer every history request 500.  After
    the function adapter's [initDatabase] the server's changes nothing,
    and the server stores every batch the relation accepts. *)
Theorem initDatabase_creates_once (db : Pg.Db) :
  Server.initDatabase (Api.initDatabase db) = Api.initDatabase db
  /\ Api.initDatabase (Server.initDatabase db) = Server.initDatabase db
  /\ (forall now parsed,
        exists status b,
          Router.via_function now (Router.Ingest parsed)
            (Api.initDatabase (Server.initDatabase None))
          = Returns (status, b, Server.initDatabase None)
          /\ status <> 200%Z)
  /\ (forall now limit,
        Router.answers now (Router.History limit)
          (Api.initDatabase (Server.initDatabase None))
          (Returns (500%Z,
                    Failure "Error obteniendo datos"
                      (Some (QueryError (Pg.UndefinedColumn "detected_objects"))),
                    Server.initDatabase None)))
  /\ (forall now t b,
        Server.initDatabase (Api.initDatabase None) = Some t -> Spec.accepted t b ->
        exists row,
          Router.via_server now (Router.Ingest (Spec.parsed b)) (Some t)
          = Returns (200%Z, Saved row, Some (Spec.with_row t row))).
Proof.
  split; [destruct db; reflexivity|]. split; [destruct db; reflexivity|].
  split; [|split].
  - intros now parsed. rewrite via_function_ingest.
    change (Api.initDatabase (Server.initDatabase None)) with (Server.initDatabase None).
    destruct (handlePostDetections_outcome now (Some parsed) (Server.initDatabase None))
      as (r & db' & -> & [[-> Hr]|(row & Hin & _)]).
    + eexists _, _. split; [reflexivity|]. destruct Hr as [->|[e ->]]; discriminate.
    + by apply nothing_ingested in Hin.
  - intros now limit. pose proof (history_answers now limit (Server.initDatabase None)) as H.
    exact H.
  - intros now t b _ Ha. destruct (ingest_accepted now t b Ha) as [avg [_ H]].
    eexists. exact H.
Qed.

End Initialisation.

(* ===================================================================== *)
(** ** The answers of the function adapter                                *)
(* ===================================================================== *)

Section Dispatch.

Import JS Http Aggregator.

(** The ways [exports.handler] returns. *)
Lemma handler_cases now event db r db' :
  Api.handler now event db = Returns (r, db') ->
  let m := Api.httpMethod event in
  let p := Api.path event in
  (m = "OPTIONS" /\ r = Api.handleOptions /\ db' = db)
  \/ (m = "GET" /\ p = "/.netlify/functions/api/health"
      /\ r = Api.handleHealth now db /\ db' = db)
  \/ (m = "POST" /\ p = "/.netlify/functions/api/detections"
      /\ Api.handlePostDetections now (Api.body event) db = Returns (r, db'))
  \/ (m = "GET" /\ p = "/.netlify/functions/api/detections"
      /\ r = Api.handleGetDetections (default [] (Api.queryStringParameters event)) db
      /\ db' = db)
  \/ (m = "GET" /\ p = "/.netlify/functions/api/stats"
      /\ r = Api.handleStats db /\ db' = db)
  \/ (m = "DELETE" /\ p = "/.netlify/functions/api/detections"
      /\ Api.handleDeleteDetections db = (r, db'))
  \/ (m <> "OPTIONS" /\ ((m, p) ∉ Spec.routes)
      /\ r = Api.respond 404 (Failure "Ruta no encontrada" None) /\ db' = db).
Proof.
  unfold Api.handler. cbv zeta.
  destruct (String.eqb_spec (Api.httpMethod event) "OPTIONS") as [E|NO];
    [intros [= <- <-]; left; done|].
  destruct (String.eqb_spec (Api.path event) "/.netlify/functions/api/health")
    as [Ph|Ph];
  destruct (String.eqb_spec (Api.path event) "/.netlify/functions/api/detections")
    as [Pd|Pd];
  destruct (String.eqb_spec (Api.path event) "/.netlify/functions/api/stats")
    as [Ps|Ps];
  destruct (String.eqb_spec (Api.httpMethod event) "GET") as [Mg|Mg];
  destruct (String.eqb_spec (Api.httpMethod event) "POST") as [Mp|Mp];
  destruct (String.eqb_spec (Api.httpMethod event) "DELETE") as [Md|Md];
  cbn [andb]; try congruence; intros H;
  first [injection H as <- <- | injection H as H | idtac];
  first
    [ right; left; done
    | right; right; left; done
    | right; right; right; left; done
    | right; right; right; right; left; done
    | right; right; right; right; right; left; done
    | do 6 right; split; [exact NO|]; split; [|done];
      unfold Spec.routes; rewrite !elem_of_cons, elem_of_nil;
      intros HR; repeat destruct HR as [HR|HR]; try done;
      injection HR as HR1 HR2; congruence ].
Qed.

(** [exports.handler] returns on every request. *)
Lemma handler_returns now event db :
  exists r db', Api.handler now event db = Returns (r, db').
Proof. destruct (Api.handler now event db) as [[r db']]. eauto. Qed.

(** What every handler's answer has. *)
Lemma respond_shapes now event db r db' :
  Api.handler now event db = Returns (r, db') ->
  exists status b, r = Api.respond status b
    /\ ((status = 200%Z /\ Session.is_error b = false)
        \/ ((status = 400 \/ status = 404 \/ status = 500)%Z
            /\ Session.is_error b = true))
    /\ (forall c d, b = Listed c d -> c = length d).
Proof.
  intros H. apply handler_cases in H. cbv zeta in H.
  destruct H as [(_ & -> & _)|[(_ & _ & -> & _)|[(_ & _ & H)|[(_ & _ & -> & _)|
                 [(_ & _ & -> & _)|[(_ & _ & H)|(_ & _ & -> & _)]]]]]].
  - eexists _, _. split; [reflexivity|]. split; [by left|discriminate].
  - unfold Api.handleHealth. destruct (Pg.select_now now db);
      (eexists _, _; split; [reflexivity|]; split; [|discriminate]); [right|left]; auto.
  - apply handlePostDetections_returned in H
      as [[_ [->|[e ->]]]|(row & _ & ->)];
      (eexists _, _; split; [reflexivity|]; split; [|discriminate]);
      [right|right|left]; auto.
  - unfold Api.handleGetDetections. destruct (Pg.select_recent _ db);
      (eexists _, _; split; [reflexivity|]; split); [right| |left|]; auto;
      try discriminate.
    intros c d [= <- <-]. reflexivity.
  - unfold Api.handleStats. destruct (Pg.select_stats db);
      (eexists _, _; split; [reflexivity|]; split; [|discriminate]); [right|left]; auto.
  - unfold Api.handleDeleteDetections in H. destruct (Pg.delete_all db);
      injection H as <- <-;
      (eexists _, _; split; [reflexivity|]; split; [|discriminate]); [right|left]; auto.
  - eexists _, _. split; [reflexivity|]. split; [right; auto|discriminate].
Qed.

(** X4: [exports.handler] answers every request, and every answer has
    the same envelope.  It carries the four headers (any origin allowed),
    its status is 200, 400, 404 or 500, the status is 200 exactly when
    the body is not an error body, and the count of a history answer is
    the number of events listed. *)
Theorem every_answer_has_the_envelope (now : Z) (event : Api.Event) (db : Pg.Db) :
  exists r db',
    Api.handler now event db = Returns (r, db')
    /\ headers r = [("Access-Control-Allow-Origin", "*");
                    ("Access-Control-Allow-Headers", "Content-Type");
                    ("Access-Control-Allow-Methods", "GET, POST, PUT, DELETE, OPTIONS");
                    ("Content-Type", "application/json")]
    /\ (statusCode r ∈ [200; 400; 404; 500]%Z)
    /\ (statusCode r = 200%Z <-> Session.is_error (body r) = false)
    /\ (forall c d, body r = Listed c d -> c = length d).
Proof.
  destruct (handler_returns now event db) as (r & db' & H).
  exists r, db'. split; [exact H|].
  apply respond_shapes in H as (status & b & -> & Hs & Hc). cbn.
  split; [reflexivity|].
  split; [rewrite !elem_of_cons; destruct Hs as [[-> _]|[[->|[->| ->]] _]]; auto|].
  split; [|exact Hc].
  destruct Hs as [[-> ->]|[[->|[->| ->]] ->]]; split; (done || discriminate).
Qed.

Lemma routed (m p : string) :
  (m = "GET" /\ p = "/.netlify/functions/api/health")
  \/ (m = "POST" /\ p = "/.netlify/functions/api/detections")
  \/ (m = "GET" /\ p = "/.netlify/functions/api/detections")
  \/ (m = "GET" /\ p = "/.netlify/functions/api/stats")
  \/ (m = "DELETE" /\ p = "/.netlify/functions/api/detections") ->
  (m, p) ∈ Spec.routes.
Proof.
  unfold Spec.routes. rewrite !elem_of_cons.
  intros [[-> ->]|[[-> ->]|[[-> ->]|[[-> ->]|[-> ->]]]]]; tauto.
Qed.

(** The answer of a route other than ingest is neither 404 nor 400. *)
Ltac routed_answer :=
  cbn;
  (split; split; try discriminate;
   [intros [_ Hr]; exfalso; apply Hr|intros [? _]; congruence]);
  apply routed; tauto.

(** An ingest that passes the check on [objects] is not answered 400. *)
Lemma checked_ingest_not_400 now parsed db r db' :
  parsed <> JNull -> no_objects (get_field parsed "objects") = false ->
  Api.handlePostDetections now (Some parsed) db = Returns (r, db') ->
  statusCode r <> 400%Z.
Proof.
  intros Hn Hno. unfold Api.handlePostDetections. cbv zeta.
  destruct parsed as [| | | | |fields]; try done; try discriminate Hno.
  rewrite Hno.
  destruct (get_field (JObj fields) "objects") as [[| | | |items|]|];
    try (intros [= <- <-]; discriminate).
  destruct (existsb is_null items); [intros [= <- <-]; discriminate|].
  destruct (Ingest.values _ items) as [[[[[p1 p2] p3] p4] p5]|];
    [|intros [= <- <-]; discriminate].
  destruct (Pg.insert _ _ _ _ _ _ _ db) as [e|[row db'']];
    intros [= <- <-]; discriminate.
Qed.

(** X5: what 404 and 400 mean.  The function adapter answers 404 exactly
    to the requests that are not OPTIONS and match none of the five
    routes, and 400 exactly to the POST requests on the detections path
    whose body is JSON other than null and has no objects, falsy objects,
    or objects with length 0. *)
Theorem status_400_and_404 (now : Z) (event : Api.Event) (db : Pg.Db) :
  exists r db',
    Api.handler now event db = Returns (r, db')
    /\ let m := Api.httpMethod event in
       let p := Api.path event in
       (statusCode r = 404%Z <-> m <> "OPTIONS" /\ ((m, p) ∉ Spec.routes))
       /\ (statusCode r = 400%Z <->
             m = "POST" /\ p = "/.netlify/functions/api/detections"
             /\ exists parsed, Api.body event = Some parsed /\ parsed <> JNull
                               /\ no_objects (get_field parsed "objects") = true).
Proof.
  destruct (handler_returns now event db) as (r & db' & H).
  exists r, db'. split; [exact H|]. intros m p.
  pose proof (handler_cases _ _ _ _ _ H) as C. cbv zeta in C.
  fold m p in C.
  destruct C as [(Em & -> & _)|[(Em & Ep & -> & _)|[(Em & Ep & C)|[(Em & Ep & -> & _)|
                 [(Em & Ep & -> & _)|[(Em & Ep & C)|(Em & Hr & -> & _)]]]]]].
  - split; split; try discriminate; intros [? ?]; congruence.
  - unfold Api.handleHealth. destruct (Pg.select_now now db); routed_answer.
  - split.
    + assert ((m, p) ∈ Spec.routes) as Hin by (apply routed; tauto).
      split; [|tauto].
      apply handlePostDetections_returned in C
        as [[_ [->|[e ->]]]|(row & _ & ->)]; discriminate.
    + destruct (Api.body event) as [parsed|] eqn:Eb.
      2:{ injection C as <- <-. split; [discriminate|].
          intros (_&_&?&?&_); discriminate. }
      assert (parsed = JNull \/ parsed <> JNull) as [->|Hn]
        by (destruct parsed; (by left) || (by right)).
      { injection C as <- <-. split; [discriminate|]. intros (_&_&?&[= <-]&?&_). done. }
      destruct (no_objects (get_field parsed "objects")) eqn:Hno.
      * split; [intros _|].
        -- split; [exact Em|]. split; [exact Ep|]. exists parsed. done.
        -- intros _. unfold Api.handlePostDetections in C. cbv zeta in C.
           rewrite Hno in C. destruct parsed; try done; by injection C as <- <-.
      * pose proof (checked_ingest_not_400 _ _ _ _ _ Hn Hno C) as Hne.
        split; [done|]. intros (_&_&?&[= <-]&_&Hno'). congruence.
  - unfold Api.handleGetDetections. destruct (Pg.select_recent _ db); routed_answer.
  - unfold Api.handleStats. destruct (Pg.select_stats db); routed_answer.
  - unfold Api.handleDeleteDetections in C. destruct (Pg.delete_all db);
      injection C as <- <-; routed_answer.
  - cbn. split; split; try done. intros (Hm & Hp & _). exfalso. apply Hr.
    apply routed; tauto.
Qed.

(** What a request does to the store. *)
Lemma handler_transition now event db r db' :
  Api.handler now event db = Returns (r, db') ->
  db' = db
  \/ (Api.httpMethod event = "POST"
      /\ Api.path event = "/.netlify/functions/api/detections"
      /\ exists row, Spec.ingested now (Api.body event) db row db'
                     /\ r = Api.respond 200 (Saved row))
  \/ (Api.httpMethod event = "DELETE"
      /\ Api.path event = "/.netlify/functions/api/detections"
      /\ exists t, db = Some t /\ db' = Some (Session.purged t)
                   /\ r = Api.respond 200 Deleted).
Proof.
  intros H. apply handler_cases in H. cbv zeta in H.
  destruct H as [(_ & _ & ->)|[(_ & _ & _ & ->)|[(Em & Ep & H)|[(_ & _ & _ & ->)|
                 [(_ & _ & _ & ->)|[(Em & Ep & H)|(_ & _ & _ & ->)]]]]]]; auto.
  - apply handlePostDetections_returned in H as [[-> _]|H]; auto.
  - unfold Api.handleDeleteDetections in H. destruct db as [t|]; cbn in H;
      injection H as <- <-; auto.
    right. right. split; [exact Em|]. split; [exact Ep|]. exists t. auto.
Qed.


End Dispatch.

(* ===================================================================== *)
(** ** A store written through the handlers only                          *)
(* ===================================================================== *)

Section Sessions.

Import JS Http Aggregator.

(** The relation as the function adapter creates it is sound. *)
Lemma created_relation_sound : Session.sound Sample.table.
Proof. constructor; try reflexivity; constructor. Defined.

Lemma ids_sorted_snoc (ids : list Z) (k : Z) :
  StronglySorted Z.lt ids -> Forall (fun i => (i < k)%Z) ids ->
  StronglySorted Z.lt (ids ++ [k]).
Proof.
  induction 1 as [|i ids Hs IH Hi]; intros Hk; cbn.
  - repeat constructor.
  - apply Forall_cons in Hk as [Hik Hk]. constructor; [auto|].
    apply Forall_app. split; [exact Hi|]. repeat constructor. exact Hik.
Qed.

(** A request leaves a sound relation sound. *)
Lemma handler_sound now event t r db' :
  Session.sound t -> Api.handler now event (Some t) = Returns (r, db') ->
  exists t', db' = Some t' /\ Session.sound t'.
Proof.
  intros [Hc Ha Hp Hi Hw] H.
  apply handler_transition in H
    as [->|[(_ & _ & row & (parsed & items & p1 & p2 & p3 & p4 & p5
                             & _ & _ & Hne & Hv & Hin) & _)
           |(_ & _ & t0 & [= <-] & -> & _)]].
  - exists t. split; [reflexivity|]. by constructor.
  - apply values_counts in Hv as [-> ->].
    pose proof (uniqueObjects_bounds items Hne) as Hu.
    apply insert_done in Hin
      as (t0 & [= <-] & -> & _ & Hid & Hrange & Ht & Hcr & _ & Htot & Htr & Hun & _).
    eexists. split; [reflexivity|]. constructor; cbn.
    + exact Hc.
    + apply ids_below_with_row; assumption.
    + lia.
    + rewrite map_app. cbn. apply ids_sorted_snoc; [exact Hi|].
      rewrite Forall_fmap. rewrite Hid. exact Ha.
    + apply Forall_app. split; [exact Hw|]. repeat constructor.
      * lia.
      * lia.
      * congruence.
      * rewrite Hun. lia.
      * rewrite Hun, Htot. lia.
      * lia.
  - eexists. split; [reflexivity|]. constructor; cbn; try assumption; constructor.
Qed.

Lemma serve_sound requests t :
  Session.sound t ->
  exists t', Session.serve requests (Some t) = Returns (Some t') /\ Session.sound t'.
Proof.
  revert t. induction requests as [|[now event] rest IH]; intros t Hs; cbn.
  - eauto.
  - destruct (Api.handler now event (Some t)) as [[r db']] eqn:E.
    apply (handler_sound _ _ _ _ _ Hs) in E as (t' & -> & Hs'). apply IH. exact Hs'.
Qed.


(** X7: what holds of a store that was created by the function adapter's
    [initDatabase] and then served any sequence of requests, whatever
    their bodies: every request is answered, and afterwards the relation
    exists with the nine columns, the ids of its rows increase strictly in
    the order they were written (so no id occurs twice) and lie below the
    sequence, and every row has an id from 1 on, the same instant in
    timestamp and created_at, and 1 <= unique_objects <= total_objects.
    (Each handler sends one statement, so concurrent requests act on the
    store as some sequence of them.) *)
Theorem served_store_is_sound (requests : list (Z * Api.Event)) :
  exists t,
    Session.serve requests (Api.initDatabase None) = Returns (Some t)
    /\ Session.sound t
    /\ NoDup (map Pg.id (Pg.rows t))
    /\ Pg.missing_column t Pg.select_columns = None.
Proof.
  destruct (serve_sound requests Sample.table created_relation_sound) as (t & H & Hs).
  exists t. split; [exact H|]. split; [exact Hs|]. split.
  - destruct Hs as [_ _ _ Hi _]. revert Hi. generalize (map Pg.id (Pg.rows t)).
    induction 1 as [|i ids Hs IH Hi]; constructor; [|exact IH].
    intros Hin. rewrite Forall_forall in Hi. apply Hi in Hin. lia.
  - destruct Hs as [Hc _ _ _ _]. unfold Pg.missing_column, Pg.has_column.
    rewrite Hc. reflexivity.
Qed.


End Sessions.

(* ===================================================================== *)
(** ** Ingest, then history and statistics                                *)
(* ===================================================================== *)

Section RoundTrips.

Import JS Http Aggregator.

(** A row more recent than all the others is sorted first. *)
Lemma newest_goes_first (rs : list Pg.Row) (row : Pg.Row) :
  Forall (fun r => (Pg.created_at r < Pg.created_at row)%Z) rs ->
  Pg.order_by_created_at_desc (rs ++ [row]) = row :: Pg.order_by_created_at_desc rs.
Proof.
  unfold Pg.order_by_created_at_desc. rewrite foldr_app. cbn [foldr Pg.insert_recent].
  induction 1 as [|r rs Hr _ IH]; [reflexivity|].
  cbn [foldr]. rewrite IH. cbn [Pg.insert_recent].
  destruct (Z.leb_spec (Pg.created_at row) (Pg.created_at r)); [lia|reflexivity].
Qed.

(** X9: an event that was just stored is the first one listed.  When a
    batch is stored at an instant later than every created_at of the
    relation, a history request for n events (0 < n < 2^63) lists the row
    that the ingest returned and then the n - 1 most recent older ones;
    without a limit, that row and the 49 most recent older ones. *)
Theorem stored_event_is_listed_first (now later : Z) (t : Pg.Table) (b : Spec.Batch) :
  Spec.accepted t b ->
  Pg.missing_column t Pg.select_columns = None ->
  Forall (fun r => (Pg.created_at r < now)%Z) (Pg.rows t) ->
  exists row t',
    Router.answers now (Router.Ingest (Spec.parsed b)) (Some t)
      (Returns (200%Z, Saved row, Some t'))
    /\ (forall n, (0 < n < 2 ^ 63)%Z ->
          let older := take (Z.to_nat n - 1) (Pg.order_by_created_at_desc (Pg.rows t)) in
          Router.answers later (Router.History (Some (digits n))) (Some t')
            (Returns (200%Z, Listed (S (length older)) (row :: older), Some t')))
    /\ (let older := take 49 (Pg.order_by_created_at_desc (Pg.rows t)) in
        Router.answers later (Router.History None) (Some t')
          (Returns (200%Z, Listed (S (length older)) (row :: older), Some t'))).
Proof.
  intros Ha Hc Hold. destruct (ingest_accepted now _ _ Ha) as [avg H]. cbv zeta in H.
  set (row := Spec.stored_row now t (Spec.src b) (Spec.items b) (Spec.objs b) avg) in *.
  exists row, (Spec.with_row t row). split; [exact H|].
  assert (Hn : Pg.order_by_created_at_desc (Pg.rows (Spec.with_row t row))
               = row :: Pg.order_by_created_at_desc (Pg.rows t))
    by (apply newest_goes_first; exact Hold).
  split.
  - intros n Hn' older. pose proof (history_answers later (Some (digits n))
                                      (Some (Spec.with_row t row))) as Hh.
    replace (Server.limit_or_50 (Some (digits n))) with (Pg.PText (digits n)) in Hh
      by (symmetry; apply limit_text_passed, digits_not_empty).
    rewrite select_recent_digits, Hn in Hh by (exact Hc || lia).
    replace (Z.to_nat n) with (S (Z.to_nat n - 1)) in Hh by lia.
    exact Hh.
  - intros older.
    pose proof (history_answers later None (Some (Spec.with_row t row))) as Hh.
    unfold Pg.select_recent in Hh.
    change (Pg.missing_column (Spec.with_row t row) Pg.select_columns)
      with (Pg.missing_column t Pg.select_columns) in Hh. rewrite Hc in Hh.
    cbn [Server.limit_or_50 Pg.bigint] in Hh. rewrite Hn in Hh.
    change (50 <? 0)%Z with false in Hh. cbv beta iota in Hh.
    rewrite limit_rows_take in Hh by lia. exact Hh.
Qed.

(** X10: what one stored batch adds to the statistics.  total_detections
    grows by one, total_objects_detected by the number of submitted
    objects (from null, taken as 0), and max_objects_in_detection becomes
    the larger of the former maximum and that number. *)
Theorem ingest_adds_to_the_statistics (now later : Z) (t : Pg.Table) (b : Spec.Batch) :
  Spec.accepted t b ->
  Pg.missing_column t Pg.stats_columns = None ->
  exists before row t' after,
    Router.answers now Router.Stats (Some t) (Returns (200%Z, StatsOf before, Some t))
    /\ Router.answers now (Router.Ingest (Spec.parsed b)) (Some t)
         (Returns (200%Z, Saved row, Some t'))
    /\ Router.answers later Router.Stats (Some t') (Returns (200%Z, StatsOf after, Some t'))
    /\ Pg.total_detections after = (Pg.total_detections before + 1)%Z
    /\ (let n := Z.of_nat (length (Spec.items b)) in
        Pg.total_objects_detected after
        = Some (default 0 (Pg.total_objects_detected before) + n)%Z
        /\ Pg.max_objects_in_detection after
           = Some (Z.max (default n (Pg.max_objects_in_detection before)) n)).
Proof.
  intros Ha Hc. destruct (ingest_accepted now _ _ Ha) as [avg H]. cbv zeta in H.
  set (row := Spec.stored_row now t (Spec.src b) (Spec.items b) (Spec.objs b) avg) in *.
  pose proof (stats_answers now (Some t)) as Hb.
  pose proof (stats_answers later (Some (Spec.with_row t row))) as Hl.
  unfold Pg.select_stats in Hb, Hl.
  change (Pg.missing_column (Spec.with_row t row) Pg.stats_columns)
    with (Pg.missing_column t Pg.stats_columns) in Hl. rewrite Hc in Hb, Hl.
  eexists _, row, _, _. split; [exact Hb|]. split; [exact H|]. split; [exact Hl|].
  cbn [Pg.total_detections Pg.total_objects_detected Pg.max_objects_in_detection
       Spec.with_row Pg.rows].
  rewrite !fold_left_app. cbn [fold_left]. split; [reflexivity|].
  assert (Pg.total_objects row = Z.of_nat (length (Spec.items b))) as Hrow.
  { cbn. destruct Ha as ((_ & Hm & _) & _). apply length_mapM in Hm. congruence. }
  clearbody row. clear Hb Hl H. split.
  - destruct (fold_left Pg.sum_step (Pg.rows t) None) as [s|];
      unfold Pg.sum_step; rewrite Hrow; cbn [default from_option id]; f_equal; lia.
  - destruct (fold_left Pg.max_step (Pg.rows t) None) as [m|];
      unfold Pg.max_step; rewrite Hrow; cbn [default from_option id]; f_equal.
    + destruct (Z.ltb_spec m (Z.of_nat (length (Spec.items b)))); lia.
    + lia.
Qed.

End RoundTrips.

(* ===================================================================== *)
(** ** Bodies that are not stored                                         *)
(* ===================================================================== *)

Section Bodies.

Import JS Http Aggregator.

(** Where an INSERT is refused for a value, the statements below speak of
    the rows of the relation only: whether PostgreSQL has drawn an id from
    the sequence by then is left open. *)

(** X11: a POST on the detections path of the function adapter whose body
    is not a JSON object stores nothing.  A body that [JSON.parse] refuses
    (an absent one included) is answered 500 with the syntax error, the
    body null 500 with a type error, and a number, string, boolean or
    array 400 as a batch without objects. *)
Theorem malformed_body_is_not_stored (now : Z) (query : option (list (string * string)))
    (db : Pg.Db) :
  let post body :=
    Api.handler now
      {| Api.httpMethod := "POST"; Api.path := "/.netlify/functions/api/detections";
         Api.queryStringParameters := query; Api.body := body |} db in
  let caught e :=
    Returns (Api.respond 500 (Failure "Error guardando en base de datos" (Some e)), db) in
  post None = caught SyntaxError
  /\ post (Some JNull) = caught TypeError
  /\ forall parsed,
       parsed <> JNull -> (forall fields, parsed <> JObj fields) ->
       post (Some parsed)
       = Returns (Api.respond 400 (Failure "No hay objetos para guardar" None), db).
Proof.
  cbv zeta. split; [reflexivity|]. split; [reflexivity|].
  intros parsed Hn Ho. destruct parsed; try reflexivity; [done|]. by destruct (Ho fields).
Qed.

Lemma null_found (items : list JValue) : JNull ∈ items -> existsb is_null items = true.
Proof.
  induction items as [|v items IH]; [by intros ?%elem_of_nil|].
  intros [<-|Hin]%elem_of_cons; [reflexivity|]. cbn. rewrite IH by exact Hin.
  apply orb_true_r.
Qed.

(** X12: an objects array with a null element is answered 500 by both
    hostings, with the type error of reading [class] of null, and the
    store is as it was. *)
Theorem null_object_answered_500 (now : Z) (parsed : JValue) (items : list JValue)
    (db : Pg.Db) :
  get_field parsed "objects" = Some (JArr items) -> JNull ∈ items ->
  Router.answers now (Router.Ingest parsed) db
    (Returns (500%Z, Failure "Error guardando en base de datos" (Some TypeError), db)).
Proof.
  intros Ho Hin.
  assert (Router.via_function now (Router.Ingest parsed) db
          = Returns (500%Z, Failure "Error guardando en base de datos" (Some TypeError),
                     db)) as H.
  { rewrite via_function_ingest. unfold Api.handlePostDetections. cbv zeta.
    destruct parsed as [| | | | |fields]; try discriminate Ho.
    rewrite Ho. unfold no_objects. cbn [not_ truthy negb orb length_is_zero].
    destruct items as [|v items]; [by apply elem_of_nil in Hin|].
    cbn [length Nat.eqb]. rewrite null_found by exact Hin. reflexivity. }
  split; [exact H|]. rewrite <- hostings_agree; [exact H|by destruct parsed].
Qed.

(** X13: a batch whose source is absent or falsy (null, false, 0, the
    empty string) is stored under the source tag camera: both hostings
    answer 200 and append the one row they return. *)
Theorem falsy_source_is_stored_as_camera (now : Z) (parsed : JValue) (t : Pg.Table)
    (items : list JValue) (objs : list DetectedObject) :
  get_field parsed "objects" = Some (JArr items) ->
  mapM detected items = Some objs -> objs <> [] ->
  not_ (get_field parsed "source") = true ->
  Spec.storable t "camera" objs ->
  (exists row,
     Router.answers now (Router.Ingest parsed) (Some t)
       (Returns (200%Z, Saved row, Some (Spec.with_row t row)))
     /\ Pg.source row = "camera")
  /\ Forall (fun v => not_ v = true)
       [None; Some JNull; Some (JBool false); Some (JNum 0); Some (JStr "")].
Proof.
  intros Ho Hm Hne Hs Hst. split; [|repeat constructor].
  assert (Spec.carries parsed "camera" items objs) as Hc.
  { split; [exact Ho|]. split; [exact Hm|]. unfold source_or_camera. by rewrite Hs. }
  destruct (Spec.mean_fits _ _ _ Hst) as [avg Havg].
  pose proof (ingest_stores now parsed t "camera" items objs avg Hc Hne Hst Havg) as H.
  cbv zeta in H. eexists. split; [exact H|reflexivity].
Qed.

Lemma varchar_too_long (n : nat) (s : string) :
  (n < Pg.characters s)%nat -> Pg.all_spaces (Pg.excess n s) = false ->
  Pg.varchar n s = inl (Pg.StringTooLong n).
Proof.
  intros Hl Hs. unfold Pg.varchar. rewrite Hs.
  destruct (Nat.leb_spec (Pg.characters s) n); [lia|reflexivity].
Qed.

Lemma insert_long_source now p1 p2 p3 p4 p5 p6 t :
  Pg.missing_column t Pg.insert_columns = None ->
  Pg.integer p2 = inr p2 -> Pg.integer p3 = inr p3 ->
  Pg.varchar 50 p1 = inl (Pg.StringTooLong 50) ->
  Pg.insert now p1 p2 p3 p4 p5 p6 (Some t) = inl (Pg.StringTooLong 50).
Proof. intros Hc H2 H3 Hv. unfold Pg.insert. by rewrite Hc, H2, H3, Hv. Qed.

(** X14: a source tag of more than 50 characters, those in excess not
    all spaces, is not cut to fit: the ingest is answered 500 with the
    error of VARCHAR(50), and the relation has the rows it had.  The
    column counts characters, not bytes. *)
Theorem long_source_is_refused (now : Z) (parsed : JValue) (t : Pg.Table) (src : string)
    (items : list JValue) (objs : list DetectedObject) :
  Spec.carries parsed src items objs -> objs <> [] ->
  Pg.missing_column t Pg.insert_columns = None ->
  (Z.of_nat (length objs) < 2 ^ 31)%Z ->
  (50 < Pg.characters src)%nat ->
  Pg.all_spaces (Pg.excess 50 src) = false ->
  exists db',
    Router.answers now (Router.Ingest parsed) (Some t)
      (Returns (500%Z,
                Failure "Error guardando en base de datos"
                  (Some (QueryError (Pg.StringTooLong 50))),
                db'))
    /\ Session.stored db' = Some (Pg.rows t).
Proof.
  intros (Ho & Hm & Hs) Hne Hc Hn Hl Hsp. exists (Some t). split; [|reflexivity].
  assert (Router.via_function now (Router.Ingest parsed) (Some t)
          = Returns (500%Z,
                     Failure "Error guardando en base de datos"
                       (Some (QueryError (Pg.StringTooLong 50))),
                     Some t)) as H.
  { rewrite via_function_ingest. unfold Api.handlePostDetections. cbv zeta.
    destruct parsed as [| | | | |fields]; try discriminate Ho.
    rewrite Ho, (carried_nonempty items objs Hm Hne), (detected_not_null items objs Hm).
    rewrite (typed_values _ src items objs Hm Hs).
    rewrite insert_long_source; [reflexivity|exact Hc|..].
    - apply integer_fits. unfold totalObjects. lia.
    - apply integer_fits. pose proof (uniqueObjects_le objs). unfold totalObjects in *. lia.
    - apply varchar_too_long; assumption. }
  split; [exact H|]. rewrite <- hostings_agree; [exact H|by destruct parsed].
Qed.

Lemma insert_mean_overflow now p1 p2 p3 p4 p5 p6 t :
  Pg.missing_column t Pg.insert_columns = None ->
  Pg.varchar 50 p1 = inr p1 -> Pg.integer p2 = inr p2 -> Pg.integer p3 = inr p3 ->
  Pg.numeric_5_2 p4 = inl Pg.NumericOverflow ->
  Pg.insert now p1 p2 p3 p4 p5 p6 (Some t) = inl Pg.NumericOverflow.
Proof.
  intros Hc H1 H2 H3 H4. unfold Pg.insert. rewrite Hc, H2, H3, H1, H4.
  destruct (Pg.varchar 500 p5); reflexivity.
Qed.

(** X15: the scores are not checked against [0, 1].  A batch whose mean,
    as a percentage rounded to hundredths, is infinite or reaches 1000.00
    in magnitude is answered 500 with the overflow error of DECIMAL(5,2),
    and the relation has the rows it had. *)
Theorem mean_out_of_range_is_refused (now : Z) (parsed : JValue) (t : Pg.Table)
    (src : string) (items : list JValue) (objs : list DetectedObject) :
  Spec.carries parsed src items objs -> objs <> [] ->
  Pg.missing_column t Pg.insert_columns = None ->
  (String.length src <= 50)%nat -> (Z.of_nat (length objs) < 2 ^ 31)%Z ->
  Spec.round2 (avgConfidence objs) = None ->
  exists db',
    Router.answers now (Router.Ingest parsed) (Some t)
      (Returns (500%Z,
                Failure "Error guardando en base de datos"
                  (Some (QueryError Pg.NumericOverflow)),
                db'))
    /\ Session.stored db' = Some (Pg.rows t).
Proof.
  intros (Ho & Hm & Hs) Hne Hc Hl Hn Hr. exists (Some t). split; [|reflexivity].
  assert (Router.via_function now (Router.Ingest parsed) (Some t)
          = Returns (500%Z,
                     Failure "Error guardando en base de datos"
                       (Some (QueryError Pg.NumericOverflow)),
                     Some t)) as H.
  { rewrite via_function_ingest. unfold Api.handlePostDetections. cbv zeta.
    destruct parsed as [| | | | |fields]; try discriminate Ho.
    rewrite Ho, (carried_nonempty items objs Hm Hne), (detected_not_null items objs Hm).
    rewrite (typed_values _ src items objs Hm Hs).
    rewrite insert_mean_overflow; [reflexivity|exact Hc|..].
    - apply varchar_fits. exact Hl.
    - apply integer_fits. unfold totalObjects. lia.
    - apply integer_fits. pose proof (uniqueObjects_le objs). unfold totalObjects in *. lia.
    - rewrite numeric_5_2_toFixed2, Hr. reflexivity. }
  split; [exact H|]. rewrite <- hostings_agree; [exact H|by destruct parsed].
Qed.

End Bodies.

(* ===================================================================== *)
(** ** Length and counts of the summary                                   *)
(* ===================================================================== *)

Section Summary.

Import JS Http Aggregator.

Lemma string_app_assoc (a b c : string) : (a ++ b) ++ c = a ++ b ++ c.
Proof.
  induction a as [|x a IH]; [reflexivity|].
  change (String x ((a ++ b) ++ c) = String x (a ++ b ++ c)). by rewrite IH.
Qed.

Lemma all_spaces_paren (s : string) : Pg.all_spaces (s ++ ")") = false.
Proof.
  induction s as [|c s IH]; [reflexivity|].
  change (String c s ++ ")") with (String c (s ++ ")")). cbn [Pg.all_spaces].
  destruct (Ascii.eqb c " "); [exact IH|reflexivity].
Qed.

(** What exceeds [n] characters of a text that ends with a parenthesis is
    not all spaces. *)
Lemma excess_not_spaces (n : nat) (s : string) :
  (n < Pg.characters (s ++ ")"))%nat -> Pg.all_spaces (Pg.excess n (s ++ ")")) = false.
Proof.
  revert n. induction s as [|c s IH]; intros n Hl.
  - change ("" ++ ")") with ")" in *. destruct n; [reflexivity|].
    change (Pg.characters ")") with 1%nat in Hl. lia.
  - change (String c s ++ ")") with (String c (s ++ ")")) in *.
    cbn [Pg.characters Pg.excess] in *.
    destruct (Pg.is_continuation c); [apply IH; lia|].
    destruct n as [|n]; [|apply IH; lia].
    cbn [Pg.all_spaces]. rewrite all_spaces_paren. apply andb_false_r.
Qed.

Lemma join_ends_paren (f : string * Count -> string) (l : list (string * Count)) :
  (forall e, exists s, f e = s ++ ")") -> l <> [] ->
  exists s, join ", " (map f l) = s ++ ")".
Proof.
  intros Hf. induction l as [|e l IH]; [done|]. intros _.
  destruct l as [|e' l].
  - cbn. apply Hf.
  - destruct IH as [s Hs]; [done|]. unfold join in *.
    change (String.concat ", " (map f (e :: e' :: l)))
      with (f e ++ ", " ++ String.concat ", " (map f (e' :: l))).
    rewrite Hs. exists (f e ++ ", " ++ s). by rewrite !string_app_assoc.
Qed.

Lemma summary_ends_paren (objs : list DetectedObject) :
  detectedObjectsText objs <> "" -> exists s, detectedObjectsText objs = s ++ ")".
Proof.
  unfold detectedObjectsText. intros Hne. apply join_ends_paren.
  - intros [name count]. exists (name ++ " (" ++ count_text count).
    by rewrite !string_app_assoc.
  - intros E. rewrite E in Hne. by apply Hne.
Qed.

Lemma long_summary_too_long (objs : list DetectedObject) :
  (500 < Pg.characters (detectedObjectsText objs))%nat ->
  Pg.varchar 500 (detectedObjectsText objs) = inl (Pg.StringTooLong 500).
Proof.
  intros Hl. destruct (summary_ends_paren objs) as [s Hs].
  - intros E. rewrite E in Hl. cbn in Hl. lia.
  - rewrite Hs in *. apply varchar_too_long; [exact Hl|].
    apply excess_not_spaces. exact Hl.
Qed.

(** X16: a summary of more than 500 characters is never cut to fit
    VARCHAR(500): it ends with a closing parenthesis, so the characters
    in excess are not all spaces, and the ingest is answered 500 by both
    hostings on any store, whose rows are as they were.  The column
    counts characters, not bytes. *)
Theorem long_summary_is_refused_not_cut (now : Z) (parsed : JValue) (db : Pg.Db)
    (src : string) (items : list JValue) (objs : list DetectedObject) :
  Spec.carries parsed src items objs -> objs <> [] ->
  (500 < Pg.characters (detectedObjectsText objs))%nat ->
  exists e db',
    Router.answers now (Router.Ingest parsed) db
      (Returns (500%Z, Failure "Error guardando en base de datos" (Some (QueryError e)),
                db'))
    /\ Session.stored db' = Session.stored db.
Proof.
  intros (Ho & Hm & Hs) Hne Hl.
  destruct (Pg.insert now src (Z.of_nat (totalObjects objs)) (Z.of_nat (uniqueObjects objs))
              (toFixed2 (avgConfidence objs)) (detectedObjectsText objs) (JArr items) db)
    as [e|[row db']] eqn:Hi.
  2:{ apply insert_done in Hi as (_ & _ & _ & _ & _ & _ & _ & _ & _ & _ & _ & _ & _ & Hv).
      rewrite long_summary_too_long in Hv by exact Hl. discriminate. }
  exists e, db. split; [|reflexivity].
  assert (Router.via_function now (Router.Ingest parsed) db
          = Returns (500%Z, Failure "Error guardando en base de datos" (Some (QueryError e)),
                     db)) as H.
  { rewrite via_function_ingest. unfold Api.handlePostDetections. cbv zeta.
    destruct parsed as [| | | | |fields]; try discriminate Ho.
    rewrite Ho, (carried_nonempty items objs Hm Hne), (detected_not_null items objs Hm).
    rewrite (typed_values _ src items objs Hm Hs), Hi. reflexivity. }
  split; [exact H|]. rewrite <- hostings_agree; [exact H|by destruct parsed].
Qed.

Lemma one_of_distinct (l : list string) (x : string) :
  NoDup l -> x ∈ l ->
  sum_list_with (fun c => if decide (x = c) then 1 else 0)%nat l = 1%nat.
Proof.
  induction 1 as [|c l Hc Hl IH]; [by intros ?%elem_of_nil|].
  intros Hin. cbn. destruct (decide (x = c)) as [->|Hne].
  - assert (sum_list_with (fun c' => if decide (c = c') then 1 else 0)%nat l = 0%nat) as ->;
      [|reflexivity].
    clear IH Hin Hl. induction l as [|c' l IH]; [reflexivity|]. cbn.
    apply not_elem_of_cons in Hc as [Hne Hc]. rewrite decide_False by exact Hne.
    apply IH. exact Hc.
  - apply elem_of_cons in Hin as [?|Hin]; [done|]. by rewrite IH.
Qed.

(** The occurrences of the distinct labels add up to the number of
    labels. *)
Lemma occurrences_add_up (l names : list string) :
  NoDup l -> Forall (fun x => x ∈ l) names ->
  sum_list_with (fun c => Spec.occurrences c names) l = length names.
Proof.
  intros Hl. induction 1 as [|x names Hx _ IH].
  - induction l as [|c l IHl]; [reflexivity|]. cbn. apply NoDup_cons in Hl as [_ Hl]. auto.
  - assert (sum_list_with (fun c => Spec.occurrences c (x :: names)) l
            = (sum_list_with (fun c => if decide (x = c) then 1 else 0) l
               + sum_list_with (fun c => Spec.occurrences c names) l)%nat) as ->.
    { clear. induction l as [|c l IHl]; [reflexivity|]. cbn [sum_list_with]. rewrite IHl.
      unfold Spec.occurrences at 1. rewrite filter_cons.
      destruct (decide (x = c)); cbn [length]; unfold Spec.occurrences; lia. }
    rewrite IH, (one_of_distinct l x Hl Hx). reflexivity.
Qed.

Lemma sum_list_with_map {A B} (g : B -> nat) (h : A -> B) (l : list A) :
  sum_list_with g (map h l) = sum_list_with (fun a => g (h a)) l.
Proof. induction l as [|a l IH]; [reflexivity|]. cbn. by rewrite IH. Qed.

(** X17: the summary agrees with the two counts.  When no class label is
    a name inherited from Object.prototype, the pairs that
    [Object.entries(objectCounts)] lists are as many as unique_objects,
    their labels are distinct, each count is a number from 1 on, the
    number of objects of that class, and the counts add up to
    total_objects. *)
Theorem summary_counts_add_up (objs : list DetectedObject) :
  Forall (fun c => object_prototype c = None) (map class objs) ->
  let pairs := entries (objectCounts objs) in
  length pairs = uniqueObjects objs
  /\ sum_list_with (fun kv => Session.count_number (snd kv)) pairs = totalObjects objs
  /\ Forall (fun kv => exists n, snd kv = CNum n /\ (1 <= n)%nat
                                 /\ n = Spec.occurrences (fst kv) (map class objs)) pairs
  /\ NoDup (map fst pairs).
Proof.
  intros Hp pairs. unfold pairs. rewrite (objectCounts_tally objs Hp).
  unfold Spec.tally, objectNames.
  rewrite (entries_map (fun c => CNum (Spec.occurrences c (map class objs)))).
  pose proof (enumeration_order_perm (Spec.first_seen (map class objs))) as Hperm.
  split; [|split; [|split]].
  - rewrite length_map, Hperm. unfold uniqueObjects. by rewrite distinct_labels.
  - rewrite sum_list_with_map. cbn [snd Session.count_number]. rewrite Hperm.
    rewrite occurrences_add_up.
    + unfold totalObjects. by rewrite length_map.
    + apply first_seen_NoDup.
    + apply Forall_forall. intros x Hx. by apply first_seen_elem.
  - apply Forall_forall. intros kv [c [-> Hc]]%list_elem_of_fmap. cbn [fst snd].
    eexists. split; [reflexivity|]. split; [|reflexivity].
    rewrite Hperm in Hc. apply (proj1 (first_seen_elem _ _)) in Hc.
    unfold Spec.occurrences.
    assert (c ∈ filter (fun y => y = c) (map class objs)) as Hin
      by (apply list_elem_of_filter; split; [reflexivity|exact Hc]).
    destruct (filter _ _); [by apply elem_of_nil in Hin|cbn; lia].
  - rewrite map_map. cbn [fst]. rewrite map_id, Hperm. apply first_seen_NoDup.
Qed.

End Summary.

(* ===================================================================== *)
(** ** Limits that are no integers                                        *)
(* ===================================================================== *)

Section Limits.

Import JS Http Aggregator.

(** [bigint] input refuses a text that does not start as a number. *)
Lemma bigint_no_number (c : ascii) (v : string) :
  Pg.is_space c = false -> Pg.is_digit c = false -> c <> "-"%char -> c <> "+"%char ->
  Pg.bigint (Pg.PText (String c v)) = inl Pg.InvalidNumber.
Proof.
  intros Hs Hd Hm Hp. unfold Pg.bigint. cbn [Pg.skip_spaces]. rewrite Hs.
  assert (Pg.signed (String c v) = (false, String c v)) as ->.
  { unfold Pg.signed. destruct c as [[] [] [] [] [] [] [] []]; try reflexivity; done. }
  assert (Pg.scan_number (String c v) = Pg.scan 10 true 0 (String c v)) as ->.
  { unfold Pg.scan_number. destruct c as [[] [] [] [] [] [] [] []]; try reflexivity.
    discriminate Hd. }
  cbn [Pg.scan]. rewrite (digit_of_none c Hd). by destruct (Ascii.eqb c "_").
Qed.

(** It refuses decimal digits followed by a point: as out of range where
    the digits have exceeded a tenth of 2^63 before the last of them, as
    invalid otherwise. *)
Lemma bigint_point (n : Z) (v : string) :
  (0 <= n)%Z ->
  Pg.bigint (Pg.PText (digits n ++ String "." v))
  = inl (if (9223372036854775810 <=? n)%Z then Pg.BigintOutOfRange
         else Pg.InvalidNumber).
Proof.
  intros Hn. unfold Pg.bigint. rewrite digits_uint.
  pose proof (to_uint_not_nil (Z.to_N n)) as Hd.
  set (d := N.to_uint (Z.to_N n)) in *.
  rewrite skip_spaces_uint, signed_uint by exact Hd.
  rewrite scan_number_uint, scan_uint; try done;
    [|by right|intros w [?|[?|[?|[?|[?|?]]]]]; discriminate].
  rewrite uint_overflows_spec by (lia || done). unfold d. rewrite uint_value_digits by lia.
  change (2 ^ 63 / 10)%Z with 922337203685477580%Z.
  pose proof (Z.div_mod n 10 ltac:(lia)). pose proof (Z.mod_pos_bound n 10 ltac:(lia)).
  destruct (Z.ltb_spec 922337203685477580 (n / 10));
    destruct (Z.leb_spec 9223372036854775810 n); try lia; reflexivity.
Qed.

Lemma digits_negative (n : Z) : (n <= 0)%Z -> digits n = digits 0.
Proof. intros Hn. unfold digits. by replace (Z.to_N n) with (Z.to_N 0) by lia. Qed.

(** X18: a limit that is not an integer is passed on like any other and
    makes the statement fail: a text that starts with a character other
    than white space, a sign or a digit (abc), and a decimal fraction
    (2.5), are answered 500 by both hostings, not replaced by 50.  The
    error is that of an invalid number, unless the digits before the
    point have reached 9223372036854775810, which is out of range before
    the point is read. *)
Theorem limit_that_is_no_integer_answered_500 (now : Z) (t : Pg.Table) :
  Pg.missing_column t Pg.select_columns = None ->
  let refused e :=
    Returns (500%Z, Failure "Error obteniendo datos" (Some (QueryError e)), Some t) in
  (forall c v,
     Pg.is_space c = false -> Pg.is_digit c = false -> c <> "-"%char -> c <> "+"%char ->
     Router.answers now (Router.History (Some (String c v))) (Some t)
       (refused Pg.InvalidNumber))
  /\ (forall n v,
        (n < 9223372036854775810)%Z ->
        Router.answers now (Router.History (Some (digits n ++ "." ++ v))) (Some t)
          (refused Pg.InvalidNumber))
  /\ (forall n v,
        (9223372036854775810 <= n)%Z ->
        Router.answers now (Router.History (Some (digits n ++ "." ++ v))) (Some t)
          (refused Pg.BigintOutOfRange)).
Proof.
  intros Hc refused.
  assert (forall n v,
            (0 <= n)%Z ->
            Router.answers now (Router.History (Some (digits n ++ "." ++ v))) (Some t)
              (refused (if (9223372036854775810 <=? n)%Z then Pg.BigintOutOfRange
                        else Pg.InvalidNumber))) as Hpoint.
  { intros n v Hn.
    pose proof (history_answers now (Some (digits n ++ "." ++ v)) (Some t)) as H.
    replace (Server.limit_or_50 (Some (digits n ++ "." ++ v)))
      with (Pg.PText (digits n ++ "." ++ v)) in H.
    + unfold Pg.select_recent in H.
      change (digits n ++ "." ++ v) with (digits n ++ String "." v) in H.
      rewrite Hc, bigint_point in H by exact Hn. exact H.
    + symmetry. apply limit_text_passed. rewrite digits_uint.
      destruct (N.to_uint (Z.to_N n)); discriminate. }
  split; [|split].
  - intros c v Hs Hd Hm Hp.
    pose proof (history_answers now (Some (String c v)) (Some t)) as H.
    cbn [Server.limit_or_50 String.eqb] in H. unfold Pg.select_recent in H.
    rewrite Hc, bigint_no_number in H by assumption. exact H.
  - intros n v Hn. destruct (Z.le_gt_cases 0 n) as [H0|H0].
    + pose proof (Hpoint n v H0) as H.
      by replace (9223372036854775810 <=? n)%Z with false in H
        by (symmetry; apply Z.leb_gt; lia).
    + rewrite (digits_negative n) by lia. exact (Hpoint 0%Z v ltac:(lia)).
  - intros n v Hn. pose proof (Hpoint n v ltac:(lia)) as H.
    by replace (9223372036854775810 <=? n)%Z with true in H
      by (symmetry; apply Z.leb_le; lia).
Qed.

End Limits.

(* ===================================================================== *)
(** ** The two hostings, and a store without the relation                 *)
(* ===================================================================== *)

Section Hostings.

Import JS Http Aggregator.


(** X20: when the relation does not exist ([initDatabase] only logs a
    failure), both hostings still answer health 200 with the instant of
    the store, and history, statistics and purge 500 with the
    undefined-table error; an ingest is answered 400 or 500 by the
    function adapter, and alike by the server, or 400 from its parser
    where that refuses the body.  None of them creates the relation. *)
Theorem without_the_relation_only_health_answers_200 (now : Z) (op : Router.Operation) :
  exists status b,
    Router.via_function now op None = Returns (status, b, None)
    /\ Router.via_server now op None
       = (if Router.reaches_route op then Returns (status, b, None)
          else Returns (400%Z, ErrorPage, None))
    /\ match op with
       | Router.Health => status = 200%Z /\ b = HealthOk now
       | Router.Ingest _ =>
           (status = 400%Z /\ b = Failure "No hay objetos para guardar" None)
           \/ (status = 500%Z
               /\ exists e, b = Failure "Error guardando en base de datos" (Some e)
                            /\ (e = TypeError \/ e = QueryError Pg.UndefinedTable))
       | _ =>
           status = 500%Z
           /\ exists text, b = Failure text (Some (QueryError Pg.UndefinedTable))
       end.
Proof.
  assert (forall body,
            exists status b,
              Router.via_function now (Router.Ingest body) None = Returns (status, b, None)
              /\ ((status = 400%Z /\ b = Failure "No hay objetos para guardar" None)
                  \/ (status = 500%Z
                      /\ exists e,
                           b = Failure "Error guardando en base de datos" (Some e)
                           /\ (e = TypeError \/ e = QueryError Pg.UndefinedTable))))
    as Hingest.
  { intros body. rewrite via_function_ingest. unfold Api.handlePostDetections. cbv zeta.
    destruct body as [| | | | |fields];
      try (eexists _, _; split; [reflexivity|]; (by left) || (right; eauto)).
    destruct (no_objects (get_field (JObj fields) "objects"));
      [eexists _, _; split; [reflexivity|]; by left|].
    destruct (get_field (JObj fields) "objects") as [[| | | |items|]|];
      try (eexists _, _; split; [reflexivity|]; right; eauto).
    destruct (existsb is_null items);
      [eexists _, _; split; [reflexivity|]; right; eauto|].
    destruct (Ingest.values _ items) as [[[[[p1 p2] p3] p4] p5]|];
      eexists _, _; (split; [reflexivity|]); right; eauto. }
  destruct op as [|body|limit| |].
  - eexists _, _. split; [reflexivity|]. split; [reflexivity|]. done.
  - destruct (Hingest body) as (status & b & Hf & Hcases).
    exists status, b. split; [exact Hf|]. split; [|exact Hcases].
    cbn [Router.reaches_route]. destruct (Server.express_json body) eqn:Hb.
    + rewrite <- hostings_agree; [exact Hf|exact Hb].
    + unfold Router.via_server. by rewrite Hb.
  - destruct (history_answers now limit None) as [H' H'']. cbn in H', H''.
    eexists _, _. split; [exact H'|]. split; [exact H''|]. eauto.
  - eexists _, _. split; [reflexivity|]. split; [reflexivity|]. eauto.
  - eexists _, _. split; [reflexivity|]. split; [reflexivity|]. eauto.
Qed.

End Hostings.

(* ===================================================================== *)
(** ** Further instances                                                  *)
(* ===================================================================== *)

Section MoreInstances.

Import JS Http Aggregator.


Lemma sample_ids_below : Spec.ids_below Sample.table.
Proof. constructor. Defined.

(** After the first sample batch (id 1) was stored and purged, the second
    one gets id 2. *)
Lemma purge_keeps_the_id_sequence_witness :
  Spec.accepted Sample.stored Sample.second
  /\ Spec.ids_below Sample.stored
  /\ exists row t2,
       Router.answers 20 Router.Purge (Some Sample.stored)
         (Returns (200%Z, Deleted, Some (Session.purged Sample.stored)))
       /\ Router.answers 30 (Router.Ingest Sample.five_body)
            (Some (Session.purged Sample.stored))
            (Returns (200%Z, Saved row, Some t2))
       /\ Pg.rows t2 = [row]
       /\ Pg.id row = 2%Z
       /\ Pg.serial t2 = 3%Z
       /\ Forall (fun r => (Pg.id r < Pg.id row)%Z) [Sample.row].
Proof.
  assert (Spec.accepted Sample.stored Sample.second) as Ha.
  { apply accepted_with_row; [exact second_accepted|exact sample_ids_below|reflexivity|].
    cbn. lia. }
  assert (Spec.ids_below Sample.stored) as Hb by (repeat constructor).
  split; [exact Ha|]. split; [exact Hb|].
  exact (purge_keeps_the_id_sequence 20 30 Sample.stored Sample.second Ha Hb).
Defined.

(** After the function adapter created the relation, the server stores
    the sample batch. *)
Lemma initDatabase_creates_once_witness :
  Server.initDatabase (Api.initDatabase None) = Some Sample.table
  /\ Spec.accepted Sample.table Sample.first
  /\ exists row,
       Router.via_server 10 (Router.Ingest Sample.body) (Some Sample.table)
       = Returns (200%Z, Saved row, Some (Spec.with_row Sample.table row)).
Proof.
  split; [reflexivity|]. split; [exact first_accepted|].
  exact (proj2 (proj2 (proj2 (proj2 (initDatabase_creates_once None))))
           10%Z Sample.table Sample.first eq_refl first_accepted).
Defined.

(** The 404 answer to an unknown route carries the CORS headers. *)
Lemma every_answer_has_the_envelope_witness :
  exists r db',
    Api.handler 10 Sample.unknown_event None = Returns (r, db')
    /\ statusCode r = 404%Z /\ db' = None
    /\ (("Access-Control-Allow-Origin", "*") ∈ headers r)
    /\ (statusCode r = 200%Z <-> Session.is_error (body r) = false).
Proof.
  destruct (every_answer_has_the_envelope 10 Sample.unknown_event None)
    as (r & db' & H & Hh & _ & Hs & _).
  exists r, db'. split; [exact H|].
  vm_compute in H. injection H as <- <-.
  split; [reflexivity|]. split; [reflexivity|]. split; [by left|exact Hs].
Defined.

(** An empty objects array is answered 400. *)
Lemma status_400_and_404_witness :
  exists r db',
    Api.handler 10 (Session.post_event Sample.empty_objects_body) None = Returns (r, db')
    /\ statusCode r = 400%Z
    /\ exists parsed,
         Api.body (Session.post_event Sample.empty_objects_body) = Some parsed
         /\ parsed <> JNull
         /\ no_objects (get_field parsed "objects") = true.
Proof.
  destruct (status_400_and_404 10 (Session.post_event Sample.empty_objects_body) None)
    as (r & db' & H & Hst).
  cbv zeta in Hst. destruct Hst as [_ H400].
  exists r, db'. split; [exact H|].
  vm_compute in H. injection H as <- <-.
  split; [reflexivity|]. exact (proj2 (proj2 (proj1 H400 eq_refl))).
Defined.


(** The sample session leaves a sound relation, which holds the third
    batch under the id 3. *)
Lemma served_store_is_sound_witness :
  exists t,
    Session.serve Session.requests (Api.initDatabase None) = Returns (Some t)
    /\ Session.sound t
    /\ map Pg.id (Pg.rows t) = [3%Z]
    /\ Pg.serial t = 4%Z.
Proof.
  destruct (served_store_is_sound Session.requests) as (t & H & Hs & _).
  exists t. split; [exact H|]. split; [exact Hs|].
  vm_compute in H. injection H as <-. split; reflexivity.
Defined.


(** The second sample batch, stored at instant 20 after the first, is
    listed before it. *)
Lemma stored_event_is_listed_first_witness :
  Spec.accepted Sample.stored Sample.second
  /\ Pg.missing_column Sample.stored Pg.select_columns = None
  /\ Forall (fun r => (Pg.created_at r < 20)%Z) (Pg.rows Sample.stored)
  /\ exists row t',
       Router.answers 20 (Router.Ingest Sample.five_body) (Some Sample.stored)
         (Returns (200%Z, Saved row, Some t'))
       /\ Router.answers 30 (Router.History (Some "1")) (Some t')
            (Returns (200%Z, Listed 1 [row], Some t'))
       /\ Router.answers 30 (Router.History None) (Some t')
            (Returns (200%Z, Listed 2 [row; Sample.row], Some t')).
Proof.
  assert (Spec.accepted Sample.stored Sample.second) as Ha.
  { apply accepted_with_row; [exact second_accepted|exact sample_ids_below|reflexivity|].
    cbn. lia. }
  assert (Forall (fun r => (Pg.created_at r < 20)%Z) (Pg.rows Sample.stored)) as Ho
    by (repeat constructor).
  split; [exact Ha|]. split; [reflexivity|]. split; [exact Ho|].
  destruct (stored_event_is_listed_first 20 30 Sample.stored Sample.second Ha eq_refl Ho)
    as (row & t' & Hi & Hn & Hd).
  exists row, t'. split; [exact Hi|]. split; [|exact Hd].
  apply (Hn 1%Z). lia.
Defined.

(** The second sample batch takes the statistics from 1 event to 2, with
    8 objects and a maximum of 5. *)
Lemma ingest_adds_to_the_statistics_witness :
  Spec.accepted Sample.stored Sample.second
  /\ Pg.missing_column Sample.stored Pg.stats_columns = None
  /\ exists before row t' after,
       Router.answers 20 Router.Stats (Some Sample.stored)
         (Returns (200%Z, StatsOf before, Some Sample.stored))
       /\ Router.answers 20 (Router.Ingest Sample.five_body) (Some Sample.stored)
            (Returns (200%Z, Saved row, Some t'))
       /\ Router.answers 30 Router.Stats (Some t') (Returns (200%Z, StatsOf after, Some t'))
       /\ Pg.total_detections before = 1%Z
       /\ Pg.total_detections after = 2%Z
       /\ Pg.total_objects_detected after = Some 8%Z
       /\ Pg.max_objects_in_detection after = Some 5%Z.
Proof.
  assert (Spec.accepted Sample.stored Sample.second) as Ha.
  { apply accepted_with_row; [exact second_accepted|exact sample_ids_below|reflexivity|].
    cbn. lia. }
  split; [exact Ha|]. split; [reflexivity|].
  destruct (ingest_adds_to_the_statistics 20 30 Sample.stored Sample.second Ha eq_refl)
    as (before & row & t' & after & Hb & Hi & Hl & Hn & Hs & Hm).
  exists before, row, t', after. split; [exact Hb|]. split; [exact Hi|].
  split; [exact Hl|].
  destruct Hb as [Hb _]. vm_compute in Hb. injection Hb as <-. cbn in Hn, Hs, Hm.
  split; [reflexivity|]. split; [exact Hn|]. split; [exact Hs|exact Hm].
Defined.

(** An array of one object and null is answered 500. *)
Lemma null_object_answered_500_witness :
  get_field Session.null_item_body "objects"
  = Some (JArr [Sample.object "person" 0.5; JNull])
  /\ (JNull ∈ [Sample.object "person" 0.5; JNull])
  /\ Router.answers 10 (Router.Ingest Session.null_item_body) (Some Sample.table)
       (Returns (500%Z, Failure "Error guardando en base de datos" (Some TypeError),
                 Some Sample.table)).
Proof.
  assert (JNull ∈ [Sample.object "person" 0.5; JNull]) as Hin
    by (apply list_elem_of_In; right; left; reflexivity).
  split; [reflexivity|]. split; [exact Hin|].
  exact (null_object_answered_500 10 Session.null_item_body _ (Some Sample.table)
           eq_refl Hin).
Defined.

(** The second sample batch has no source and is stored under camera. *)
Lemma falsy_source_is_stored_as_camera_witness :
  get_field Sample.five_body "objects" = Some (JArr Sample.five_items)
  /\ mapM detected Sample.five_items = Some Sample.five
  /\ Sample.five <> []
  /\ not_ (get_field Sample.five_body "source") = true
  /\ Spec.storable Sample.table "camera" Sample.five
  /\ exists row,
       Router.answers 10 (Router.Ingest Sample.five_body) (Some Sample.table)
         (Returns (200%Z, Saved row, Some (Spec.with_row Sample.table row)))
       /\ Pg.source row = "camera".
Proof.
  assert (Sample.five <> []) as Hne by discriminate.
  assert (Spec.storable Sample.table "camera" Sample.five) as Hst
    by exact (proj2 (proj2 second_accepted)).
  split; [reflexivity|]. split; [reflexivity|]. split; [exact Hne|].
  split; [reflexivity|]. split; [exact Hst|].
  exact (proj1 (falsy_source_is_stored_as_camera 10 Sample.five_body Sample.table
                  Sample.five_items Sample.five eq_refl eq_refl Hne eq_refl Hst)).
Defined.

(** A source tag of 60 characters is refused. *)
Lemma long_source_is_refused_witness :
  Spec.carries Session.long_source_body Session.long_source Sample.items Sample.batch
  /\ (50 < Pg.characters Session.long_source)%nat
  /\ Pg.all_spaces (Pg.excess 50 Session.long_source) = false
  /\ exists db',
       Router.answers 10 (Router.Ingest Session.long_source_body) (Some Sample.table)
         (Returns (500%Z,
                   Failure "Error guardando en base de datos"
                     (Some (QueryError (Pg.StringTooLong 50))),
                   db'))
       /\ Session.stored db' = Some [].
Proof.
  assert (Spec.carries Session.long_source_body Session.long_source Sample.items
            Sample.batch) as Hc by (repeat split).
  assert (50 < Pg.characters Session.long_source)%nat as Hl by (vm_compute; lia).
  assert (Pg.all_spaces (Pg.excess 50 Session.long_source) = false) as Hs
    by (vm_compute; reflexivity).
  assert (Z.of_nat (length Sample.batch) < 2 ^ 31)%Z as Hn by (cbn; lia).
  split; [exact Hc|]. split; [exact Hl|]. split; [exact Hs|].
  exact (long_source_is_refused 10 Session.long_source_body Sample.table
           Session.long_source Sample.items Sample.batch Hc sample_not_empty eq_refl Hn
           Hl Hs).
Defined.

(** A source tag of 20 characters in 60 bytes fits VARCHAR(50) and is
    stored as it is. *)
Lemma multibyte_source_is_stored :
  String.length Session.euro_source = 60%nat
  /\ Pg.characters Session.euro_source = 20%nat
  /\ exists row,
       Router.answers 10 (Router.Ingest Session.euro_source_body) (Some Sample.table)
         (Returns (200%Z, Saved row, Some (Spec.with_row Sample.table row)))
       /\ Pg.source row = Session.euro_source.
Proof.
  split; [vm_compute; reflexivity|]. split; [vm_compute; reflexivity|].
  eexists. split; [split; vm_compute; reflexivity|]. vm_compute. reflexivity.
Qed.

(** One object with a label of 600 characters is refused. *)
Lemma long_summary_is_refused_not_cut_witness :
  (500 < Pg.characters
           (detectedObjectsText [ {| class := Session.long_label; score := 0.5 |} ]))%nat
  /\ exists e db',
       Router.answers 10 (Router.Ingest Session.long_label_body) (Some Sample.table)
         (Returns (500%Z, Failure "Error guardando en base de datos" (Some (QueryError e)),
                   db'))
       /\ Session.stored db' = Some [].
Proof.
  assert (Spec.carries Session.long_label_body "camera"
            [Sample.object Session.long_label 0.5]
            [ {| class := Session.long_label; score := 0.5 |} ]) as Hc by (repeat split).
  assert ([ {| class := Session.long_label; score := 0.5 |} ] <> []) as Hne by discriminate.
  assert (500 < Pg.characters
                  (detectedObjectsText
                     [ {| class := Session.long_label; score := 0.5 |} ]))%nat as Hl
    by (vm_compute; lia).
  split; [exact Hl|].
  exact (long_summary_is_refused_not_cut 10 Session.long_label_body (Some Sample.table)
           "camera" _ _ Hc Hne Hl).
Defined.

(** One object with score 10 is refused. *)
Lemma mean_out_of_range_is_refused_witness :
  Spec.round2 (avgConfidence [ {| class := "person"; score := 10 |} ]) = None
  /\ exists db',
       Router.answers 10 (Router.Ingest Session.score_ten_body) (Some Sample.table)
         (Returns (500%Z,
                   Failure "Error guardando en base de datos"
                     (Some (QueryError Pg.NumericOverflow)),
                   db'))
       /\ Session.stored db' = Some [].
Proof.
  assert (Spec.carries Session.score_ten_body "camera" [Sample.object "person" 10]
            [ {| class := "person"; score := 10 |} ]) as Hc by (repeat split).
  assert ([ {| class := "person"; score := 10 |} ] <> []) as Hne by discriminate.
  assert (String.length "camera" <= 50)%nat as Hl by (cbn; lia).
  assert (Z.of_nat (length [ {| class := "person"; score := 10 |} ]) < 2 ^ 31)%Z as Hn
    by (cbn; lia).
  assert (Spec.round2 (avgConfidence [ {| class := "person"; score := 10 |} ]) = None)
    as Hr by (vm_compute; reflexivity).
  split; [exact Hr|].
  exact (mean_out_of_range_is_refused 10 Session.score_ten_body Sample.table "camera" _ _
           Hc Hne eq_refl Hl Hn Hr).
Defined.

(** The sample batch: 2 pairs, counts adding up to 3. *)
Lemma summary_counts_add_up_witness :
  Forall (fun c => object_prototype c = None) (map class Sample.batch)
  /\ length (entries (objectCounts Sample.batch)) = 2%nat
  /\ sum_list_with (fun kv => Session.count_number (snd kv))
       (entries (objectCounts Sample.batch)) = 3%nat.
Proof.
  split; [exact sample_plain_labels|].
  destruct (summary_counts_add_up Sample.batch sample_plain_labels) as (Hl & Hs & _).
  split; [exact Hl|exact Hs].
Defined.

(** An object without a score is stored with the confidence NaN, and a
    source that is the number 5 as the text 5. *)
Lemma batch_without_scores_is_stored :
  exists row,
    Router.answers 10 (Router.Ingest Session.untyped_body) (Some Sample.table)
      (Returns (200%Z, Saved row, Some (Spec.with_row Sample.table row)))
    /\ Pg.source row = "5"
    /\ Pg.avg_confidence row = Pg.NaN
    /\ Pg.detected_objects row = "person (1)".
Proof.
  eexists. split; [split; vm_compute; reflexivity|]. repeat split.
Qed.

(** The limits 0x10 and 1_0 are read as 16 and 10. *)
Lemma other_spellings_of_a_limit :
  Pg.bigint (Pg.PText "0x10") = inr 16%Z
  /\ Pg.bigint (Pg.PText "1_0") = inr 10%Z
  /\ Router.answers 20 (Router.History (Some "0x1")) (Some Sample.stored)
       (Returns (200%Z, Listed 1 [Sample.row], Some Sample.stored)).
Proof. repeat split; vm_compute; reflexivity. Qed.

(** The limits abc, 2.5 and 9223372036854775810.5 are answered 500. *)
Lemma limit_that_is_no_integer_answered_500_witness :
  Pg.missing_column Sample.table Pg.select_columns = None
  /\ Router.answers 10 (Router.History (Some "abc")) (Some Sample.table)
       (Returns (500%Z,
                 Failure "Error obteniendo datos" (Some (QueryError Pg.InvalidNumber)),
                 Some Sample.table))
  /\ Router.answers 10 (Router.History (Some "2.5")) (Some Sample.table)
       (Returns (500%Z,
                 Failure "Error obteniendo datos" (Some (QueryError Pg.InvalidNumber)),
                 Some Sample.table))
  /\ Router.answers 10 (Router.History (Some "9223372036854775810.5"))
       (Some Sample.table)
       (Returns (500%Z,
                 Failure "Error obteniendo datos"
                   (Some (QueryError Pg.BigintOutOfRange)),
                 Some Sample.table)).
Proof.
  split; [reflexivity|].
  destruct (limit_that_is_no_integer_answered_500 10 Sample.table eq_refl)
    as (Hf & Ht & Hb).
  split; [|split].
  - apply (Hf "a"%char "bc"); (reflexivity || discriminate).
  - apply (Ht 2%Z "5"). lia.
  - apply (Hb 9223372036854775810%Z "5"). lia.
Defined.


(** Without the relation the statistics and the sample batch are answered
    500, and health 200. *)
Lemma without_the_relation_only_health_answers_200_witness :
  Router.answers 10 Router.Stats None
    (Returns (500%Z,
              Failure "Error obteniendo estadísticas"
                (Some (QueryError Pg.UndefinedTable)),
              None))
  /\ Router.answers 10 (Router.Ingest Sample.body) None
       (Returns (500%Z,
                 Failure "Error guardando en base de datos"
                   (Some (QueryError Pg.UndefinedTable)),
                 None))
  /\ exists status b,
       Router.answers 10 Router.Health None (Returns (status, b, None))
       /\ status = 200%Z /\ b = HealthOk 10.
Proof.
  split; [split; reflexivity|]. split; [split; vm_compute; reflexivity|].
  destruct (without_the_relation_only_health_answers_200 10 Router.Health)
    as (status & b & Hf & Hs & Hst & Hb).
  exists status, b. split; [split; [exact Hf|exact Hs]|]. split; [exact Hst|exact Hb].
Defined.

End MoreInstances.
